(** * Compute dispatch on the CSF back-end of panvk

    A shallow embedding of [src/panfrost/vulkan/csf/panvk_vX_cmd_dispatch.c]
    ([prepare_driver_set], [cmd_dispatch_prepare_tls], [cmd_dispatch],
    [CmdDispatchBase], [CmdDispatchIndirect]) and of the precompiled-kernel
    dispatch ([dispatch_precomp]).  The command buffer is an explicit state;
    every C function is a computation over it whose early [return]s keep
    the state reached so far.

    A few functions of the neighbouring files follow: the resource names of
    the linker ([resource_name_updated]), the memory heap of the physical
    device ([get_system_heap_size]), the size and the usage flags of an
    image ([panvk_image_get_total_size],
    [panvk_image_pre_mod_select_meta_adjustments]) and the binding of
    buffers to memory ([panvk_BindBufferMemory2]). *)

From Stdlib Require Import ZArith List Bool Lia.
From Stdlib Require String Ascii.
Import String.StringSyntax Ascii.AsciiSyntax.
Import ListNotations.
Local Open Scope Z_scope.
Delimit Scope string_scope with string.
Delimit Scope char_scope with char.

(** ** Machine arithmetic *)

(** [uint32_t] / [unsigned] and [uint64_t] / [size_t] wrap-around. *)
Definition u32 (x : Z) : Z := x mod 2 ^ 32.
Definition u64 (x : Z) : Z := x mod 2 ^ 64.

(** [#define MAX2(A, B) ((A) > (B) ? (A) : (B))] *)
Definition MAX2 (a b : Z) : Z := if a >? b then a else b.

(** [#define DIV_ROUND_UP(A, B) (((A) + (B) - 1) / (B))] *)
Definition DIV_ROUND_UP (a b : Z) : Z := (a + b - 1) / b.

(** [BITFIELD_MASK(b)]: the [b] low bits. *)
Definition BITFIELD_MASK (b : Z) : Z := Z.shiftl 1 b - 1.

(** ** Enumerations *)

Inductive VkResult :=
| VK_SUCCESS
| VK_ERROR_OUT_OF_HOST_MEMORY
| VK_ERROR_OUT_OF_DEVICE_MEMORY.

Definition VkResult_is_success (r : VkResult) : bool :=
  match r with VK_SUCCESS => true | _ => false end.

(** [enum panvk_subqueue_id] (panvk_queue.h). *)
Inductive panvk_subqueue_id :=
| PANVK_SUBQUEUE_VERTEX_TILER
| PANVK_SUBQUEUE_FRAGMENT
| PANVK_SUBQUEUE_COMPUTE.

Definition subqueue_index (q : panvk_subqueue_id) : Z :=
  match q with
  | PANVK_SUBQUEUE_VERTEX_TILER => 0
  | PANVK_SUBQUEUE_FRAGMENT => 1
  | PANVK_SUBQUEUE_COMPUTE => 2
  end.

Definition PANVK_SUBQUEUE_COUNT : Z := 3.

(** An array indexed by [enum panvk_subqueue_id]
    ([x[PANVK_SUBQUEUE_COUNT]]). *)
Record per_subqueue (A : Type) := {
  at_vertex_tiler : A;
  at_fragment : A;
  at_compute : A
}.
Arguments at_vertex_tiler {A}.
Arguments at_fragment {A}.
Arguments at_compute {A}.

Definition sq_get {A} (a : per_subqueue A) (q : panvk_subqueue_id) : A :=
  match q with
  | PANVK_SUBQUEUE_VERTEX_TILER => at_vertex_tiler a
  | PANVK_SUBQUEUE_FRAGMENT => at_fragment a
  | PANVK_SUBQUEUE_COMPUTE => at_compute a
  end.

Definition sq_set {A} (a : per_subqueue A) (q : panvk_subqueue_id) (v : A)
  : per_subqueue A :=
  match q with
  | PANVK_SUBQUEUE_VERTEX_TILER =>
      {| at_vertex_tiler := v; at_fragment := at_fragment a;
         at_compute := at_compute a |}
  | PANVK_SUBQUEUE_FRAGMENT =>
      {| at_vertex_tiler := at_vertex_tiler a; at_fragment := v;
         at_compute := at_compute a |}
  | PANVK_SUBQUEUE_COMPUTE =>
      {| at_vertex_tiler := at_vertex_tiler a; at_fragment := at_fragment a;
         at_compute := v |}
  end.

(** Modelled from the spec: the dirty aspects of the compute state cache,
    "{shader, descriptor-state, push-uniforms}", kept in "an explicit small
    bitset".  The enum and the [compute_state_*] macros that use it are
    declared in panvk_cmd_dispatch.h, which is not embedded here. *)
Inductive compute_dirty_aspect := CS | DESC_STATE | PUSH_UNIFORMS.

Definition dirty_bit (a : compute_dirty_aspect) : Z :=
  match a with CS => 0 | DESC_STATE => 1 | PUSH_UNIFORMS => 2 end.

Definition BITSET_TEST (set : Z) (b : Z) : bool := Z.testbit set b.
Definition BITSET_SET (set : Z) (b : Z) : Z := Z.lor set (Z.shiftl 1 b).
Definition BITSET_ZERO : Z := 0.

Inductive mali_task_axis := MALI_TASK_AXIS_X | MALI_TASK_AXIS_Y | MALI_TASK_AXIS_Z.
Inductive mali_cs_sync_scope := MALI_CS_SYNC_SCOPE_CSG.
Inductive panlib_barrier := PANLIB_BARRIER_NONE | PANLIB_BARRIER_OTHER (flags : Z).
Inductive mali_desc := LOCAL_STORAGE.

(** The transient pools of a command buffer ([desc], [tls], [varying]). *)
Inductive panvk_pool := pool_desc | pool_tls | pool_varying.

(** ** The instruction emitter

    The instruction encoding is not modelled: each [cs_*] call of the source
    appends one typed instruction to the stream of its builder. *)

(** Staging registers of the compute context ([cs_sr_reg*(b, COMPUTE, X)]). *)
Inductive compute_sr :=
| SRT_0 | FAU_0 | SPD_0 | TSD_0
| GLOBAL_ATTRIBUTE_OFFSET | WG_SIZE
| JOB_OFFSET_X | JOB_OFFSET_Y | JOB_OFFSET_Z
| JOB_SIZE_X | JOB_SIZE_Y | JOB_SIZE_Z.

Inductive cs_index :=
| cs_sr_reg32 (r : compute_sr)
| cs_sr_reg64 (r : compute_sr)
| cs_sr_reg_tuple (r : compute_sr) (n : Z)
| cs_scratch_reg32 (i : Z)
| cs_scratch_reg64 (i : Z)
| cs_scratch_reg_tuple (i n : Z)
| cs_subqueue_ctx_reg.

Inductive cs_async_op :=
| cs_defer (wait_mask : Z) (signal_slot : Z)
| cs_defer_indirect.

Record cs_shader_res_sel := {
  res_sel_srt : Z; res_sel_fau : Z; res_sel_spd : Z; res_sel_tsd : Z
}.

#[warnings="-register-all"]
Inductive cs_instr :=
| cs_move32_to (dst : cs_index) (imm : Z)
| cs_move64_to (dst : cs_index) (imm : Z)
| cs_load_to (dst addr : cs_index) (mask : Z) (offset : Z)
| cs_load64_to (dst addr : cs_index) (offset : Z)
| cs_store32 (data addr : cs_index) (offset : Z)
| cs_store64 (data addr : cs_index) (offset : Z)
| cs_flush_stores
| cs_add64 (dst src : cs_index) (imm : Z)
| cs_sync64_add (propagate_error : bool) (scope : mali_cs_sync_scope)
                (val addr : cs_index) (async : cs_async_op)
| cs_match (val scratch : cs_index) (cases : list (Z * list cs_instr))
| cs_next_iter_sb (subqueue : panvk_subqueue_id) (scratch : cs_index)
| cs_trace_run_compute (scratch : cs_index) (task_increment : Z)
                       (task_axis : mali_task_axis) (res_sel : cs_shader_res_sel).

(** ** Shaders, dispatch requests, descriptors *)

Record pan_compute_dim := { dim_x : Z; dim_y : Z; dim_z : Z }.

(** Modelled from the spec: the device address of a private memory object
    ([panvk_priv_mem_dev_addr]); null when nothing backs it. *)
Record panvk_priv_mem := { priv_mem_dev_addr : Z }.
Definition panvk_priv_mem_dev_addr (m : panvk_priv_mem) : Z := priv_mem_dev_addr m.

(** The fields of [struct panvk_shader] the dispatch path reads. *)
Record panvk_shader := {
  spd : panvk_priv_mem;
  info_tls_size : Z;
  info_wls_size : Z;
  cs_local_size : pan_compute_dim;
  desc_info_dyn_bufs_count : Z;
  desc_info_used_set_mask : Z;
  fau_total_count : Z
}.

Inductive compute_sysval := num_work_groups_x | num_work_groups_y | num_work_groups_z.

(** [struct panvk_dispatch_info]: both members are read by [cmd_dispatch];
    a request is indirect when [indirect.buffer_dev_addr] is not null. *)
Record panvk_dispatch_info := {
  wg_base : pan_compute_dim;
  direct_wg_count : pan_compute_dim;
  indirect_buffer_dev_addr : Z
}.

Record pan_ptr := { cpu : Z; gpu : Z }.

Record pan_tls_info := {
  tls_size : Z;
  wls_size : Z;
  wls_instances : Z;
  wls_ptr : Z
}.

Record panvk_driver_set := { dev_addr : Z; size : Z }.

(** [struct panvk_shader_desc_state]. *)
Record panvk_shader_desc_state := {
  driver_set : panvk_driver_set;
  res_table : Z
}.

Inductive alloc_request :=
| alloc_dev_mem (pool : panvk_pool) (sz align : Z)
| alloc_desc (d : mali_desc).

Record panlib_precomp_grid := { count0 : Z; count1 : Z; count2 : Z }.

Record bifrost_precompiled_kernel_sysvals := {
  pk_num_workgroups : pan_compute_dim;
  pk_printf_buffer_address : Z
}.

(** Stores made by the host through the CPU mapping of a transient block:
    element [st_slot] of the array that starts at CPU address [st_base]. *)
Inductive host_obj :=
| SAMPLER (clamp_integer_array_indices : bool)
| BUFFER (buf_size buf_address : Z)
| LOCAL_STORAGE_DESC (info : pan_tls_info)
| PRECOMP_PUSH_UNIFORMS (data : list Z) (data_size : Z)
                        (sysvals : bifrost_precompiled_kernel_sysvals).

Record host_store := { st_base : Z; st_slot : Z; st_obj : host_obj }.

(** ** External collaborators

    Everything [cmd_dispatch] calls that is defined in other files of the
    driver: the transient allocator, the descriptor and push-constant
    helpers, the hardware queries, the tracepoints and the build-time
    constants.  Each is a parameter; its type says which part of the command
    buffer it may touch. *)
Class Collaborators : Type := {
  (** opaque collaborator state *)
  pools_t : Type;
  panvk_descriptor_state : Type;
  panvk_compute_sysvals : Type;
  pan_kmod_dev_props : Type;
  u_trace : Type;
  panvk_buffer : Type;

  (** build-time constants and macros *)
  PAN_ARCH : Z;
  PANVK_DESCRIPTOR_SIZE : Z;
  SB_ITER : Z -> Z;
  SB_WAIT_ITER : Z -> Z;
  SB_ID_DEFERRED_SYNC : Z;
  offsetof_syncobjs : Z;
  sizeof_panvk_cs_sync64 : Z;
  BIFROST_PRECOMPILED_KERNEL_SYSVALS_SIZE : Z;

  (** Modelled from the spec: the transient allocator facade,
      "allocate(pool, size, alignment) -> Block | OUT_OF_DEVICE_MEMORY";
      a failed allocation is a block whose GPU address is null. *)
  ext_alloc : alloc_request -> pools_t -> pan_ptr * pools_t;

  (** Modelled from the spec: [panvk_per_arch(cmd_prepare_push_descs)]
      allocates the push descriptor sets in use; it acts on the pools and
      on the descriptor state. *)
  ext_prepare_push_descs :
    pools_t -> panvk_descriptor_state -> Z ->
    VkResult * pools_t * panvk_descriptor_state;

  (** Modelled from the spec: [panvk_per_arch(cmd_prepare_dispatch_sysvals)]
      refreshes the system values pushed to the shader; as a push operation
      it may mark aspects dirty (the mask returned), never clean. *)
  ext_prepare_dispatch_sysvals :
    panvk_compute_sysvals -> panvk_shader -> panvk_dispatch_info ->
    panvk_compute_sysvals * Z;

  (** Modelled from the spec: [panvk_per_arch(cmd_prepare_push_uniforms)]
      rebuilds the push-uniform block; it acts on the pools and yields the
      GPU address of the block. *)
  ext_prepare_push_uniforms :
    pools_t -> Z -> panvk_compute_sysvals -> Z -> panvk_shader -> Z ->
    VkResult * pools_t * Z;

  (** Modelled from the spec: [panvk_per_arch(cmd_prepare_shader_res_table)]
      rebuilds the resource table; it acts on the pools and yields the
      resource-table pointer. *)
  ext_prepare_shader_res_table :
    pools_t -> panvk_descriptor_state -> panvk_shader ->
    panvk_shader_desc_state -> Z -> VkResult * pools_t * Z;

  (** the [i]-th dynamic buffer (size, address) the shader references *)
  ext_dyn_buf : panvk_descriptor_state -> panvk_shader -> Z -> Z * Z;

  (** hardware queries and packing, pure functions of their arguments *)
  pan_query_core_count : pan_kmod_dev_props -> Z * Z;
  pan_calc_wls_instances :
    pan_compute_dim -> pan_kmod_dev_props -> option pan_compute_dim -> Z;
  pan_calc_workgroups_per_task : pan_compute_dim -> pan_kmod_dev_props -> Z;
  calculate_task_axis_and_increment :
    panvk_shader -> pan_kmod_dev_props -> mali_task_axis * Z ->
    mali_task_axis * Z;
  pack_COMPUTE_SIZE_WORKGROUP : Z -> Z -> Z -> bool -> Z;
  shader_uses_sysval : panvk_shader -> compute_sysval -> bool;
  sysval_offset : compute_sysval -> Z;
  shader_remapped_sysval_offset : panvk_shader -> Z -> Z;
  panvk_buffer_gpu_ptr : panvk_buffer -> Z -> Z;

  (** Modelled from the spec: the tracepoints of the entry points record
      into the tracing context of the subqueue, nothing else. *)
  ext_trace_begin_dispatch : u_trace -> u_trace;
  ext_trace_end_dispatch :
    u_trace -> pan_compute_dim -> pan_compute_dim -> pan_compute_dim -> u_trace;
  ext_trace_begin_dispatch_indirect : u_trace -> u_trace;
  ext_trace_end_dispatch_indirect : u_trace -> Z -> u_trace
}.

(** Modelled from the spec: [pan_calc_total_wls_size] is declared in
    pan_encoder.h, which is not embedded here; "workgroup-local storage
    total size = per_workgroup_size x instance_count x core_id_range". *)
Definition pan_calc_total_wls_size (wls_size wls_instances core_id_range : Z) : Z :=
  wls_size * wls_instances * core_id_range.

Section Model.

Context {E : Collaborators}.

(** ** The command buffer *)

Record panvk_device := {
  kmod_props : pan_kmod_dev_props;
  printf_bo_addr_dev : Z;
  precomp_cache : Z -> option panvk_shader
}.

(** [cmdbuf->state.cs[subqueue]].  Modelled from the spec: the declaration
    of [relative_sync_point] is not embedded here; the sync point is "a
    monotonically increasing integer". *)
Record panvk_cs_state := {
  builder : list cs_instr;
  relative_sync_point : Z
}.

(** [cmdbuf->state.compute]. *)
Record panvk_cmd_compute_state := {
  shader : panvk_shader;
  desc_state : panvk_descriptor_state;
  cs_desc : panvk_shader_desc_state;
  push_uniforms : Z;
  sysvals : panvk_compute_sysvals;
  dirty : Z
}.

(** [cmdbuf->state.tls]. *)
Record panvk_tls_state := {
  tls_info_tls_size : Z;
  tls_desc : pan_ptr
}.

Record panvk_cmd_buffer := {
  device : panvk_device;
  pools : pools_t;
  (** every request made through [panvk_cmd_alloc_*] by the functions
      below, with the block it got, oldest first *)
  alloc_log : list (alloc_request * pan_ptr);
  host_stores : list host_store;
  compute : panvk_cmd_compute_state;
  tls : panvk_tls_state;
  cs : per_subqueue panvk_cs_state;
  utrace_uts : per_subqueue u_trace
}.

Definition set_pools (p : pools_t) (c : panvk_cmd_buffer) : panvk_cmd_buffer :=
  {| device := device c; pools := p; alloc_log := alloc_log c;
     host_stores := host_stores c; compute := compute c; tls := tls c;
     cs := cs c; utrace_uts := utrace_uts c |}.

Definition set_alloc_log (l : list (alloc_request * pan_ptr))
  (c : panvk_cmd_buffer) : panvk_cmd_buffer :=
  {| device := device c; pools := pools c; alloc_log := l;
     host_stores := host_stores c; compute := compute c; tls := tls c;
     cs := cs c; utrace_uts := utrace_uts c |}.

Definition set_host_stores (l : list host_store)
  (c : panvk_cmd_buffer) : panvk_cmd_buffer :=
  {| device := device c; pools := pools c; alloc_log := alloc_log c;
     host_stores := l; compute := compute c; tls := tls c;
     cs := cs c; utrace_uts := utrace_uts c |}.

Definition set_compute (s : panvk_cmd_compute_state)
  (c : panvk_cmd_buffer) : panvk_cmd_buffer :=
  {| device := device c; pools := pools c; alloc_log := alloc_log c;
     host_stores := host_stores c; compute := s; tls := tls c;
     cs := cs c; utrace_uts := utrace_uts c |}.

Definition set_tls (t : panvk_tls_state)
  (c : panvk_cmd_buffer) : panvk_cmd_buffer :=
  {| device := device c; pools := pools c; alloc_log := alloc_log c;
     host_stores := host_stores c; compute := compute c; tls := t;
     cs := cs c; utrace_uts := utrace_uts c |}.

Definition set_cs (q : panvk_subqueue_id) (s : panvk_cs_state)
  (c : panvk_cmd_buffer) : panvk_cmd_buffer :=
  {| device := device c; pools := pools c; alloc_log := alloc_log c;
     host_stores := host_stores c; compute := compute c; tls := tls c;
     cs := sq_set (cs c) q s; utrace_uts := utrace_uts c |}.

Definition set_utrace (q : panvk_subqueue_id) (u : u_trace)
  (c : panvk_cmd_buffer) : panvk_cmd_buffer :=
  {| device := device c; pools := pools c; alloc_log := alloc_log c;
     host_stores := host_stores c; compute := compute c; tls := tls c;
     cs := cs c; utrace_uts := sq_set (utrace_uts c) q u |}.

Definition with_dirty (d : Z) (s : panvk_cmd_compute_state) :=
  {| shader := shader s; desc_state := desc_state s; cs_desc := cs_desc s;
     push_uniforms := push_uniforms s; sysvals := sysvals s; dirty := d |}.

Definition with_desc_state (d : panvk_descriptor_state)
  (s : panvk_cmd_compute_state) :=
  {| shader := shader s; desc_state := d; cs_desc := cs_desc s;
     push_uniforms := push_uniforms s; sysvals := sysvals s; dirty := dirty s |}.

Definition with_cs_desc (d : panvk_shader_desc_state)
  (s : panvk_cmd_compute_state) :=
  {| shader := shader s; desc_state := desc_state s; cs_desc := d;
     push_uniforms := push_uniforms s; sysvals := sysvals s; dirty := dirty s |}.

Definition with_push_uniforms (p : Z) (s : panvk_cmd_compute_state) :=
  {| shader := shader s; desc_state := desc_state s; cs_desc := cs_desc s;
     push_uniforms := p; sysvals := sysvals s; dirty := dirty s |}.

Definition with_sysvals (v : panvk_compute_sysvals)
  (s : panvk_cmd_compute_state) :=
  {| shader := shader s; desc_state := desc_state s; cs_desc := cs_desc s;
     push_uniforms := push_uniforms s; sysvals := v; dirty := dirty s |}.

(** ** Computations over the command buffer

    [M R A]: a piece of a C function whose [return] statement carries an
    [R]; [inl r] is an early [return r], [inr a] falls through with [a].
    The state is kept in both cases. *)
Definition M (R A : Type) : Type :=
  panvk_cmd_buffer -> (R + A) * panvk_cmd_buffer.

Definition ret {R A} (a : A) : M R A := fun c => (inr a, c).

Definition creturn {R A} (r : R) : M R A := fun c => (inl r, c).

Definition bind {R A B} (m : M R A) (k : A -> M R B) : M R B :=
  fun c =>
    match m c with
    | (inl r, c') => (inl r, c')
    | (inr a, c') => k a c'
    end.

Definition get {R} : M R panvk_cmd_buffer := fun c => (inr c, c).

Definition modify {R} (f : panvk_cmd_buffer -> panvk_cmd_buffer) : M R unit :=
  fun c => (inr tt, f c).

(** Calling a function: its [return]s, early or final, give the value. *)
Definition call {R R'} (m : M R R) : M R' R :=
  fun c =>
    match m c with
    | (inl r, c') => (inr r, c')
    | (inr r, c') => (inr r, c')
    end.

Definition run {R} (m : M R R) (c : panvk_cmd_buffer) : R * panvk_cmd_buffer :=
  match m c with
  | (inl r, c') => (r, c')
  | (inr r, c') => (r, c')
  end.

End Model.

Declare Scope cmd_scope.
Delimit Scope cmd_scope with cmd.
Notation "x <- m ;; k" := (bind m (fun x => k))
  (at level 61, m at next level, right associativity) : cmd_scope.
Notation "m ;; k" := (bind m (fun _ => k))
  (at level 61, right associativity) : cmd_scope.

Section Dispatch.

Context {E : Collaborators}.
Local Open Scope cmd_scope.

(** ** Primitive operations on the command buffer *)

Definition panvk_cmd_alloc {R} (req : alloc_request) : M R pan_ptr :=
  fun c =>
    let (p, pools') := ext_alloc req (pools c) in
    (inr p, set_alloc_log (alloc_log c ++ [(req, p)]) (set_pools pools' c)).

(** [panvk_cmd_alloc_dev_mem(cmdbuf, pool, size, align)] *)
Definition panvk_cmd_alloc_dev_mem {R} (pool : panvk_pool) (sz align : Z)
  : M R pan_ptr :=
  panvk_cmd_alloc (alloc_dev_mem pool sz align).

(** [panvk_cmd_alloc_desc(cmdbuf, DESC)] *)
Definition panvk_cmd_alloc_desc {R} (d : mali_desc) : M R pan_ptr :=
  panvk_cmd_alloc (alloc_desc d).

(** Modelled from the spec: "is_dirty(aspect) -> bool". *)
Definition compute_state_dirty (c : panvk_cmd_buffer)
  (a : compute_dirty_aspect) : bool :=
  BITSET_TEST (dirty (compute c)) (dirty_bit a).

(** Modelled from the spec: "mark_dirty(aspect)". *)
Definition compute_state_set_dirty {R} (a : compute_dirty_aspect) : M R unit :=
  modify (fun c =>
    set_compute (with_dirty (BITSET_SET (dirty (compute c)) (dirty_bit a))
                            (compute c)) c).

(** Modelled from the spec: "clear all dirty aspects for this dispatch
    type". *)
Definition clear_dirty_after_dispatch {R} : M R unit :=
  modify (fun c => set_compute (with_dirty BITSET_ZERO (compute c)) c).

(** One [cs_*] call on the builder of subqueue [q]. *)
Definition emit {R} (q : panvk_subqueue_id) (i : cs_instr) : M R unit :=
  modify (fun c =>
    set_cs q {| builder := builder (sq_get (cs c) q) ++ [i];
                relative_sync_point := relative_sync_point (sq_get (cs c) q) |}
           c).

Fixpoint emit_all {R} (q : panvk_subqueue_id) (l : list cs_instr) : M R unit :=
  match l with
  | [] => ret tt
  | i :: l' => emit q i ;; emit_all q l'
  end.

Definition host_write {R} (base slot : Z) (o : host_obj) : M R unit :=
  modify (fun c =>
    set_host_stores
      (host_stores c ++ [{| st_base := base; st_slot := slot; st_obj := o |}]) c).

Definition when {R} (b : bool) (m : M R unit) : M R unit :=
  if b then m else ret tt.

(** ** Helpers of the descriptor state cache *)

(** Modelled from the spec: [panvk_per_arch(cmd_fill_dyn_bufs)] is defined
    in another file of the driver; it writes "one entry per dynamic buffer
    the shader references", [buffers[i]] for [i < dyn_bufs.count].
    [buffers] is element [first] of the array at [base]. *)
Definition cmd_fill_dyn_bufs {R} (ds : panvk_descriptor_state)
  (s : panvk_shader) (base first : Z) : M R unit :=
  modify (fun c =>
    set_host_stores
      (host_stores c ++
       map (fun i =>
              {| st_base := base;
                 st_slot := first + Z.of_nat i;
                 st_obj := BUFFER (fst (ext_dyn_buf ds s (Z.of_nat i)))
                                  (snd (ext_dyn_buf ds s (Z.of_nat i))) |})
           (seq 0 (Z.to_nat (desc_info_dyn_bufs_count s)))) c).

Definition cmd_prepare_push_descs {R} (used_set_mask : Z) : M R VkResult :=
  fun c =>
    let '(r, p, d) :=
      ext_prepare_push_descs (pools c) (desc_state (compute c)) used_set_mask in
    (inr r, set_compute (with_desc_state d (compute c)) (set_pools p c)).

Definition cmd_prepare_dispatch_sysvals {R} (info : panvk_dispatch_info)
  : M R unit :=
  fun c =>
    let (v, mask) :=
      ext_prepare_dispatch_sysvals (sysvals (compute c)) (shader (compute c))
                                   info in
    (inr tt,
     set_compute
       (with_dirty (Z.lor (dirty (compute c)) mask)
                   (with_sysvals v (compute c))) c).

Definition cmd_prepare_push_uniforms {R} (s : panvk_shader) (repeat_count : Z)
  : M R VkResult :=
  fun c =>
    let '(r, p, pu) :=
      ext_prepare_push_uniforms (pools c) (dirty (compute c))
        (sysvals (compute c)) (push_uniforms (compute c)) s repeat_count in
    (inr r, set_compute (with_push_uniforms pu (compute c)) (set_pools p c)).

Definition cmd_prepare_shader_res_table {R} (s : panvk_shader)
  (repeat_count : Z) : M R VkResult :=
  fun c =>
    let '(r, p, rt) :=
      ext_prepare_shader_res_table (pools c) (desc_state (compute c)) s
        (cs_desc (compute c)) repeat_count in
    (inr r,
     set_compute
       (with_cs_desc {| driver_set := driver_set (cs_desc (compute c));
                        res_table := rt |} (compute c))
       (set_pools p c)).

(** ** [prepare_driver_set] *)

Definition prepare_driver_set : M VkResult VkResult :=
  c <- get ;;
  if negb (compute_state_dirty c CS) && negb (compute_state_dirty c DESC_STATE)
  then creturn VK_SUCCESS
  else
    let desc_state := desc_state (compute c) in
    let cs := shader (compute c) in
    let desc_count := u32 (desc_info_dyn_bufs_count cs + 1) in
    driver_set <- panvk_cmd_alloc_dev_mem pool_desc
                    (u32 (desc_count * PANVK_DESCRIPTOR_SIZE))
                    PANVK_DESCRIPTOR_SIZE ;;
    let descs := cpu driver_set in
    if gpu driver_set =? 0 then creturn VK_ERROR_OUT_OF_DEVICE_MEMORY
    else
      (* Dummy sampler always comes first. *)
      host_write descs 0 (SAMPLER false) ;;
      cmd_fill_dyn_bufs desc_state cs descs 1 ;;
      modify (fun c =>
        set_compute
          (with_cs_desc
             {| driver_set :=
                  {| dev_addr := gpu driver_set;
                     size := u32 (desc_count * PANVK_DESCRIPTOR_SIZE) |};
                res_table := res_table (cs_desc (compute c)) |}
             (compute c)) c) ;;
      compute_state_set_dirty DESC_STATE ;;
      ret VK_SUCCESS.

(** ** [panvk_per_arch(cmd_dispatch_prepare_tls)] *)

Definition cmd_dispatch_prepare_tls (s : panvk_shader) (dim : pan_compute_dim)
  (indirect : bool) : M Z Z :=
  c <- get ;;
  let props := kmod_props (device c) in
  tsd <- panvk_cmd_alloc_desc LOCAL_STORAGE ;;
  if gpu tsd =? 0 then creturn (gpu tsd)
  else
    tlsinfo <-
      (if info_wls_size s =? 0
       then ret {| tls_size := info_tls_size s; wls_size := info_wls_size s;
                   wls_instances := 0; wls_ptr := 0 |}
       else
         let core_id_range := snd (pan_query_core_count props) in
         let instances :=
           pan_calc_wls_instances (cs_local_size s) props
             (if indirect then None else Some dim) in
         let wls_total_size :=
           u32 (pan_calc_total_wls_size (info_wls_size s) instances
                                        core_id_range) in
         wls <- panvk_cmd_alloc_dev_mem pool_tls wls_total_size 4096 ;;
         if gpu wls =? 0 then creturn 0
         else ret {| tls_size := info_tls_size s; wls_size := info_wls_size s;
                     wls_instances := instances; wls_ptr := gpu wls |}) ;;
    modify (fun c =>
      set_tls {| tls_info_tls_size :=
                   MAX2 (info_tls_size s) (tls_info_tls_size (tls c));
                 tls_desc := tls_desc (tls c) |} c) ;;
    c <- get ;;
    (if gpu (tls_desc (tls c)) =? 0
     then
       d <- panvk_cmd_alloc_desc LOCAL_STORAGE ;;
       modify (fun c =>
         set_tls {| tls_info_tls_size := tls_info_tls_size (tls c);
                    tls_desc := d |} c) ;;
       if gpu d =? 0 then creturn 0 else ret tt
     else ret tt) ;;
    (* GENX(pan_emit_tls)(&tlsinfo, tsd.cpu) *)
    host_write (cpu tsd) 0 (LOCAL_STORAGE_DESC tlsinfo) ;;
    ret (gpu tsd).

(** ** The completion signal

    The same text closes [cmd_dispatch] and [dispatch_precomp]: the sync
    object of the compute subqueue is incremented by one, deferred on the
    scoreboard iteration ([PAN_ARCH < 11]) or indirectly ([PAN_ARCH >= 11]). *)

Definition sync_add_case (x : Z) : Z * list cs_instr :=
  (SB_ITER x,
   [cs_sync64_add true MALI_CS_SYNC_SCOPE_CSG (cs_scratch_reg64 4)
      (cs_scratch_reg64 0) (cs_defer (SB_WAIT_ITER x) SB_ID_DEFERRED_SYNC)]).

Definition sync_epilogue : list cs_instr :=
  if 11 <=? PAN_ARCH then
    [cs_load64_to (cs_scratch_reg64 0) cs_subqueue_ctx_reg offsetof_syncobjs;
     cs_add64 (cs_scratch_reg64 0) (cs_scratch_reg64 0)
       (subqueue_index PANVK_SUBQUEUE_COMPUTE * sizeof_panvk_cs_sync64);
     cs_move64_to (cs_scratch_reg64 2) 1;
     cs_sync64_add true MALI_CS_SYNC_SCOPE_CSG (cs_scratch_reg64 2)
       (cs_scratch_reg64 0) cs_defer_indirect]
  else
    [cs_load_to (cs_scratch_reg_tuple 0 3) cs_subqueue_ctx_reg
       (BITFIELD_MASK 3) offsetof_syncobjs;
     cs_add64 (cs_scratch_reg64 0) (cs_scratch_reg64 0)
       (subqueue_index PANVK_SUBQUEUE_COMPUTE * sizeof_panvk_cs_sync64);
     cs_move64_to (cs_scratch_reg64 4) 1;
     cs_match (cs_scratch_reg32 2) (cs_scratch_reg32 3)
       [sync_add_case 0; sync_add_case 1; sync_add_case 2;
        sync_add_case 3; sync_add_case 4]].

(** [++cmdbuf->state.cs[q].relative_sync_point] *)
Definition incr_relative_sync_point {R} (q : panvk_subqueue_id) : M R unit :=
  modify (fun c =>
    set_cs q {| builder := builder (sq_get (cs c) q);
                relative_sync_point :=
                  relative_sync_point (sq_get (cs c) q) + 1 |} c).

(** Copy the global TLS pointer to the per-job TSD. *)
Definition copy_tls_pointer {R} (s : panvk_shader) (tsd : Z) : M R unit :=
  let b := PANVK_SUBQUEUE_COMPUTE in
  c <- get ;;
  when (negb (info_tls_size s =? 0))
    (emit b (cs_move64_to (cs_scratch_reg64 0) (gpu (tls_desc (tls c)))) ;;
     emit b (cs_load64_to (cs_scratch_reg64 2) (cs_scratch_reg64 0) 8) ;;
     emit b (cs_move64_to (cs_scratch_reg64 0) tsd) ;;
     emit b (cs_store64 (cs_scratch_reg64 2) (cs_scratch_reg64 0) 8) ;;
     emit b cs_flush_stores).

(** ** [cmd_dispatch] *)

(** Which [return] of [cmd_dispatch] was taken. *)
Inductive dispatch_exit :=
| SKIP_NO_SHADER          (* line 130 *)
| ABORT_TLS               (* line 151 *)
| ABORT_PUSH_DESCS        (* line 164 *)
| ABORT_DRIVER_SET        (* line 171 *)
| ABORT_PUSH_UNIFORMS     (* line 176 *)
| ABORT_RES_TABLE         (* line 183 *)
| DISPATCHED.             (* end of the function *)

Definition store_num_work_groups {R} (s : panvk_shader) (v : compute_sysval)
  (r : compute_sr) : M R unit :=
  when (shader_uses_sysval s v)
    (emit PANVK_SUBQUEUE_COMPUTE
       (cs_store32 (cs_sr_reg32 r) (cs_scratch_reg64 0)
          (shader_remapped_sysval_offset s (sysval_offset v)))).

(** Lines 186-345 of [cmd_dispatch]: everything emitted on the builder of
    the compute subqueue, once the state has been prepared. *)
Definition cmd_dispatch_emit {R} (info : panvk_dispatch_info)
  (shader : panvk_shader) (props : pan_kmod_dev_props) (tsd : Z)
  (indirect : bool) (wg_per_task : Z) : M R unit :=
  let b := PANVK_SUBQUEUE_COMPUTE in
  copy_tls_pointer shader tsd ;;
  (* cs_update_compute_ctx(b) *)
  c <- get ;;
  when (compute_state_dirty c CS || compute_state_dirty c DESC_STATE)
    (emit b (cs_move64_to (cs_sr_reg64 SRT_0)
               (res_table (cs_desc (compute c))))) ;;
  when (compute_state_dirty c PUSH_UNIFORMS)
    (emit b (cs_move64_to (cs_sr_reg64 FAU_0)
               (Z.lor (push_uniforms (compute c))
                      (u64 (Z.shiftl (fau_total_count shader) 56))))) ;;
  when (compute_state_dirty c CS)
    (emit b (cs_move64_to (cs_sr_reg64 SPD_0)
               (panvk_priv_mem_dev_addr (spd shader)))) ;;
  emit b (cs_move64_to (cs_sr_reg64 TSD_0) tsd) ;;
  (* Global attribute offset *)
  emit b (cs_move32_to (cs_sr_reg32 GLOBAL_ATTRIBUTE_OFFSET) 0) ;;
  emit b (cs_move32_to (cs_sr_reg32 WG_SIZE)
            (pack_COMPUTE_SIZE_WORKGROUP
               (dim_x (cs_local_size shader))
               (dim_y (cs_local_size shader))
               (dim_z (cs_local_size shader)) false)) ;;
  emit b (cs_move32_to (cs_sr_reg32 JOB_OFFSET_X) 0) ;;
  emit b (cs_move32_to (cs_sr_reg32 JOB_OFFSET_Y) 0) ;;
  emit b (cs_move32_to (cs_sr_reg32 JOB_OFFSET_Z) 0) ;;
  (if indirect then
     (* Load parameters from indirect buffer and update workgroup count
        registers and sysvals *)
     emit b (cs_move64_to (cs_scratch_reg64 0)
               (indirect_buffer_dev_addr info)) ;;
     emit b (cs_load_to (cs_sr_reg_tuple JOB_SIZE_X 3)
               (cs_scratch_reg64 0) (BITFIELD_MASK 3) 0) ;;
     emit b (cs_move64_to (cs_scratch_reg64 0)
               (push_uniforms (compute c))) ;;
     store_num_work_groups shader num_work_groups_x JOB_SIZE_X ;;
     store_num_work_groups shader num_work_groups_y JOB_SIZE_Y ;;
     store_num_work_groups shader num_work_groups_z JOB_SIZE_Z ;;
     emit b cs_flush_stores
   else
     emit b (cs_move32_to (cs_sr_reg32 JOB_SIZE_X)
               (dim_x (direct_wg_count info))) ;;
     emit b (cs_move32_to (cs_sr_reg32 JOB_SIZE_Y)
               (dim_y (direct_wg_count info))) ;;
     emit b (cs_move32_to (cs_sr_reg32 JOB_SIZE_Z)
               (dim_z (direct_wg_count info)))) ;;
  emit b (cs_next_iter_sb PANVK_SUBQUEUE_COMPUTE (cs_scratch_reg_tuple 0 2)) ;;
  (if indirect then
     (* run_compute with a set task axis instead of run_compute_indirect *)
     let task_axis := MALI_TASK_AXIS_X in
     emit b (cs_trace_run_compute (cs_scratch_reg_tuple 0 4)
               wg_per_task task_axis
               {| res_sel_srt := 0; res_sel_fau := 0;
                  res_sel_spd := 0; res_sel_tsd := 0 |})
   else
     let task_axis := MALI_TASK_AXIS_X in
     let task_increment := 0 in
     emit b (cs_trace_run_compute (cs_scratch_reg_tuple 0 4)
               (snd (calculate_task_axis_and_increment shader props
                       (task_axis, task_increment)))
               (fst (calculate_task_axis_and_increment shader props
                       (task_axis, task_increment)))
               {| res_sel_srt := 0; res_sel_fau := 0;
                  res_sel_spd := 0; res_sel_tsd := 0 |})) ;;
  emit_all b sync_epilogue.

Definition cmd_dispatch_body (info : panvk_dispatch_info)
  : M dispatch_exit dispatch_exit :=
  c <- get ;;
  let shader := shader (compute c) in
  (* If there's no compute shader, we can skip the dispatch. *)
  if panvk_priv_mem_dev_addr (spd shader) =? 0 then creturn SKIP_NO_SHADER
  else
    let props := kmod_props (device c) in
    let dim := {| dim_x := dim_x (direct_wg_count info);
                  dim_y := dim_y (direct_wg_count info);
                  dim_z := dim_z (direct_wg_count info) |} in
    let indirect := negb (indirect_buffer_dev_addr info =? 0) in
    tsd <- call (cmd_dispatch_prepare_tls shader dim indirect) ;;
    if tsd =? 0 then creturn ABORT_TLS
    else
      (* Only used for indirect dispatch *)
      let wg_per_task :=
        if indirect
        then pan_calc_workgroups_per_task (cs_local_size shader) props
        else 0 in
      c <- get ;;
      (if compute_state_dirty c DESC_STATE || compute_state_dirty c CS
       then
         result <- cmd_prepare_push_descs (desc_info_used_set_mask shader) ;;
         if VkResult_is_success result then ret tt
         else creturn ABORT_PUSH_DESCS
       else ret tt) ;;
      cmd_prepare_dispatch_sysvals info ;;
      result <- call prepare_driver_set ;;
      if negb (VkResult_is_success result) then creturn ABORT_DRIVER_SET
      else
        result <- cmd_prepare_push_uniforms shader 1 ;;
        if negb (VkResult_is_success result) then creturn ABORT_PUSH_UNIFORMS
        else
          c <- get ;;
          (if compute_state_dirty c CS || compute_state_dirty c DESC_STATE
           then
             result <- cmd_prepare_shader_res_table shader 1 ;;
             if VkResult_is_success result then ret tt
             else creturn ABORT_RES_TABLE
           else ret tt) ;;
          cmd_dispatch_emit info shader props tsd indirect wg_per_task ;;
          incr_relative_sync_point PANVK_SUBQUEUE_COMPUTE ;;
          clear_dirty_after_dispatch ;;
          ret DISPATCHED.

Definition cmd_dispatch_exit (info : panvk_dispatch_info)
  (c : panvk_cmd_buffer) : dispatch_exit :=
  fst (run (cmd_dispatch_body info) c).

Definition cmd_dispatch (info : panvk_dispatch_info)
  (c : panvk_cmd_buffer) : panvk_cmd_buffer :=
  snd (run (cmd_dispatch_body info) c).

(** ** Entry points *)

(** The entry points return nothing; the [dispatch_exit] kept beside the
    final state only records how [cmd_dispatch] left. *)
Definition CmdDispatchBase_exit (cmdbuf : panvk_cmd_buffer)
  (baseGroupX baseGroupY baseGroupZ groupCountX groupCountY groupCountZ : Z)
  : dispatch_exit * panvk_cmd_buffer :=
  let q := PANVK_SUBQUEUE_COMPUTE in
  let shader := shader (compute cmdbuf) in
  let base := {| dim_x := baseGroupX; dim_y := baseGroupY;
                 dim_z := baseGroupZ |} in
  let count := {| dim_x := groupCountX; dim_y := groupCountY;
                  dim_z := groupCountZ |} in
  let info := {| wg_base := base; direct_wg_count := count;
                 indirect_buffer_dev_addr := 0 |} in
  let c1 := set_utrace q
              (ext_trace_begin_dispatch (sq_get (utrace_uts cmdbuf) q))
              cmdbuf in
  let c2 := cmd_dispatch info c1 in
  (cmd_dispatch_exit info c1,
   set_utrace q
     (ext_trace_end_dispatch (sq_get (utrace_uts c2) q) base count
                             (cs_local_size shader))
     c2).

Definition CmdDispatchBase (cmdbuf : panvk_cmd_buffer)
  (baseGroupX baseGroupY baseGroupZ groupCountX groupCountY groupCountZ : Z)
  : panvk_cmd_buffer :=
  snd (CmdDispatchBase_exit cmdbuf baseGroupX baseGroupY baseGroupZ
                            groupCountX groupCountY groupCountZ).

Definition indirect_info (buffer_gpu : Z) : panvk_dispatch_info :=
  {| wg_base := {| dim_x := 0; dim_y := 0; dim_z := 0 |};
     direct_wg_count := {| dim_x := 0; dim_y := 0; dim_z := 0 |};
     indirect_buffer_dev_addr := buffer_gpu |}.

Definition CmdDispatchIndirect_exit (cmdbuf : panvk_cmd_buffer)
  (buffer : panvk_buffer) (offset : Z) : dispatch_exit * panvk_cmd_buffer :=
  let q := PANVK_SUBQUEUE_COMPUTE in
  let buffer_gpu := panvk_buffer_gpu_ptr buffer offset in
  let info := indirect_info buffer_gpu in
  let c1 := set_utrace q
              (ext_trace_begin_dispatch_indirect (sq_get (utrace_uts cmdbuf) q))
              cmdbuf in
  let c2 := cmd_dispatch info c1 in
  (cmd_dispatch_exit info c1,
   set_utrace q
     (ext_trace_end_dispatch_indirect (sq_get (utrace_uts c2) q) buffer_gpu)
     c2).

Definition CmdDispatchIndirect (cmdbuf : panvk_cmd_buffer)
  (buffer : panvk_buffer) (offset : Z) : panvk_cmd_buffer :=
  snd (CmdDispatchIndirect_exit cmdbuf buffer offset).

(** ** [panvk_per_arch(dispatch_precomp)] *)

(** Which [assert] of [dispatch_precomp] fails. *)
Inductive precomp_assert :=
| ASSERT_BARRIER          (* line 25 *)
| ASSERT_SHADER           (* line 33 *)
| ASSERT_PUSH_UNIFORMS    (* line 38 *)
| ASSERT_TSD.             (* line 55 *)

Definition c_assert (b : bool) (a : precomp_assert) : M precomp_assert unit :=
  if b then ret tt else creturn a.

(** Lines 57-158 of [dispatch_precomp]: everything emitted on the builder
    of the compute subqueue. *)
Definition dispatch_precomp_emit {R} (grid : panlib_precomp_grid)
  (shader : panvk_shader) (props : pan_kmod_dev_props) (push_uniforms : pan_ptr)
  (data_size : Z) (tsd : Z) : M R unit :=
  let b := PANVK_SUBQUEUE_COMPUTE in
  copy_tls_pointer shader tsd ;;
  (* cs_update_compute_ctx(b) *)
  (* No resource table *)
  emit b (cs_move64_to (cs_sr_reg64 SRT_0) 0) ;;
  let fau_count :=
    DIV_ROUND_UP (u64 (BIFROST_PRECOMPILED_KERNEL_SYSVALS_SIZE + data_size))
                 8 in
  emit b (cs_move64_to (cs_sr_reg64 FAU_0)
            (Z.lor (gpu push_uniforms) (u64 (Z.shiftl fau_count 56)))) ;;
  emit b (cs_move64_to (cs_sr_reg64 SPD_0)
            (panvk_priv_mem_dev_addr (spd shader))) ;;
  emit b (cs_move64_to (cs_sr_reg64 TSD_0) tsd) ;;
  (* Global attribute offset *)
  emit b (cs_move32_to (cs_sr_reg32 GLOBAL_ATTRIBUTE_OFFSET) 0) ;;
  emit b (cs_move32_to (cs_sr_reg32 WG_SIZE)
            (pack_COMPUTE_SIZE_WORKGROUP
               (dim_x (cs_local_size shader))
               (dim_y (cs_local_size shader))
               (dim_z (cs_local_size shader)) false)) ;;
  (* Job offset *)
  emit b (cs_move32_to (cs_sr_reg32 JOB_OFFSET_X) 0) ;;
  emit b (cs_move32_to (cs_sr_reg32 JOB_OFFSET_Y) 0) ;;
  emit b (cs_move32_to (cs_sr_reg32 JOB_OFFSET_Z) 0) ;;
  (* Job size *)
  emit b (cs_move32_to (cs_sr_reg32 JOB_SIZE_X) (count0 grid)) ;;
  emit b (cs_move32_to (cs_sr_reg32 JOB_SIZE_Y) (count1 grid)) ;;
  emit b (cs_move32_to (cs_sr_reg32 JOB_SIZE_Z) (count2 grid)) ;;
  emit b (cs_next_iter_sb PANVK_SUBQUEUE_COMPUTE (cs_scratch_reg_tuple 0 2)) ;;
  (let task_axis := MALI_TASK_AXIS_X in
   let task_increment := 0 in
   emit b (cs_trace_run_compute (cs_scratch_reg_tuple 0 4)
             (snd (calculate_task_axis_and_increment shader props
                     (task_axis, task_increment)))
             (fst (calculate_task_axis_and_increment shader props
                     (task_axis, task_increment)))
             {| res_sel_srt := 0; res_sel_fau := 0;
                res_sel_spd := 0; res_sel_tsd := 0 |})) ;;
  emit_all b sync_epilogue.

Definition dispatch_precomp_body (grid : panlib_precomp_grid)
  (barrier : panlib_barrier) (idx : Z) (data : list Z) (data_size : Z)
  : M precomp_assert unit :=
  c_assert (match barrier with PANLIB_BARRIER_NONE => true | _ => false end)
           ASSERT_BARRIER ;;
  c <- get ;;
  let props := kmod_props (device c) in
  match precomp_cache (device c) idx with
  | None => creturn ASSERT_SHADER
  | Some shader =>
      push_uniforms <- panvk_cmd_alloc_dev_mem pool_desc
        (u64 (BIFROST_PRECOMPILED_KERNEL_SYSVALS_SIZE + data_size)) 16 ;;
      c_assert (negb (gpu push_uniforms =? 0)) ASSERT_PUSH_UNIFORMS ;;
      let sysvals :=
        {| pk_num_workgroups := {| dim_x := count0 grid; dim_y := count1 grid;
                                   dim_z := count2 grid |};
           pk_printf_buffer_address := printf_bo_addr_dev (device c) |} in
      host_write (cpu push_uniforms) 0
        (PRECOMP_PUSH_UNIFORMS data data_size sysvals) ;;
      let dim := {| dim_x := count0 grid; dim_y := count1 grid;
                    dim_z := count2 grid |} in
      tsd <- call (cmd_dispatch_prepare_tls shader dim false) ;;
      c_assert (negb (tsd =? 0)) ASSERT_TSD ;;
      dispatch_precomp_emit grid shader props push_uniforms data_size tsd ;;
      incr_relative_sync_point PANVK_SUBQUEUE_COMPUTE ;;
      (* XXX: clobbers the registers instead to avoid recreating them when
         calling a dispatch after? *)
      compute_state_set_dirty CS ;;
      compute_state_set_dirty DESC_STATE ;;
      compute_state_set_dirty PUSH_UNIFORMS
  end.

(** A failed [assert] ends the process: there is no state afterwards. *)
Definition dispatch_precomp (cmdbuf : panvk_cmd_buffer)
  (grid : panlib_precomp_grid) (barrier : panlib_barrier) (idx : Z)
  (data : list Z) (data_size : Z) : option panvk_cmd_buffer :=
  match dispatch_precomp_body grid barrier idx data data_size cmdbuf with
  | (inl _, _) => None
  | (inr _, c') => Some c'
  end.

End Dispatch.

(** ** Sequences of commands on one command buffer *)

Section Sequences.

Context {E : Collaborators}.

(** What is recorded between two dispatches: binding a shader or descriptor
    sets, pushing constants.  These commands act on the compute state cache
    only. *)
Inductive command :=
| CMD_STATE (f : panvk_cmd_compute_state -> panvk_cmd_compute_state)
| CMD_DISPATCH_BASE (baseGroupX baseGroupY baseGroupZ
                     groupCountX groupCountY groupCountZ : Z)
| CMD_DISPATCH_INDIRECT (buffer : panvk_buffer) (offset : Z)
| CMD_DISPATCH_PRECOMP (grid : panlib_precomp_grid) (barrier : panlib_barrier)
                       (idx : Z) (data : list Z) (data_size : Z).

Definition exec (cmd : command) (c : panvk_cmd_buffer)
  : option panvk_cmd_buffer :=
  match cmd with
  | CMD_STATE f => Some (set_compute (f (compute c)) c)
  | CMD_DISPATCH_BASE bx by_ bz gx gy gz =>
      Some (CmdDispatchBase c bx by_ bz gx gy gz)
  | CMD_DISPATCH_INDIRECT buffer offset =>
      Some (CmdDispatchIndirect c buffer offset)
  | CMD_DISPATCH_PRECOMP grid barrier idx data data_size =>
      dispatch_precomp c grid barrier idx data data_size
  end.

Fixpoint exec_all (cmds : list command) (c : panvk_cmd_buffer)
  : option panvk_cmd_buffer :=
  match cmds with
  | [] => Some c
  | cmd :: rest =>
      match exec cmd c with
      | Some c' => exec_all rest c'
      | None => None
      end
  end.

(** A dispatch command is successful when it runs to its end: [cmd_dispatch]
    leaves by its last line, [dispatch_precomp] passes its assertions. *)
Definition successful (cmd : command) (c : panvk_cmd_buffer) : bool :=
  match cmd with
  | CMD_STATE _ => false
  | CMD_DISPATCH_BASE bx by_ bz gx gy gz =>
      match fst (CmdDispatchBase_exit c bx by_ bz gx gy gz) with
      | DISPATCHED => true
      | _ => false
      end
  | CMD_DISPATCH_INDIRECT buffer offset =>
      match fst (CmdDispatchIndirect_exit c buffer offset) with
      | DISPATCHED => true
      | _ => false
      end
  | CMD_DISPATCH_PRECOMP grid barrier idx data data_size =>
      match dispatch_precomp c grid barrier idx data data_size with
      | Some _ => true
      | None => false
      end
  end.



(** Number of successful dispatches along a run. *)
Fixpoint successes (cmds : list command) (c : panvk_cmd_buffer) : Z :=
  match cmds with
  | [] => 0
  | cmd :: rest =>
      (if successful cmd c then 1 else 0) +
      match exec cmd c with
      | Some c' => successes rest c'
      | None => 0
      end
  end.



End Sequences.

(** ** Observing instruction streams *)

(** An instruction and the instructions of its blocks. *)
Fixpoint with_blocks (i : cs_instr) : list cs_instr :=
  i ::
  match i with
  | cs_match _ _ cases =>
      (fix on_cases (l : list (Z * list cs_instr)) : list cs_instr :=
         match l with
         | [] => []
         | (_, body) :: rest =>
             (fix on_body (b : list cs_instr) : list cs_instr :=
                match b with
                | [] => []
                | x :: t => with_blocks x ++ on_body t
                end) body ++ on_cases rest
         end) cases
  | _ => []
  end.

(** Every instruction of a stream, blocks of [cs_match] included. *)
Definition all_instrs (l : list cs_instr) : list cs_instr :=
  flat_map with_blocks l.

(** What the command stream executes when the register tested by
    [cs_match] holds [iter]: the first case with that label. *)
Fixpoint executed_instr (iter : Z) (i : cs_instr) : list cs_instr :=
  match i with
  | cs_match _ _ cases =>
      (fix on_cases (l : list (Z * list cs_instr)) : list cs_instr :=
         match l with
         | [] => []
         | (label, body) :: rest =>
             if label =? iter
             then (fix on_body (b : list cs_instr) : list cs_instr :=
                     match b with
                     | [] => []
                     | x :: t => executed_instr iter x ++ on_body t
                     end) body
             else on_cases rest
         end) cases
  | _ => [i]
  end.

Definition executed (iter : Z) (l : list cs_instr) : list cs_instr :=
  flat_map (executed_instr iter) l.

Definition is_run_compute (i : cs_instr) : bool :=
  match i with cs_trace_run_compute _ _ _ _ => true | _ => false end.

Definition is_sync_add (i : cs_instr) : bool :=
  match i with cs_sync64_add _ _ _ _ _ => true | _ => false end.

Definition count (p : cs_instr -> bool) (l : list cs_instr) : nat :=
  length (filter p l).

(** The staging register an operand names, if any. *)
Definition named_sr (i : cs_index) : option compute_sr :=
  match i with
  | cs_sr_reg32 r | cs_sr_reg64 r | cs_sr_reg_tuple r _ => Some r
  | _ => None
  end.

Definition names_sr (p : compute_sr -> bool) (i : cs_index) : bool :=
  match named_sr i with Some r => p r | None => false end.

Definition is_job_size (r : compute_sr) : bool :=
  match r with JOB_SIZE_X | JOB_SIZE_Y | JOB_SIZE_Z => true | _ => false end.

Definition is_state_pointer (r : compute_sr) : bool :=
  match r with SPD_0 | SRT_0 | FAU_0 => true | _ => false end.

Definition sr_is (r r' : compute_sr) : bool :=
  match r, r' with
  | SRT_0, SRT_0 | FAU_0, FAU_0 | SPD_0, SPD_0 | TSD_0, TSD_0
  | GLOBAL_ATTRIBUTE_OFFSET, GLOBAL_ATTRIBUTE_OFFSET | WG_SIZE, WG_SIZE
  | JOB_OFFSET_X, JOB_OFFSET_X | JOB_OFFSET_Y, JOB_OFFSET_Y
  | JOB_OFFSET_Z, JOB_OFFSET_Z | JOB_SIZE_X, JOB_SIZE_X
  | JOB_SIZE_Y, JOB_SIZE_Y | JOB_SIZE_Z, JOB_SIZE_Z => true
  | _, _ => false
  end.

(** An immediate move into a register selected by [p]. *)
Definition is_move_to (p : compute_sr -> bool) (i : cs_instr) : bool :=
  match i with
  | cs_move32_to dst _ | cs_move64_to dst _ => names_sr p dst
  | _ => false
  end.

(** A load from memory into a register selected by [p]. *)
Definition is_load_to (p : compute_sr -> bool) (i : cs_instr) : bool :=
  match i with
  | cs_load_to dst _ _ _ | cs_load64_to dst _ _ => names_sr p dst
  | _ => false
  end.

Section Streams.

Context {E : Collaborators}.

(** An allocation that returned a block. *)
Definition succeeded (e : alloc_request * pan_ptr) : Prop := gpu (snd e) <> 0.

(** The objects [objs] stored in consecutive elements of the array at
    [base], from element [slot] on. *)
Fixpoint store_array (base slot : Z) (objs : list host_obj) : list host_store :=
  match objs with
  | [] => []
  | o :: rest =>
      {| st_base := base; st_slot := slot; st_obj := o |} ::
      store_array base (slot + 1) rest
  end.

(** The driver-owned descriptor table of shader [s]. *)
Definition driver_set_table (ds : panvk_descriptor_state) (s : panvk_shader)
  : list host_obj :=
  SAMPLER false ::
  map (fun i => BUFFER (fst (ext_dyn_buf ds s (Z.of_nat i)))
                       (snd (ext_dyn_buf ds s (Z.of_nat i))))
      (seq 0 (Z.to_nat (desc_info_dyn_bufs_count s))).

(** What was appended to the stream of the compute subqueue between [c]
    and [c']. *)
Definition emitted (c c' : panvk_cmd_buffer) : list cs_instr :=
  skipn (length (builder (at_compute (cs c)))) (builder (at_compute (cs c'))).

(** The allocations made between [c] and [c']. *)
Definition allocated (c c' : panvk_cmd_buffer)
  : list (alloc_request * pan_ptr) :=
  skipn (length (alloc_log c)) (alloc_log c').

(** No aspect goes from dirty to clean between [c] and [c']. *)
Definition dirty_kept (c c' : panvk_cmd_buffer) : Prop :=
  forall a, compute_state_dirty c a = true -> compute_state_dirty c' a = true.

Definition all_clean (c : panvk_cmd_buffer) : Prop :=
  forall a, compute_state_dirty c a = false.

Definition all_dirty (c : panvk_cmd_buffer) : Prop :=
  forall a, compute_state_dirty c a = true.

(** The system values of the request are those already pushed: preparing
    them marks no aspect. *)
Definition sysvals_unchanged (info : panvk_dispatch_info)
  (c : panvk_cmd_buffer) : Prop :=
  forall a,
    BITSET_TEST
      (snd (ext_prepare_dispatch_sysvals (sysvals (compute c))
              (shader (compute c)) info)) (dirty_bit a) = false.

(** [bool indirect = info->indirect.buffer_dev_addr != 0;] *)
Definition is_indirect (info : panvk_dispatch_info) : bool :=
  negb (indirect_buffer_dev_addr info =? 0).

Definition wg_per_task_of (info : panvk_dispatch_info) (c : panvk_cmd_buffer)
  : Z :=
  if is_indirect info
  then pan_calc_workgroups_per_task (cs_local_size (shader (compute c)))
         (kmod_props (device c))
  else 0.


(** The relative sync point of the compute subqueue. *)
Definition sync_point (c : panvk_cmd_buffer) : Z :=
  relative_sync_point (sq_get (cs c) PANVK_SUBQUEUE_COMPUTE).

(** The TLS size tracked by the command buffer. *)
Definition tls_size_of (c : panvk_cmd_buffer) : Z :=
  tls_info_tls_size (tls c).

(** [l] appended to the stream of subqueue [q]. *)
Definition append_builder (q : panvk_subqueue_id) (l : list cs_instr)
  (c : panvk_cmd_buffer) : panvk_cmd_buffer :=
  set_cs q {| builder := builder (sq_get (cs c) q) ++ l;
              relative_sync_point := relative_sync_point (sq_get (cs c) q) |}
         c.

(** [m] falls through and appends [l] to the stream of [q], nothing else. *)
Definition emits {R} (q : panvk_subqueue_id) (m : M R unit)
  (l : list cs_instr) (c : panvk_cmd_buffer) : Prop :=
  m c = (inr tt, append_builder q l c).

Definition tls_copy_stream (s : panvk_shader) (tsd : Z) (c : panvk_cmd_buffer)
  : list cs_instr :=
  if negb (info_tls_size s =? 0)
  then [cs_move64_to (cs_scratch_reg64 0) (gpu (tls_desc (tls c)));
        cs_load64_to (cs_scratch_reg64 2) (cs_scratch_reg64 0) 8;
        cs_move64_to (cs_scratch_reg64 0) tsd;
        cs_store64 (cs_scratch_reg64 2) (cs_scratch_reg64 0) 8;
        cs_flush_stores]
  else [].

Definition state_pointer_stream (s : panvk_shader) (c : panvk_cmd_buffer)
  : list cs_instr :=
  (if compute_state_dirty c CS || compute_state_dirty c DESC_STATE
   then [cs_move64_to (cs_sr_reg64 SRT_0) (res_table (cs_desc (compute c)))]
   else []) ++
  (if compute_state_dirty c PUSH_UNIFORMS
   then [cs_move64_to (cs_sr_reg64 FAU_0)
           (Z.lor (push_uniforms (compute c))
                  (u64 (Z.shiftl (fau_total_count s) 56)))]
   else []) ++
  (if compute_state_dirty c CS
   then [cs_move64_to (cs_sr_reg64 SPD_0) (panvk_priv_mem_dev_addr (spd s))]
   else []).

Definition fixed_ctx_stream (s : panvk_shader) (tsd : Z) : list cs_instr :=
  [cs_move64_to (cs_sr_reg64 TSD_0) tsd;
   cs_move32_to (cs_sr_reg32 GLOBAL_ATTRIBUTE_OFFSET) 0;
   cs_move32_to (cs_sr_reg32 WG_SIZE)
     (pack_COMPUTE_SIZE_WORKGROUP (dim_x (cs_local_size s))
        (dim_y (cs_local_size s)) (dim_z (cs_local_size s)) false);
   cs_move32_to (cs_sr_reg32 JOB_OFFSET_X) 0;
   cs_move32_to (cs_sr_reg32 JOB_OFFSET_Y) 0;
   cs_move32_to (cs_sr_reg32 JOB_OFFSET_Z) 0].

Definition sysval_store_stream (s : panvk_shader) (v : compute_sysval)
  (r : compute_sr) : list cs_instr :=
  if shader_uses_sysval s v
  then [cs_store32 (cs_sr_reg32 r) (cs_scratch_reg64 0)
          (shader_remapped_sysval_offset s (sysval_offset v))]
  else [].

Definition job_size_stream (info : panvk_dispatch_info) (s : panvk_shader)
  (indirect : bool) (c : panvk_cmd_buffer) : list cs_instr :=
  if indirect
  then
    [cs_move64_to (cs_scratch_reg64 0) (indirect_buffer_dev_addr info);
     cs_load_to (cs_sr_reg_tuple JOB_SIZE_X 3) (cs_scratch_reg64 0)
       (BITFIELD_MASK 3) 0;
     cs_move64_to (cs_scratch_reg64 0) (push_uniforms (compute c))] ++
    sysval_store_stream s num_work_groups_x JOB_SIZE_X ++
    sysval_store_stream s num_work_groups_y JOB_SIZE_Y ++
    sysval_store_stream s num_work_groups_z JOB_SIZE_Z ++
    [cs_flush_stores]
  else
    [cs_move32_to (cs_sr_reg32 JOB_SIZE_X) (dim_x (direct_wg_count info));
     cs_move32_to (cs_sr_reg32 JOB_SIZE_Y) (dim_y (direct_wg_count info));
     cs_move32_to (cs_sr_reg32 JOB_SIZE_Z) (dim_z (direct_wg_count info))].

Definition run_compute_instr (s : panvk_shader) (props : pan_kmod_dev_props)
  (indirect : bool) (wg_per_task : Z) : cs_instr :=
  if indirect
  then cs_trace_run_compute (cs_scratch_reg_tuple 0 4) wg_per_task
         MALI_TASK_AXIS_X
         {| res_sel_srt := 0; res_sel_fau := 0;
            res_sel_spd := 0; res_sel_tsd := 0 |}
  else cs_trace_run_compute (cs_scratch_reg_tuple 0 4)
         (snd (calculate_task_axis_and_increment s props (MALI_TASK_AXIS_X, 0)))
         (fst (calculate_task_axis_and_increment s props (MALI_TASK_AXIS_X, 0)))
         {| res_sel_srt := 0; res_sel_fau := 0;
            res_sel_spd := 0; res_sel_tsd := 0 |}.

(** The instructions one dispatch appends, from the state [c] it is emitted
    in. *)
Definition dispatch_stream (info : panvk_dispatch_info) (s : panvk_shader)
  (props : pan_kmod_dev_props) (tsd : Z) (indirect : bool) (wg_per_task : Z)
  (c : panvk_cmd_buffer) : list cs_instr :=
  tls_copy_stream s tsd c ++
  state_pointer_stream s c ++
  fixed_ctx_stream s tsd ++
  job_size_stream info s indirect c ++
  [cs_next_iter_sb PANVK_SUBQUEUE_COMPUTE (cs_scratch_reg_tuple 0 2);
   run_compute_instr s props indirect wg_per_task] ++
  sync_epilogue.

(** The instructions one precompiled-kernel dispatch appends. *)
Definition precomp_stream (grid : panlib_precomp_grid) (s : panvk_shader)
  (props : pan_kmod_dev_props) (push_uniforms : pan_ptr) (data_size : Z)
  (tsd : Z) (c : panvk_cmd_buffer) : list cs_instr :=
  tls_copy_stream s tsd c ++
  [cs_move64_to (cs_sr_reg64 SRT_0) 0;
   cs_move64_to (cs_sr_reg64 FAU_0)
     (Z.lor (gpu push_uniforms)
        (u64 (Z.shiftl
                (DIV_ROUND_UP
                   (u64 (BIFROST_PRECOMPILED_KERNEL_SYSVALS_SIZE + data_size))
                   8) 56)));
   cs_move64_to (cs_sr_reg64 SPD_0) (panvk_priv_mem_dev_addr (spd s))] ++
  fixed_ctx_stream s tsd ++
  [cs_move32_to (cs_sr_reg32 JOB_SIZE_X) (count0 grid);
   cs_move32_to (cs_sr_reg32 JOB_SIZE_Y) (count1 grid);
   cs_move32_to (cs_sr_reg32 JOB_SIZE_Z) (count2 grid);
   cs_next_iter_sb PANVK_SUBQUEUE_COMPUTE (cs_scratch_reg_tuple 0 2);
   run_compute_instr s props false 0] ++
  sync_epilogue.

(** Lines 159-184 of [cmd_dispatch]: the state is brought up to date. *)
Definition cmd_dispatch_state (info : panvk_dispatch_info) (s : panvk_shader)
  : M dispatch_exit unit :=
  (c <- get ;;
   (if compute_state_dirty c DESC_STATE || compute_state_dirty c CS
    then
      result <- cmd_prepare_push_descs (desc_info_used_set_mask s) ;;
      if VkResult_is_success result then ret tt
      else creturn ABORT_PUSH_DESCS
    else ret tt) ;;
   cmd_prepare_dispatch_sysvals info ;;
   result <- call prepare_driver_set ;;
   if negb (VkResult_is_success result) then creturn ABORT_DRIVER_SET
   else
     result <- cmd_prepare_push_uniforms s 1 ;;
     if negb (VkResult_is_success result) then creturn ABORT_PUSH_UNIFORMS
     else
       c <- get ;;
       (if compute_state_dirty c CS || compute_state_dirty c DESC_STATE
        then
          result <- cmd_prepare_shader_res_table s 1 ;;
          if VkResult_is_success result then ret tt
          else creturn ABORT_RES_TABLE
        else ret tt))%cmd.

(** Lines 186-348 as a function of the state they start from. *)
Definition cmd_dispatch_finish (info : panvk_dispatch_info)
  (s : panvk_shader) (props : pan_kmod_dev_props) (tsd : Z) (indirect : bool)
  (wg_per_task : Z) (c : panvk_cmd_buffer) : panvk_cmd_buffer :=
  let c1 := append_builder PANVK_SUBQUEUE_COMPUTE
              (dispatch_stream info s props tsd indirect wg_per_task c) c in
  let c2 := set_cs PANVK_SUBQUEUE_COMPUTE
              {| builder := builder (at_compute (cs c1));
                 relative_sync_point :=
                   relative_sync_point (at_compute (cs c1)) + 1 |} c1 in
  set_compute (with_dirty BITSET_ZERO (compute c2)) c2.

(** The end of [dispatch_precomp]: [l] is emitted, the sync point is
    advanced and the three aspects are marked. *)
Definition dispatch_precomp_finish (l : list cs_instr) (c : panvk_cmd_buffer)
  : panvk_cmd_buffer :=
  let c1 := append_builder PANVK_SUBQUEUE_COMPUTE l c in
  let c2 := set_cs PANVK_SUBQUEUE_COMPUTE
              {| builder := builder (at_compute (cs c1));
                 relative_sync_point :=
                   relative_sync_point (at_compute (cs c1)) + 1 |} c1 in
  set_compute
    (with_dirty
       (BITSET_SET
          (BITSET_SET (BITSET_SET (dirty (compute c2)) (dirty_bit CS))
                      (dirty_bit DESC_STATE))
          (dirty_bit PUSH_UNIFORMS)) (compute c2)) c2.

(** [cmd_dispatch] in three stages: TLS, state, emission. *)
Definition cmd_dispatch_staged (info : panvk_dispatch_info)
  (c : panvk_cmd_buffer) : dispatch_exit * panvk_cmd_buffer :=
  let s := shader (compute c) in
  if panvk_priv_mem_dev_addr (spd s) =? 0 then (SKIP_NO_SHADER, c)
  else
    let props := kmod_props (device c) in
    let indirect := negb (indirect_buffer_dev_addr info =? 0) in
    let wg_per_task :=
      if indirect then pan_calc_workgroups_per_task (cs_local_size s) props
      else 0 in
    let r := run (cmd_dispatch_prepare_tls s (direct_wg_count info) indirect)
                 c in
    if fst r =? 0 then (ABORT_TLS, snd r)
    else
      match cmd_dispatch_state info s (snd r) with
      | (inl e, c2) => (e, c2)
      | (inr _, c2) =>
          (DISPATCHED,
           cmd_dispatch_finish info s props (fst r) indirect wg_per_task c2)
      end.

End Streams.

(** ** Stages and observations used further on *)

Section Stages2.

Context {E : Collaborators}.

(** [dispatch_precomp] in stages: the assertions, the push-uniform block,
    TLS, emission. *)
Definition dispatch_precomp_staged (c : panvk_cmd_buffer)
  (grid : panlib_precomp_grid) (barrier : panlib_barrier) (idx : Z)
  (data : list Z) (data_size : Z)
  : (precomp_assert + unit) * panvk_cmd_buffer :=
  match barrier with
  | PANLIB_BARRIER_NONE =>
      match precomp_cache (device c) idx with
      | None => (inl ASSERT_SHADER, c)
      | Some s =>
          let req := alloc_dev_mem pool_desc
                       (u64 (BIFROST_PRECOMPILED_KERNEL_SYSVALS_SIZE + data_size))
                       16 in
          let pu := fst (ext_alloc req (pools c)) in
          let c0 := set_alloc_log (alloc_log c ++ [(req, pu)])
                      (set_pools (snd (ext_alloc req (pools c))) c) in
          if gpu pu =? 0 then (inl ASSERT_PUSH_UNIFORMS, c0)
          else
            let sysvals :=
              {| pk_num_workgroups :=
                   {| dim_x := count0 grid; dim_y := count1 grid;
                      dim_z := count2 grid |};
                 pk_printf_buffer_address := printf_bo_addr_dev (device c) |} in
            let c1 := set_host_stores
                        (host_stores c0 ++
                         [{| st_base := cpu pu; st_slot := 0;
                             st_obj := PRECOMP_PUSH_UNIFORMS data data_size
                                         sysvals |}]) c0 in
            let r := run (cmd_dispatch_prepare_tls s
                            {| dim_x := count0 grid; dim_y := count1 grid;
                               dim_z := count2 grid |} false) c1 in
            if fst r =? 0 then (inl ASSERT_TSD, snd r)
            else
              (inr tt,
               dispatch_precomp_finish
                 (precomp_stream grid s (kmod_props (device c)) pu
                    data_size (fst r) (snd r)) (snd r))
      end
  | PANLIB_BARRIER_OTHER _ => (inl ASSERT_BARRIER, c)
  end.

(** Aspect [a] is dirty when [cmd_dispatch] is entered, or is marked while
    the system values of the request are prepared. *)
Definition marked (info : panvk_dispatch_info) (c : panvk_cmd_buffer)
  (a : compute_dirty_aspect) : bool :=
  compute_state_dirty c a ||
  BITSET_TEST
    (snd (ext_prepare_dispatch_sysvals (sysvals (compute c))
            (shader (compute c)) info)) (dirty_bit a).

Definition is_desc_state (a : compute_dirty_aspect) : bool :=
  match a with DESC_STATE => true | _ => false end.

(** The local-storage descriptor [cmd_dispatch_prepare_tls] packs for
    shader [s] once its WLS block, if any, is at [wls]. *)
Definition tls_descriptor (s : panvk_shader) (props : pan_kmod_dev_props)
  (dim : pan_compute_dim) (indirect : bool) (wls : Z) : pan_tls_info :=
  if info_wls_size s =? 0
  then {| tls_size := info_tls_size s; wls_size := info_wls_size s;
          wls_instances := 0; wls_ptr := 0 |}
  else {| tls_size := info_tls_size s; wls_size := info_wls_size s;
          wls_instances :=
            pan_calc_wls_instances (cs_local_size s) props
              (if indirect then None else Some dim);
          wls_ptr := wls |}.

(** The requests [cmd_dispatch_prepare_tls] makes when none is refused. *)
Definition tls_requests (s : panvk_shader) (props : pan_kmod_dev_props)
  (dim : pan_compute_dim) (indirect : bool) (c : panvk_cmd_buffer)
  : list alloc_request :=
  [alloc_desc LOCAL_STORAGE] ++
  (if info_wls_size s =? 0 then []
   else [alloc_dev_mem pool_tls
           (u32 (pan_calc_total_wls_size (info_wls_size s)
                   (pan_calc_wls_instances (cs_local_size s) props
                      (if indirect then None else Some dim))
                   (snd (pan_query_core_count props)))) 4096]) ++
  (if gpu (tls_desc (tls c)) =? 0 then [alloc_desc LOCAL_STORAGE] else []).


(** What one entry point or state command leaves alone, and what it
    appends. *)
Definition step_frame (ok : bool) (c c' : panvk_cmd_buffer) : Prop :=
  at_vertex_tiler (cs c') = at_vertex_tiler (cs c) /\
  at_fragment (cs c') = at_fragment (cs c) /\
  at_vertex_tiler (utrace_uts c') = at_vertex_tiler (utrace_uts c) /\
  at_fragment (utrace_uts c') = at_fragment (utrace_uts c) /\
  (exists l,
     builder (at_compute (cs c')) = builder (at_compute (cs c)) ++ l /\
     count is_run_compute (all_instrs l) = (if ok then 1 else 0)%nat) /\
  (gpu (tls_desc (tls c)) <> 0 -> tls_desc (tls c') = tls_desc (tls c)) /\
  (ok = true -> gpu (tls_desc (tls c')) <> 0).

End Stages2.

(** * Neighbouring files

    ** Resource names of the GLSL linker *)

(** [strlen(s)] *)
Definition strlen (s : String.string) : Z := Z.of_nat (String.length s).

(** [strrchr(s, ch)] for a character [ch] other than the terminator: the
    offset of the last occurrence of [ch] in [s], if there is one. *)
Fixpoint strrchr (s : String.string) (ch : Ascii.ascii) : option nat :=
  match s with
  | String.EmptyString => None
  | String.String a t =>
      match strrchr t ch with
      | Some i => Some (S i)
      | None => if Ascii.eqb a ch then Some 0%nat else None
      end
  end.

(** The string the pointer [s + i] designates. *)
Fixpoint string_at (s : String.string) (i : nat) : String.string :=
  match i, s with
  | O, _ => s
  | S i', String.String _ t => string_at t i'
  | S _, String.EmptyString => String.EmptyString
  end.

(** [strcmp(a, b) == 0] *)
Definition strcmp_is_zero (a b : String.string) : bool := String.eqb a b.

(** [struct gl_resource_name]; [name_string] is [None] for a null
    [string] and the characters before the terminator otherwise. *)
Record gl_resource_name := {
  name_string : option String.string;
  name_length : Z;
  last_square_bracket : Z;
  suffix_is_zero_square_bracketed : bool
}.

Definition resource_name_updated (name : gl_resource_name)
  : gl_resource_name :=
  match name_string name with
  | Some s =>
      match strrchr s "["%char with
      | Some i =>
          {| name_string := name_string name;
             name_length := strlen s;
             last_square_bracket := Z.of_nat i;
             suffix_is_zero_square_bracketed :=
               strcmp_is_zero (string_at s i) "[0]"%string |}
      | None =>
          {| name_string := name_string name;
             name_length := strlen s;
             last_square_bracket := -1;
             suffix_is_zero_square_bracketed := false |}
      end
  | None =>
      {| name_string := name_string name;
         name_length := 0;
         last_square_bracket := -1;
         suffix_is_zero_square_bracketed := false |}
  end.

(** ** Memory heap of the physical device *)

(** What [sysinfo(2)] reports. *)
Record sysinfo := { totalram : Z; mem_unit : Z }.

(** [get_system_heap_size], from the [struct sysinfo] the kernel fills. *)
Definition get_system_heap_size (info : sysinfo) : Z :=
  let total_ram := u64 (u64 (totalram info) * mem_unit info) in
  (* We don't want to burn too much ram with the GPU.  If the user has 4GiB
     or less, we use at most half.  If they have more than 4GiB, we use 3/4. *)
  if total_ram <=? u64 (4 * 1024 * 1024 * 1024)
  then total_ram / 2
  else u64 (total_ram * 3) / 4.

(** ** Image planes (panvk_image.c) *)

(** The fields of [struct pan_image_layout] read below:
    [slices[0].offset_B] and [data_size_B]. *)
Record pan_image_layout := { slice0_offset_B : Z; data_size_B : Z }.

(** The fields of [struct panvk_image] read below; [planes] is the array
    [planes[PANVK_MAX_PLANES]], so that [plane_count] stays far below the
    256 at which the 8-bit counter of the loop would wrap. *)
Record panvk_image := {
  plane_count : Z;
  planes : Z -> pan_image_layout
}.

(** [for (uint8_t plane = from; plane < image->plane_count; plane++)
       size = MAX2(size, layout->slices[0].offset_B + layout->data_size_B);] *)
Fixpoint total_size_loop (image : panvk_image) (n : nat) (plane : Z)
  (size : Z) : Z :=
  match n with
  | O => size
  | S n' =>
      let layout := planes image plane in
      total_size_loop image n' (plane + 1)
        (MAX2 size (u64 (slice0_offset_B layout + data_size_B layout)))
  end.

Definition panvk_image_get_total_size (image : panvk_image) : Z :=
  total_size_loop image (Z.to_nat (plane_count image)) 0 0.

(** Where plane [plane] ends in the memory of the image. *)
Definition plane_end (image : panvk_image) (plane : Z) : Z :=
  u64 (slice0_offset_B (planes image plane) +
       data_size_B (planes image plane)).

(** ** Usage flags added for meta operations (panvk_image.c) *)

(** The C truth value of [flags & bits]. *)
Definition flag_test (flags bits : Z) : bool := negb (Z.land flags bits =? 0).

Inductive VkImageType :=
| VK_IMAGE_TYPE_1D | VK_IMAGE_TYPE_2D | VK_IMAGE_TYPE_3D.

(** The Vulkan flag bits and the format queries the function uses; their
    values are those of the Vulkan headers and of vk_format.h. *)
Class ImageFlags : Type := {
  VkFormat : Type;
  VK_IMAGE_USAGE_TRANSFER_SRC_BIT : Z;
  VK_IMAGE_USAGE_TRANSFER_DST_BIT : Z;
  VK_IMAGE_USAGE_SAMPLED_BIT : Z;
  VK_IMAGE_USAGE_STORAGE_BIT : Z;
  VK_IMAGE_USAGE_COLOR_ATTACHMENT_BIT : Z;
  VK_IMAGE_USAGE_DEPTH_STENCIL_ATTACHMENT_BIT : Z;
  VK_IMAGE_ASPECT_COLOR_BIT : Z;
  VK_IMAGE_ASPECT_DEPTH_BIT : Z;
  VK_IMAGE_CREATE_2D_ARRAY_COMPATIBLE_BIT : Z;
  VK_IMAGE_CREATE_MUTABLE_FORMAT_BIT : Z;
  VK_IMAGE_CREATE_BLOCK_TEXEL_VIEW_COMPATIBLE_BIT : Z;
  vk_format_aspects : VkFormat -> Z;
  vk_format_is_compressed : VkFormat -> bool
}.

Section MetaAdjustments.
Context {F : ImageFlags}.

(** The fields of [image->vk] the function reads or writes. *)
Record vk_image := {
  vk_format : VkFormat;
  vk_image_type : VkImageType;
  vk_usage : Z;
  vk_stencil_usage : Z;
  vk_create_flags : Z
}.

Definition or_usage (bits : Z) (i : vk_image) : vk_image :=
  {| vk_format := vk_format i; vk_image_type := vk_image_type i;
     vk_usage := Z.lor (vk_usage i) bits;
     vk_stencil_usage := vk_stencil_usage i;
     vk_create_flags := vk_create_flags i |}.

Definition or_stencil_usage (bits : Z) (i : vk_image) : vk_image :=
  {| vk_format := vk_format i; vk_image_type := vk_image_type i;
     vk_usage := vk_usage i;
     vk_stencil_usage := Z.lor (vk_stencil_usage i) bits;
     vk_create_flags := vk_create_flags i |}.

Definition or_create_flags (bits : Z) (i : vk_image) : vk_image :=
  {| vk_format := vk_format i; vk_image_type := vk_image_type i;
     vk_usage := vk_usage i;
     vk_stencil_usage := vk_stencil_usage i;
     vk_create_flags := Z.lor (vk_create_flags i) bits |}.

(** [if (cond(image)) image = f(image);] *)
Definition cond_update (cond : vk_image -> bool) (f : vk_image -> vk_image)
  (i : vk_image) : vk_image :=
  if cond i then f i else i.

Definition is_3D (t : VkImageType) : bool :=
  match t with VK_IMAGE_TYPE_3D => true | _ => false end.

Definition panvk_image_pre_mod_select_meta_adjustments (image : vk_image)
  : vk_image :=
  let aspects := vk_format_aspects (vk_format image) in
  let all_usage := Z.lor (vk_usage image) (vk_stencil_usage image) in
  (* We do image blit/resolve with vk_meta, so when an image is flagged as
     being a potential transfer source, we also need to add the sampled
     usage. *)
  let image :=
    cond_update
      (fun i => flag_test (vk_usage i) VK_IMAGE_USAGE_TRANSFER_SRC_BIT)
      (or_usage VK_IMAGE_USAGE_SAMPLED_BIT) image in
  let image :=
    cond_update
      (fun i => flag_test (vk_stencil_usage i) VK_IMAGE_USAGE_TRANSFER_SRC_BIT)
      (or_stencil_usage VK_IMAGE_USAGE_SAMPLED_BIT) image in
  (* Similarly, image that can be a transfer destination can be attached
     as a color or depth-stencil attachment by vk_meta. *)
  let image :=
    cond_update
      (fun i => flag_test (vk_usage i) VK_IMAGE_USAGE_TRANSFER_DST_BIT)
      (fun i =>
         let i :=
           cond_update (fun _ => flag_test aspects VK_IMAGE_ASPECT_DEPTH_BIT)
             (or_usage VK_IMAGE_USAGE_DEPTH_STENCIL_ATTACHMENT_BIT) i in
         cond_update (fun _ => flag_test aspects VK_IMAGE_ASPECT_COLOR_BIT)
           (fun i => or_usage VK_IMAGE_USAGE_STORAGE_BIT
                       (or_usage VK_IMAGE_USAGE_COLOR_ATTACHMENT_BIT i)) i)
      image in
  let image :=
    cond_update
      (fun i => flag_test (vk_stencil_usage i) VK_IMAGE_USAGE_TRANSFER_DST_BIT)
      (or_stencil_usage VK_IMAGE_USAGE_DEPTH_STENCIL_ATTACHMENT_BIT) image in
  (* vk_meta creates 2D array views of 3D images. *)
  let image :=
    cond_update
      (fun i => flag_test all_usage VK_IMAGE_USAGE_TRANSFER_DST_BIT &&
                is_3D (vk_image_type i))
      (or_create_flags VK_IMAGE_CREATE_2D_ARRAY_COMPATIBLE_BIT) image in
  (* Needed for resolve operations. *)
  let image :=
    cond_update
      (fun i => flag_test (vk_usage i) VK_IMAGE_USAGE_COLOR_ATTACHMENT_BIT)
      (or_usage VK_IMAGE_USAGE_SAMPLED_BIT) image in
  let image :=
    cond_update
      (fun i => flag_test (vk_usage i)
                  VK_IMAGE_USAGE_DEPTH_STENCIL_ATTACHMENT_BIT &&
                flag_test aspects VK_IMAGE_ASPECT_DEPTH_BIT)
      (or_usage VK_IMAGE_USAGE_SAMPLED_BIT) image in
  let image :=
    cond_update
      (fun i => flag_test (vk_stencil_usage i)
                  VK_IMAGE_USAGE_DEPTH_STENCIL_ATTACHMENT_BIT)
      (or_stencil_usage VK_IMAGE_USAGE_SAMPLED_BIT) image in
  cond_update
    (fun i => flag_test (vk_usage i)
                (Z.lor VK_IMAGE_USAGE_TRANSFER_DST_BIT
                       VK_IMAGE_USAGE_TRANSFER_SRC_BIT) &&
              vk_format_is_compressed (vk_format i))
    (* We need to be able to create RGBA views of compressed formats for
       vk_meta copies. *)
    (or_create_flags
       (Z.lor VK_IMAGE_CREATE_MUTABLE_FORMAT_BIT
              VK_IMAGE_CREATE_BLOCK_TEXEL_VIEW_COMPATIBLE_BIT))
    image.

(** Every bit of [a] is set in [b]. *)
Definition flags_subset (a b : Z) : Prop := Z.land a b = a.

(** [i'] is [i] with flags added, nothing else. *)
Definition widened (i i' : vk_image) : Prop :=
  vk_format i' = vk_format i /\ vk_image_type i' = vk_image_type i /\
  flags_subset (vk_usage i) (vk_usage i') /\
  flags_subset (vk_stencil_usage i) (vk_stencil_usage i') /\
  flags_subset (vk_create_flags i) (vk_create_flags i').

End MetaAdjustments.

(** ** Buffers (panvk_buffer.c) *)

(** [off_t]: a signed 64-bit integer. *)
Definition s64 (x : Z) : Z := (x + 2 ^ 63) mod 2 ^ 64 - 2 ^ 63.

(** What [panvk_BindBufferMemory2] is compiled against and calls. *)
Class BufferEnv : Type := {
  pan_kmod_bo : Type;
  (** [pan_arch(phys_dev->kmod.props.gpu_prod_id)] *)
  gpu_arch : Z;
  getpagesize : Z;
  VK_BUFFER_USAGE_INDEX_BUFFER_BIT : Z;
  (** [pan_kmod_bo_mmap(bo, start, size, PROT_WRITE, MAP_SHARED, NULL)];
      [None] is [MAP_FAILED] *)
  pan_kmod_bo_mmap : pan_kmod_bo -> Z -> Z -> option Z
}.

Section Buffers.
Context {B : BufferEnv}.

(** [struct panvk_device_memory]: [addr.dev] and [bo]. *)
Record panvk_device_memory := { addr_dev : Z; mem_bo : pan_kmod_bo }.

(** [struct panvk_buffer]: [vk.device_address], [vk.usage], [vk.size] and
    [host_ptr] (0 when null). *)
Record panvk_buffer_object := {
  vk_device_address : Z;
  vk_buffer_usage : Z;
  vk_buffer_size : Z;
  host_ptr : Z
}.

(** One element of [pBindInfos]; [bind_status] tells whether a
    [VkBindMemoryStatus] is chained to it. *)
Record VkBindBufferMemoryInfo := {
  bind_memory : option panvk_device_memory;
  bind_buffer : Z;
  bind_memoryOffset : Z;
  bind_status : bool
}.

(** The buffers of the device by handle, the values stored through
    [bind_status->pResult] (with the index of the element) and the
    mappings asked for, oldest first. *)
Record buffer_state := {
  buffers : Z -> panvk_buffer_object;
  status_stores : list (Z * VkResult);
  mmap_calls : list (Z * option Z)
}.

Definition update_buffer (h : Z) (b : panvk_buffer_object)
  (bs : Z -> panvk_buffer_object) : Z -> panvk_buffer_object :=
  fun h' => if h' =? h then b else bs h'.

(** [if (bind_status) *bind_status->pResult = r;] *)
Definition store_status (info : VkBindBufferMemoryInfo) (i : Z) (r : VkResult)
  (l : list (Z * VkResult)) : list (Z * VkResult) :=
  if bind_status info then l ++ [(i, r)] else l.

(** The body of the loop of [panvk_BindBufferMemory2] for element [i];
    [None] when an assertion fails. *)
Definition bind_buffer_memory (i : Z) (info : VkBindBufferMemoryInfo)
  (rs : VkResult * buffer_state) : option (VkResult * buffer_state) :=
  let (result, st) := rs in
  let statuses := store_status info i VK_SUCCESS (status_stores st) in
  match bind_memory info with
  | None => None
  | Some mem =>
      let buffer := buffers st (bind_buffer info) in
      if negb (vk_device_address buffer =? 0) then None
      else
        let device_address := u64 (addr_dev mem + bind_memoryOffset info) in
        if (gpu_arch <? 9) &&
           flag_test (vk_buffer_usage buffer) VK_BUFFER_USAGE_INDEX_BUFFER_BIT
        then
          let offset := bind_memoryOffset info in
          let pgsize := u64 getpagesize in
          let map_start :=
            s64 (Z.land offset (u64 (Z.lnot (u64 (pgsize - 1))))) in
          let map_end := s64 (u64 (offset + vk_buffer_size buffer)) in
          let map_addr :=
            pan_kmod_bo_mmap (mem_bo mem) map_start (map_end - map_start) in
          match map_addr with
          | None =>
              Some (VK_ERROR_OUT_OF_HOST_MEMORY,
                    {| buffers :=
                         update_buffer (bind_buffer info)
                           {| vk_device_address := device_address;
                              vk_buffer_usage := vk_buffer_usage buffer;
                              vk_buffer_size := vk_buffer_size buffer;
                              host_ptr := host_ptr buffer |} (buffers st);
                       status_stores :=
                         store_status info i VK_ERROR_OUT_OF_HOST_MEMORY
                           statuses;
                       mmap_calls := mmap_calls st ++ [(i, map_addr)] |})
          | Some addr =>
              Some (result,
                    {| buffers :=
                         update_buffer (bind_buffer info)
                           {| vk_device_address := device_address;
                              vk_buffer_usage := vk_buffer_usage buffer;
                              vk_buffer_size := vk_buffer_size buffer;
                              host_ptr := u64 (addr + Z.land offset pgsize) |}
                           (buffers st);
                       status_stores := statuses;
                       mmap_calls := mmap_calls st ++ [(i, map_addr)] |})
          end
        else
          Some (result,
                {| buffers :=
                     update_buffer (bind_buffer info)
                       {| vk_device_address := device_address;
                          vk_buffer_usage := vk_buffer_usage buffer;
                          vk_buffer_size := vk_buffer_size buffer;
                          host_ptr := host_ptr buffer |} (buffers st);
                   status_stores := statuses;
                   mmap_calls := mmap_calls st |})
  end.

(** [for (uint32_t i = from; i < bindInfoCount; i++)] over the elements
    left. *)
Fixpoint bind_buffer_loop (i : Z) (infos : list VkBindBufferMemoryInfo)
  (rs : VkResult * buffer_state) : option (VkResult * buffer_state) :=
  match infos with
  | [] => Some rs
  | info :: rest =>
      match bind_buffer_memory i info rs with
      | Some rs' => bind_buffer_loop (i + 1) rest rs'
      | None => None
      end
  end.

Definition panvk_BindBufferMemory2 (pBindInfos : list VkBindBufferMemoryInfo)
  (st : buffer_state) : option (VkResult * buffer_state) :=
  bind_buffer_loop 0 pBindInfos (VK_SUCCESS, st).

(** The mappings asked for between [st] and [st']. *)
Definition mapped_since (st st' : buffer_state) : list (Z * option Z) :=
  skipn (length (mmap_calls st)) (mmap_calls st').

(** The mapping was made. *)
Definition map_succeeded (m : Z * option Z) : bool :=
  match snd m with Some _ => true | None => false end.

End Buffers.

(** ** A platform to run the model on

    Concrete collaborators: a bump allocator over one budget of bytes, push
    constants that are re-uploaded when the workgroup counts change, and
    fixed hardware parameters. *)

Module Platform.

Record bump_pool := { next_offset : Z; capacity : Z }.

Definition align_up (x a : Z) : Z := (x + a - 1) / a * a.

(** Modelled from the spec: "must round size up to alignment; must not
    exceed the pool's remaining committed capacity"; "either the full block
    is returned or an explicit out-of-memory condition is raised". *)
Definition bump_alloc (req : alloc_request) (p : bump_pool)
  : pan_ptr * bump_pool :=
  let '(sz, align) :=
    match req with
    | alloc_dev_mem _ sz align => (sz, align)
    | alloc_desc LOCAL_STORAGE => (32, 64)
    end in
  let start := align_up (next_offset p) align in
  let stop := start + align_up sz align in
  if stop <=? capacity p
  then ({| cpu := 4096 + start; gpu := 65536 + start |},
        {| next_offset := stop; capacity := capacity p |})
  else ({| cpu := 0; gpu := 0 |}, p).

Definition prepare_dispatch_sysvals (v : pan_compute_dim) (s : panvk_shader)
  (info : panvk_dispatch_info) : pan_compute_dim * Z :=
  if indirect_buffer_dev_addr info =? 0 then
    let n := direct_wg_count info in
    if (dim_x v =? dim_x n) && (dim_y v =? dim_y n) && (dim_z v =? dim_z n)
    then (v, 0)
    else (n, Z.shiftl 1 (dirty_bit PUSH_UNIFORMS))
  else (v, Z.shiftl 1 (dirty_bit PUSH_UNIFORMS)).

Definition prepare_push_uniforms (p : bump_pool) (dirty : Z)
  (v : pan_compute_dim) (current : Z) (s : panvk_shader) (repeat_count : Z)
  : VkResult * bump_pool * Z :=
  if BITSET_TEST dirty (dirty_bit PUSH_UNIFORMS) then
    if fau_total_count s =? 0 then (VK_SUCCESS, p, 0)
    else
      let (blk, p') :=
        bump_alloc (alloc_dev_mem pool_desc
                      (fau_total_count s * 8 * repeat_count) 8) p in
      if gpu blk =? 0 then (VK_ERROR_OUT_OF_DEVICE_MEMORY, p', current)
      else (VK_SUCCESS, p', gpu blk)
  else (VK_SUCCESS, p, current).

Definition prepare_shader_res_table (p : bump_pool) (ds : list (Z * Z))
  (s : panvk_shader) (d : panvk_shader_desc_state) (repeat_count : Z)
  : VkResult * bump_pool * Z :=
  let (blk, p') := bump_alloc (alloc_dev_mem pool_desc 64 64) p in
  if gpu blk =? 0 then (VK_ERROR_OUT_OF_DEVICE_MEMORY, p', res_table d)
  else (VK_SUCCESS, p', gpu blk).

#[export] Instance collaborators : Collaborators := {|
  pools_t := bump_pool;
  panvk_descriptor_state := list (Z * Z);
  panvk_compute_sysvals := pan_compute_dim;
  pan_kmod_dev_props := Z * Z;
  u_trace := Z;
  panvk_buffer := Z;
  PAN_ARCH := 10;
  PANVK_DESCRIPTOR_SIZE := 32;
  SB_ITER := fun x => x;
  SB_WAIT_ITER := fun x => Z.shiftl 1 x;
  SB_ID_DEFERRED_SYNC := 5;
  offsetof_syncobjs := 0;
  sizeof_panvk_cs_sync64 := 48;
  BIFROST_PRECOMPILED_KERNEL_SYSVALS_SIZE := 32;
  ext_alloc := bump_alloc;
  ext_prepare_push_descs := fun p ds _ => (VK_SUCCESS, p, ds);
  ext_prepare_dispatch_sysvals := prepare_dispatch_sysvals;
  ext_prepare_push_uniforms := prepare_push_uniforms;
  ext_prepare_shader_res_table := prepare_shader_res_table;
  ext_dyn_buf := fun ds _ i => nth (Z.to_nat i) ds (0, 0);
  pan_query_core_count := fun props => props;
  pan_calc_wls_instances := fun _ _ dim =>
    match dim with
    | Some d => dim_x d * dim_y d * dim_z d
    | None => 128
    end;
  pan_calc_workgroups_per_task := fun _ _ => 1;
  calculate_task_axis_and_increment := fun _ _ _ => (MALI_TASK_AXIS_X, 1);
  pack_COMPUTE_SIZE_WORKGROUP := fun x y z m =>
    Z.lor (x - 1) (Z.lor (Z.shiftl (y - 1) 10) (Z.shiftl (z - 1) 20));
  shader_uses_sysval := fun _ _ => true;
  sysval_offset := fun v =>
    match v with
    | num_work_groups_x => 0
    | num_work_groups_y => 4
    | num_work_groups_z => 8
    end;
  shader_remapped_sysval_offset := fun _ off => off;
  panvk_buffer_gpu_ptr := fun b off => if b =? 0 then 0 else b + off;
  ext_trace_begin_dispatch := fun u => u + 1;
  ext_trace_end_dispatch := fun u _ _ _ => u + 1;
  ext_trace_begin_dispatch_indirect := fun u => u + 1;
  ext_trace_end_dispatch_indirect := fun u _ => u + 1
|}.

(** A compute shader: 8x8x1 workgroups, [tls] bytes of TLS, [wls] bytes of
    WLS, [dyn] dynamic buffers, two push-uniform words. *)
Definition a_shader (addr tls wls dyn : Z) : panvk_shader :=
  {| spd := {| priv_mem_dev_addr := addr |};
     info_tls_size := tls;
     info_wls_size := wls;
     cs_local_size := {| dim_x := 8; dim_y := 8; dim_z := 1 |};
     desc_info_dyn_bufs_count := dyn;
     desc_info_used_set_mask := 1;
     fau_total_count := 2 |}.

Definition idle : panvk_cs_state := {| builder := []; relative_sync_point := 0 |}.

(** A command buffer just begun, with [budget] bytes of transient memory,
    [s] bound and every aspect marked by [dirty0]. *)
Definition a_cmdbuf (budget : Z) (s : panvk_shader) (dirty0 : Z)
  : panvk_cmd_buffer :=
  {| device := {| kmod_props := (4, 4); printf_bo_addr_dev := 0;
                  precomp_cache := fun idx =>
                    if idx =? 0 then Some (a_shader 24576 16 0 0) else None |};
     pools := {| next_offset := 0; capacity := budget |};
     alloc_log := [];
     host_stores := [];
     compute := {| shader := s;
                   desc_state := [(256, 1048576); (512, 2097152)];
                   cs_desc := {| driver_set := {| dev_addr := 0; size := 0 |};
                                 res_table := 0 |};
                   push_uniforms := 0;
                   sysvals := {| dim_x := 0; dim_y := 0; dim_z := 0 |};
                   dirty := dirty0 |};
     tls := {| tls_info_tls_size := 0; tls_desc := {| cpu := 0; gpu := 0 |} |};
     cs := {| at_vertex_tiler := idle; at_fragment := idle;
              at_compute := idle |};
     utrace_uts := {| at_vertex_tiler := 0; at_fragment := 0;
                      at_compute := 0 |} |}.



Definition ready_cmdbuf : panvk_cmd_buffer :=
  a_cmdbuf 1048576 (a_shader 8192 16 64 2) 7.

Definition unbound_cmdbuf : panvk_cmd_buffer :=
  a_cmdbuf 1048576 (a_shader 0 0 0 0) 7.

Definition direct_4_1_1 : panvk_dispatch_info :=
  {| wg_base := {| dim_x := 0; dim_y := 0; dim_z := 0 |};
     direct_wg_count := {| dim_x := 4; dim_y := 1; dim_z := 1 |};
     indirect_buffer_dev_addr := 0 |}.

Definition a_grid : panlib_precomp_grid :=
  {| count0 := 2; count1 := 1; count2 := 1 |}.

(** The state a run of commands ends in ([c] itself if an assertion
    fails). *)
Definition after (cmds : list command) (c : panvk_cmd_buffer)
  : panvk_cmd_buffer :=
  match exec_all cmds c with
  | Some c' => c'
  | None => c
  end.

Definition three_dispatches : list command :=
  [CMD_DISPATCH_BASE 0 0 0 4 1 1;
   CMD_DISPATCH_INDIRECT 1000 8;
   CMD_DISPATCH_PRECOMP a_grid PANLIB_BARRIER_NONE 0 [] 0].


(** [ready_cmdbuf] after one precompiled-kernel dispatch. *)
Definition after_precomp : panvk_cmd_buffer :=
  match dispatch_precomp ready_cmdbuf a_grid PANLIB_BARRIER_NONE 0 [] 0 with
  | Some c' => c'
  | None => ready_cmdbuf
  end.

Definition is_some {A} (o : option A) : bool :=
  match o with Some _ => true | None => false end.


(** The null buffer. *)
Definition null_buffer : panvk_buffer := 0.

(** A machine with 4 GiB and one with 8 GiB, in pages of 4096 bytes. *)
(** Three formats, with the flag values of vulkan_core.h. *)
Inductive sample_format :=
| R8G8B8A8_UNORM | D32_SFLOAT | BC1_RGB_UNORM_BLOCK.

#[export] Instance vulkan_flags : ImageFlags := {|
  VkFormat := sample_format;
  VK_IMAGE_USAGE_TRANSFER_SRC_BIT := 1;
  VK_IMAGE_USAGE_TRANSFER_DST_BIT := 2;
  VK_IMAGE_USAGE_SAMPLED_BIT := 4;
  VK_IMAGE_USAGE_STORAGE_BIT := 8;
  VK_IMAGE_USAGE_COLOR_ATTACHMENT_BIT := 16;
  VK_IMAGE_USAGE_DEPTH_STENCIL_ATTACHMENT_BIT := 32;
  VK_IMAGE_ASPECT_COLOR_BIT := 1;
  VK_IMAGE_ASPECT_DEPTH_BIT := 2;
  VK_IMAGE_CREATE_2D_ARRAY_COMPATIBLE_BIT := 32;
  VK_IMAGE_CREATE_MUTABLE_FORMAT_BIT := 8;
  VK_IMAGE_CREATE_BLOCK_TEXEL_VIEW_COMPATIBLE_BIT := 128;
  vk_format_aspects f := match f with D32_SFLOAT => 2 | _ => 1 end;
  vk_format_is_compressed f :=
    match f with BC1_RGB_UNORM_BLOCK => true | _ => false end
|}.

(** A 3D colour image that is only a transfer destination. *)
Definition transfer_dst_image : vk_image :=
  {| vk_format := R8G8B8A8_UNORM; vk_image_type := VK_IMAGE_TYPE_3D;
     vk_usage := 2; vk_stencil_usage := 0; vk_create_flags := 0 |}.

Definition ram_4GiB : sysinfo := {| totalram := 1048576; mem_unit := 4096 |}.
Definition ram_8GiB : sysinfo := {| totalram := 2097152; mem_unit := 4096 |}.

(** A v7 device with 4 KiB pages; buffer objects number 0 cannot be
    mapped. *)
#[export] Instance buffer_env : BufferEnv := {|
  pan_kmod_bo := Z;
  gpu_arch := 7;
  getpagesize := 4096;
  VK_BUFFER_USAGE_INDEX_BUFFER_BIT := 64;
  pan_kmod_bo_mmap := fun bo start size =>
    if bo =? 0 then None else Some (bo * 1048576 + start)
|}.

(** Buffers 1 and 2 are index buffers, the others vertex buffers; none is
    bound. *)
Definition unbound_buffers : buffer_state :=
  {| buffers := fun h =>
       {| vk_device_address := 0;
          vk_buffer_usage := if h <=? 2 then 64 else 128;
          vk_buffer_size := 256;
          host_ptr := 0 |};
     status_stores := [];
     mmap_calls := [] |}.

Definition three_binds : list VkBindBufferMemoryInfo :=
  [{| bind_memory := Some {| addr_dev := 16777216; mem_bo := 1 |};
      bind_buffer := 1; bind_memoryOffset := 4112; bind_status := true |};
   {| bind_memory := Some {| addr_dev := 33554432; mem_bo := 0 |};
      bind_buffer := 2; bind_memoryOffset := 0; bind_status := true |};
   {| bind_memory := Some {| addr_dev := 50331648; mem_bo := 3 |};
      bind_buffer := 3; bind_memoryOffset := 512; bind_status := false |}].

(** What the three binds return and leave. *)
Definition after_binds : VkResult * buffer_state :=
  match panvk_BindBufferMemory2 three_binds unbound_buffers with
  | Some rs => rs
  | None => (VK_SUCCESS, unbound_buffers)
  end.

End Platform.

(** * Lemmas *)

(** ** Bit sets *)

Lemma BITSET_TEST_SET (d : Z) (a b : compute_dirty_aspect) :
  BITSET_TEST (BITSET_SET d (dirty_bit a)) (dirty_bit b) =
  BITSET_TEST d (dirty_bit b) || (dirty_bit a =? dirty_bit b).
Proof.
  unfold BITSET_TEST, BITSET_SET. rewrite Z.lor_spec.
  destruct a, b; reflexivity.
Qed.

Lemma BITSET_TEST_ZERO (b : compute_dirty_aspect) :
  BITSET_TEST BITSET_ZERO (dirty_bit b) = false.
Proof. destruct b; reflexivity. Qed.

Lemma BITSET_TEST_lor (d m b : Z) :
  BITSET_TEST (Z.lor d m) b = BITSET_TEST d b || BITSET_TEST m b.
Proof. unfold BITSET_TEST. apply Z.lor_spec. Qed.

Lemma MAX2_max (a b : Z) : MAX2 a b = Z.max a b.
Proof. unfold MAX2. destruct (Z.gtb_spec a b); lia. Qed.

Section Emission.

Context {E : Collaborators}.
Local Open Scope cmd_scope.

Lemma sq_get_set {A} (a : per_subqueue A) (q q' : panvk_subqueue_id) (v : A) :
  sq_get (sq_set a q v) q' =
  if subqueue_index q' =? subqueue_index q then v else sq_get a q'.
Proof. destruct q, q'; reflexivity. Qed.

Lemma sq_set_set {A} (a : per_subqueue A) (q : panvk_subqueue_id) (v w : A) :
  sq_set (sq_set a q v) q w = sq_set a q w.
Proof. destruct q; reflexivity. Qed.

Lemma append_builder_nil (q : panvk_subqueue_id) (c : panvk_cmd_buffer) :
  append_builder q [] c = c.
Proof.
  destruct c as [d p al hs cp t [v f k] u].
  unfold append_builder, set_cs; destruct q; simpl;
    rewrite app_nil_r;
    [destruct v | destruct f | destruct k]; reflexivity.
Qed.

Lemma append_builder_app (q : panvk_subqueue_id) (l1 l2 : list cs_instr)
  (c : panvk_cmd_buffer) :
  append_builder q l2 (append_builder q l1 c) = append_builder q (l1 ++ l2) c.
Proof.
  unfold append_builder, set_cs; simpl.
  rewrite sq_set_set, sq_get_set, Z.eqb_refl; simpl.
  now rewrite app_assoc.
Qed.

Lemma emits_emit {R} q i c : emits (R:=R) q (emit q i) [i] c.
Proof. reflexivity. Qed.

Lemma emits_ret {R} q c : emits (R:=R) q (ret tt) [] c.
Proof. unfold emits, ret. now rewrite append_builder_nil. Qed.

Lemma emits_seq {R} q (m k : M R unit) l1 l2 c :
  emits q m l1 c -> emits q k l2 (append_builder q l1 c) ->
  emits q (m ;; k) (l1 ++ l2) c.
Proof.
  unfold emits, bind. intros -> ->. now rewrite append_builder_app.
Qed.

Lemma emits_get {R} q (k : panvk_cmd_buffer -> M R unit) l c :
  emits q (k c) l c -> emits q (x <- get ;; k x) l c.
Proof. unfold emits, bind, get. auto. Qed.

Lemma emits_when {R} q (b : bool) (m : M R unit) l c :
  emits q m l c -> emits q (when b m) (if b then l else []) c.
Proof. destruct b; simpl; auto using emits_ret. Qed.

Lemma emits_if {R} q (b : bool) (m1 m2 : M R unit) l1 l2 c :
  emits q m1 l1 c -> emits q m2 l2 c ->
  emits q (if b then m1 else m2) (if b then l1 else l2) c.
Proof. destruct b; auto. Qed.

Lemma emits_emit_all {R} q l c : emits (R:=R) q (emit_all q l) l c.
Proof.
  revert c. induction l as [|i l IH]; intros c; simpl.
  - apply emits_ret.
  - apply (emits_seq q _ _ [i] l); [apply emits_emit | apply IH].
Qed.

Lemma emits_copy_tls_pointer {R} s tsd c :
  emits (R:=R) PANVK_SUBQUEUE_COMPUTE (copy_tls_pointer s tsd)
    (tls_copy_stream s tsd c) c.
Proof.
  unfold copy_tls_pointer, tls_copy_stream.
  apply emits_get, emits_when.
  repeat (eapply (emits_seq _ _ _ [_]); [apply emits_emit|]).
  apply emits_emit.
Qed.

Lemma emits_store_num_work_groups {R} s v r c :
  emits (R:=R) PANVK_SUBQUEUE_COMPUTE (store_num_work_groups s v r)
    (sysval_store_stream s v r) c.
Proof. apply emits_when, emits_emit. Qed.

Lemma emits_cmd_dispatch_emit {R} info s props tsd indirect w c :
  emits (R:=R) PANVK_SUBQUEUE_COMPUTE
    (cmd_dispatch_emit info s props tsd indirect w)
    (dispatch_stream info s props tsd indirect w c) c.
Proof.
  unfold cmd_dispatch_emit, dispatch_stream.
  apply emits_seq; [apply emits_copy_tls_pointer|].
  apply emits_get.
  unfold state_pointer_stream.
  rewrite <- !app_assoc.
  apply emits_seq; [apply emits_when, emits_emit|].
  apply emits_seq; [apply emits_when, emits_emit|].
  apply emits_seq; [apply emits_when, emits_emit|].
  unfold fixed_ctx_stream.
  do 6 (eapply (emits_seq _ _ _ [_]); [apply emits_emit|]).
  apply emits_seq.
  { unfold job_size_stream. apply emits_if.
    - do 3 (eapply (emits_seq _ _ _ [_]); [apply emits_emit|]).
      do 3 (apply emits_seq; [apply emits_store_num_work_groups|]).
      apply emits_emit.
    - do 2 (eapply (emits_seq _ _ _ [_]); [apply emits_emit|]).
      apply emits_emit. }
  eapply (emits_seq _ _ _ [_]); [apply emits_emit|].
  eapply (emits_seq _ _ _ [_]).
  { unfold run_compute_instr. destruct indirect; apply emits_emit. }
  apply emits_emit_all.
Qed.

End Emission.
Section Staging.
Context {E : Collaborators}.
Local Open Scope cmd_scope.

Lemma cmd_dispatch_run_staged info c :
  run (cmd_dispatch_body info) c = cmd_dispatch_staged info c.
Proof.
  unfold cmd_dispatch_body, cmd_dispatch_staged, run.
  unfold bind at 1. unfold get at 1. cbv beta iota.
  destruct (panvk_priv_mem_dev_addr (spd (shader (compute c))) =? 0); [reflexivity|].
  unfold bind at 1. unfold call at 1.
  destruct (direct_wg_count info) as [x y z]. cbn [dim_x dim_y dim_z].
  destruct (cmd_dispatch_prepare_tls _ _ _ c) as [[tsd|tsd] c1]; cbn [fst snd];
  (destruct (tsd =? 0); [reflexivity|]).
  all: unfold cmd_dispatch_state; cbv beta iota delta [bind get ret creturn call].
  all: destruct (compute_state_dirty c1 DESC_STATE || compute_state_dirty c1 CS).
  all: try (destruct (cmd_prepare_push_descs _ c1) as [[r|r] c2];
            [reflexivity|]; destruct (VkResult_is_success r); [|reflexivity]).
  all: match goal with
       | |- context [cmd_prepare_dispatch_sysvals ?i ?c] =>
           destruct (cmd_prepare_dispatch_sysvals i c) as [[r0|[]] c3];
           [reflexivity|]
       end.
  all: destruct (prepare_driver_set c3) as [[r1|r1] c4]; cbv beta iota;
       (destruct (negb (VkResult_is_success r1)); [reflexivity|]).
  all: destruct (cmd_prepare_push_uniforms _ _ c4) as [[r2|r2] c5];
       [reflexivity|]; cbv beta iota;
       (destruct (negb (VkResult_is_success r2)); [reflexivity|]).
  all: destruct (compute_state_dirty c5 CS || compute_state_dirty c5 DESC_STATE).
  all: try (destruct (cmd_prepare_shader_res_table _ _ c5) as [[r3|r3] c6];
            [reflexivity|]; cbv beta iota;
            (destruct (VkResult_is_success r3); [|reflexivity])).
  all: match goal with
       | |- context [cmd_dispatch_emit ?i ?s ?p ?t ?b ?w ?c] =>
           rewrite (emits_cmd_dispatch_emit i s p t b w c)
       end; reflexivity.
Qed.
End Staging.

(** ** Symbolic execution of the preparation stages *)

Ltac exec_step :=
  match goal with
  | |- context [ext_alloc ?r ?p] =>
      let A := fresh "A" in destruct (ext_alloc r p) as [? ?] eqn:A
  | |- context [ext_prepare_push_descs ?p ?d ?m] =>
      let A := fresh "A" in
      destruct (ext_prepare_push_descs p d m) as [[? ?] ?] eqn:A
  | |- context [ext_prepare_dispatch_sysvals ?v ?s ?i] =>
      let A := fresh "A" in
      destruct (ext_prepare_dispatch_sysvals v s i) as [? ?] eqn:A
  | |- context [ext_prepare_push_uniforms ?p ?d ?v ?u ?s ?n] =>
      let A := fresh "A" in
      destruct (ext_prepare_push_uniforms p d v u s n) as [[? ?] ?] eqn:A
  | |- context [ext_prepare_shader_res_table ?p ?d ?s ?t ?n] =>
      let A := fresh "A" in
      destruct (ext_prepare_shader_res_table p d s t n) as [[? ?] ?] eqn:A
  | |- context [if ?b then _ else _] =>
      let B := fresh "B" in destruct b eqn:B
  end;
  cbv beta iota;
  cbn [fst snd gpu cpu pools alloc_log host_stores compute tls cs utrace_uts
       device set_pools set_alloc_log set_host_stores set_tls set_compute
       set_cs tls_desc tls_info_tls_size shader desc_state cs_desc dirty
       push_uniforms sysvals with_dirty with_desc_state with_cs_desc
       with_push_uniforms with_sysvals] in *.

Ltac exec_unfold :=
  cbv beta iota zeta delta [bind get ret creturn call modify host_write];
  cbn [fst snd gpu cpu pools alloc_log host_stores compute tls cs utrace_uts
       device set_pools set_alloc_log set_host_stores set_tls set_compute
       set_cs tls_desc tls_info_tls_size shader desc_state cs_desc dirty
       push_uniforms sysvals with_dirty with_desc_state with_cs_desc
       with_push_uniforms with_sysvals].

Section Stages.

Context {E : Collaborators}.
Local Open Scope cmd_scope.

Lemma MAX2_ge_r (a b : Z) : b <= MAX2 a b.
Proof. rewrite MAX2_max. lia. Qed.

(** [cmd_dispatch_prepare_tls] touches the pools, the TLS state and host
    memory; the TLS size only grows, and is the maximum once the function
    returns a descriptor. *)
Lemma prepare_tls_spec s dim ind c :
  let r := run (cmd_dispatch_prepare_tls s dim ind) c in
  cs (snd r) = cs c /\ compute (snd r) = compute c /\
  utrace_uts (snd r) = utrace_uts c /\ device (snd r) = device c /\
  tls_info_tls_size (tls c) <= tls_info_tls_size (tls (snd r)) /\
  (fst r <> 0 ->
   tls_info_tls_size (tls (snd r)) =
   MAX2 (info_tls_size s) (tls_info_tls_size (tls c))).
Proof.
  unfold cmd_dispatch_prepare_tls, run, panvk_cmd_alloc_desc,
    panvk_cmd_alloc_dev_mem, panvk_cmd_alloc.
  exec_unfold. repeat exec_step.
  all: repeat split; try reflexivity; try apply MAX2_ge_r; try lia;
       intros; try congruence;
       match goal with H : (_ =? 0) = true |- _ => apply Z.eqb_eq in H end;
       congruence.
Qed.

(** The allocations [cmd_dispatch_prepare_tls] performs, and what it
    returns. *)
Lemma prepare_tls_allocations s dim ind c :
  let r := run (cmd_dispatch_prepare_tls s dim ind) c in
  exists new,
    alloc_log (snd r) = alloc_log c ++ new /\
    (fst r <> 0 <-> Forall succeeded new) /\
    (fst r <> 0 -> exists blk rest,
        new = (alloc_desc LOCAL_STORAGE, blk) :: rest /\ fst r = gpu blk).
Proof.
  unfold cmd_dispatch_prepare_tls, run, panvk_cmd_alloc_desc,
    panvk_cmd_alloc_dev_mem, panvk_cmd_alloc.
  exec_unfold. repeat exec_step.
  all: rewrite <- ?app_assoc; eexists; (split; [reflexivity|]).
  all: repeat match goal with
         | H : (_ =? 0) = true |- _ => apply Z.eqb_eq in H
         | H : (_ =? 0) = false |- _ => apply Z.eqb_neq in H
         end.
  all: cbn [app]; unfold succeeded.
  all: rewrite ?Forall_cons_iff; cbn [fst snd].
  all: split; [|intros; try congruence; eauto].
  all: split; intros; repeat split; auto; try congruence; try tauto.
Qed.

(** The stage that brings the state up to date leaves the queues and the
    TLS state alone and never cleans an aspect. *)
Lemma cmd_dispatch_state_spec info s c :
  let r := cmd_dispatch_state info s c in
  cs (snd r) = cs c /\ tls (snd r) = tls c /\
  utrace_uts (snd r) = utrace_uts c /\ device (snd r) = device c /\
  shader (compute (snd r)) = shader (compute c) /\
  (forall a, compute_state_dirty c a = true ->
             compute_state_dirty (snd r) a = true) /\
  ((forall a, compute_state_dirty c a = false) ->
   (forall a, BITSET_TEST
                (snd (ext_prepare_dispatch_sysvals (sysvals (compute c))
                        (shader (compute c)) info)) (dirty_bit a) = false) ->
   forall a, compute_state_dirty (snd r) a = false) /\
  (forall e, fst r = inl e -> e <> DISPATCHED) /\
  (exists more, alloc_log (snd r) = alloc_log c ++ more).
Proof.
  unfold cmd_dispatch_state, cmd_prepare_push_descs,
    cmd_prepare_dispatch_sysvals, prepare_driver_set,
    cmd_prepare_push_uniforms, cmd_prepare_shader_res_table,
    cmd_fill_dyn_bufs, compute_state_set_dirty, panvk_cmd_alloc_dev_mem,
    panvk_cmd_alloc, compute_state_dirty.
  exec_unfold. repeat exec_step.
  all: try match goal with H : (_, _) = (_, _) |- _ => inversion H; subst end.
  all: repeat match goal with
         | |- _ /\ _ => split
         | |- exists more, ?l = ?l ++ more =>
             exists []; symmetry; apply app_nil_r
         | |- exists more, _ = _ ++ more => eexists; reflexivity
         end; try reflexivity.
  all: intros.
  all: try match goal with
         | H : inl _ = inl _ |- _ => inversion H; discriminate
         | H : inr _ = inl _ |- _ => discriminate
         end.
  all: rewrite ?BITSET_TEST_SET, ?BITSET_TEST_lor.
  all: try match goal with
         | H : forall a, BITSET_TEST _ (dirty_bit a) = true -> _ |- _ => idtac
         | H : BITSET_TEST ?d (dirty_bit ?a) = true |- _ => rewrite H; reflexivity
         end.
  all: repeat match goal with
         | H : context [BITSET_TEST (Z.lor _ _) _] |- _ =>
             rewrite BITSET_TEST_lor in H
         | Hc : forall a, BITSET_TEST ?d (dirty_bit a) = false,
           H : context [BITSET_TEST ?d (dirty_bit ?a)] |- _ =>
             rewrite (Hc a) in H
         end.
  all: cbn [orb negb andb] in *; try discriminate.
  all: match goal with
       | Hc : forall a, BITSET_TEST ?d (dirty_bit a) = false,
         Hm : forall a, BITSET_TEST ?m (dirty_bit a) = false |- _ =>
           rewrite ?(Hc a), ?(Hm a)
       end; reflexivity.
Qed.

(** The allocations of the state stage are logged after those already
    made; when the stage falls through, each of them succeeded. *)
Lemma cmd_dispatch_state_allocations info s c :
  let r := cmd_dispatch_state info s c in
  exists more,
    alloc_log (snd r) = alloc_log c ++ more /\
    (forall u, fst r = inr u -> Forall succeeded more).
Proof.
  unfold cmd_dispatch_state, cmd_prepare_push_descs,
    cmd_prepare_dispatch_sysvals, prepare_driver_set,
    cmd_prepare_push_uniforms, cmd_prepare_shader_res_table,
    cmd_fill_dyn_bufs, compute_state_set_dirty, panvk_cmd_alloc_dev_mem,
    panvk_cmd_alloc, compute_state_dirty.
  exec_unfold. repeat exec_step.
  all: match goal with
       | |- exists more, ?l = ?l ++ more /\ _ =>
           exists []; split; [symmetry; apply app_nil_r|]
       | |- exists more, _ = _ ++ more /\ _ => eexists; split; [reflexivity|]
       end.
  all: intros u Hu; try discriminate; repeat constructor.
  all: unfold succeeded; cbn [fst snd]; apply Z.eqb_neq; assumption.
Qed.

End Stages.
(** ** The ways out of [cmd_dispatch] *)

Section Cases.
Context {E : Collaborators}.
Local Open Scope cmd_scope.

Lemma cmd_dispatch_cases info c :
  let s := shader (compute c) in
  let r := run (cmd_dispatch_body info) c in
  (fst r <> DISPATCHED /\
   cs (snd r) = cs c /\ utrace_uts (snd r) = utrace_uts c /\
   device (snd r) = device c /\
   shader (compute (snd r)) = s /\
   dirty_kept c (snd r) /\
   tls_info_tls_size (tls c) <= tls_info_tls_size (tls (snd r)))
  \/
  (fst r = DISPATCHED /\
   panvk_priv_mem_dev_addr (spd s) <> 0 /\
   exists tsd c2,
     tsd <> 0 /\
     cs c2 = cs c /\ utrace_uts c2 = utrace_uts c /\ device c2 = device c /\
     shader (compute c2) = s /\
     dirty_kept c c2 /\
     (all_clean c -> sysvals_unchanged info c -> all_clean c2) /\
     tls_info_tls_size (tls c2) =
       MAX2 (info_tls_size s) (tls_info_tls_size (tls c)) /\
     snd r = cmd_dispatch_finish info s (kmod_props (device c)) tsd
               (is_indirect info) (wg_per_task_of info c) c2).
Proof.
  intros s r. subst r. rewrite cmd_dispatch_run_staged.
  unfold cmd_dispatch_staged. fold s.
  destruct (panvk_priv_mem_dev_addr (spd s) =? 0) eqn:Hspd.
  { left. cbn [fst snd]. unfold dirty_kept.
    repeat split; auto; try discriminate; lia. }
  apply Z.eqb_neq in Hspd.
  pose proof (prepare_tls_spec s (direct_wg_count info) (is_indirect info) c)
    as T. cbv zeta in T.
  fold (is_indirect info).
  destruct (run (cmd_dispatch_prepare_tls s (direct_wg_count info)
                   (is_indirect info)) c) as [tsd c1].
  cbn [fst snd] in *.
  destruct T as (Tcs & Tcomp & Tu & Tdev & Tle & Tmax).
  destruct (tsd =? 0) eqn:Htsd.
  { left. cbn [fst snd]. unfold dirty_kept, compute_state_dirty.
    rewrite Tcomp. repeat split; auto; discriminate. }
  apply Z.eqb_neq in Htsd.
  pose proof (cmd_dispatch_state_spec info s c1) as S. cbv zeta in S.
  destruct (cmd_dispatch_state info s c1) as [[e|[]] c2]; cbn [fst snd] in *;
    destruct S as (Scs & Stls & Su & Sdev & Ssh & Skept & Sclean & Se & _).
  - left. cbn [fst snd].
    unfold dirty_kept, all_clean, sysvals_unchanged, compute_state_dirty in *.
    rewrite Tcomp in *.
    repeat split; try congruence; auto; rewrite ?Stls; auto.
  - right. cbn [fst snd]. split; [reflexivity|]. split; [assumption|].
    exists tsd, c2.
    unfold dirty_kept, all_clean, sysvals_unchanged, compute_state_dirty in *.
    rewrite Tcomp in *.
    repeat split; try congruence; auto; rewrite ?Stls; auto.
Qed.
End Cases.

(** ** [dispatch_precomp] *)

Section Precomp.
Context {E : Collaborators}.
Local Open Scope cmd_scope.

Lemma emits_dispatch_precomp_emit {R} grid s props pu data_size tsd c :
  emits (R:=R) PANVK_SUBQUEUE_COMPUTE
    (dispatch_precomp_emit grid s props pu data_size tsd)
    (precomp_stream grid s props pu data_size tsd c) c.
Proof.
  unfold dispatch_precomp_emit, precomp_stream.
  apply emits_seq; [apply emits_copy_tls_pointer|].
  cbv zeta.
  do 3 (eapply (emits_seq _ _ _ [_]); [apply emits_emit|]).
  unfold fixed_ctx_stream.
  do 11 (eapply (emits_seq _ _ _ [_]); [apply emits_emit|]).
  apply emits_emit_all.
Qed.

Lemma dispatch_precomp_tail grid s props pu data_size tsd c :
  ((dispatch_precomp_emit grid s props pu data_size tsd ;;
    incr_relative_sync_point PANVK_SUBQUEUE_COMPUTE ;;
    compute_state_set_dirty CS ;;
    compute_state_set_dirty DESC_STATE ;;
    compute_state_set_dirty PUSH_UNIFORMS) : M precomp_assert unit) c =
  (inr tt,
   dispatch_precomp_finish (precomp_stream grid s props pu data_size tsd c) c).
Proof.
  unfold bind at 1.
  rewrite (emits_dispatch_precomp_emit grid s props pu data_size tsd c).
  reflexivity.
Qed.

Lemma dispatch_precomp_spec c grid barrier idx data data_size c' :
  dispatch_precomp c grid barrier idx data data_size = Some c' ->
  exists s,
    precomp_cache (device c) idx = Some s /\
    relative_sync_point (at_compute (cs c')) =
      relative_sync_point (at_compute (cs c)) + 1 /\
    at_vertex_tiler (cs c') = at_vertex_tiler (cs c) /\
    at_fragment (cs c') = at_fragment (cs c) /\
    all_dirty c' /\
    tls_info_tls_size (tls c') =
      MAX2 (info_tls_size s) (tls_info_tls_size (tls c)) /\
    device c' = device c /\ utrace_uts c' = utrace_uts c /\
    shader (compute c') = shader (compute c).
Proof.
  unfold dispatch_precomp, dispatch_precomp_body, c_assert.
  destruct barrier; [|discriminate].
  unfold bind at 1. unfold ret at 1. unfold bind at 1. unfold get at 1.
  cbv beta iota zeta.
  destruct (precomp_cache (device c) idx) as [s|] eqn:Hs; [|discriminate].
  unfold bind at 1.
  unfold panvk_cmd_alloc_dev_mem, panvk_cmd_alloc.
  destruct (ext_alloc _ (pools c)) as [pu p'] eqn:A.
  unfold bind at 1.
  destruct (negb (gpu pu =? 0)); [|discriminate].
  unfold ret at 1.
  unfold bind at 1. unfold host_write at 1. unfold modify at 1.
  unfold bind at 1. unfold call at 1.
  match goal with
  | |- context [cmd_dispatch_prepare_tls ?s ?d ?i ?c0] =>
      pose proof (prepare_tls_spec s d i c0) as T; cbv zeta in T;
      unfold run in T;
      destruct (cmd_dispatch_prepare_tls s d i c0) as [[tsd|tsd] c1]
  end; cbn [fst snd] in T;
  unfold bind at 1;
  (destruct (negb (tsd =? 0)) eqn:Htsd; [|discriminate]).
  all: unfold ret at 1.
  all: rewrite dispatch_precomp_tail.
  all: cbn [cs compute utrace_uts device tls set_host_stores set_alloc_log
            set_pools] in T.
  all: destruct T as (Tcs & Tcomp & Tu & Tdev & _ & Tmax).
  all: intros H; injection H as <-.
  all: exists s; split; [reflexivity|].
  all: apply negb_true_iff, Z.eqb_neq in Htsd.
  all: unfold dispatch_precomp_finish.
  all: cbn [cs compute utrace_uts device tls set_cs set_compute append_builder
            sq_get sq_set at_compute at_vertex_tiler at_fragment
            relative_sync_point builder shader with_dirty].
  all: rewrite Tcs, Tu, Tdev, Tcomp, (Tmax Htsd).
  all: repeat split; try reflexivity.
  all: intros a; unfold compute_state_dirty;
       cbn [compute set_compute with_dirty dirty];
       rewrite !BITSET_TEST_SET; destruct a; cbn; rewrite ?orb_true_r;
       reflexivity.
Qed.
End Precomp.

(** ** What a completed dispatch leaves behind *)

Section Finish.

Context {E : Collaborators}.

Lemma skipn_length_app {A} (l l' : list A) : skipn (length l) (l ++ l') = l'.
Proof. induction l; simpl; auto. Qed.

Lemma skipn_length_self {A} (l : list A) : skipn (length l) l = [].
Proof. induction l; simpl; auto. Qed.

Lemma cmd_dispatch_finish_spec info s props tsd ind w c :
  let c' := cmd_dispatch_finish info s props tsd ind w c in
  builder (at_compute (cs c')) =
    builder (at_compute (cs c)) ++ dispatch_stream info s props tsd ind w c /\
  relative_sync_point (at_compute (cs c')) =
    relative_sync_point (at_compute (cs c)) + 1 /\
  at_vertex_tiler (cs c') = at_vertex_tiler (cs c) /\
  at_fragment (cs c') = at_fragment (cs c) /\
  all_clean c' /\
  tls c' = tls c /\ utrace_uts c' = utrace_uts c /\ device c' = device c /\
  shader (compute c') = shader (compute c) /\
  alloc_log c' = alloc_log c /\ host_stores c' = host_stores c.
Proof.
  repeat split; try reflexivity.
  intros a. apply BITSET_TEST_ZERO.
Qed.

(** The outcome of [cmd_dispatch] on the queues: nothing when it leaves
    early, one stream and one sync point when it runs to its end. *)
Lemma cmd_dispatch_queues info c :
  let c' := cmd_dispatch info c in
  at_vertex_tiler (cs c') = at_vertex_tiler (cs c) /\
  at_fragment (cs c') = at_fragment (cs c) /\
  utrace_uts c' = utrace_uts c /\
  device c' = device c /\
  shader (compute c') = shader (compute c) /\
  tls_info_tls_size (tls c) <= tls_info_tls_size (tls c') /\
  (cmd_dispatch_exit info c <> DISPATCHED ->
   cs c' = cs c /\ dirty_kept c c') /\
  (cmd_dispatch_exit info c = DISPATCHED ->
   relative_sync_point (at_compute (cs c')) =
     relative_sync_point (at_compute (cs c)) + 1 /\
   all_clean c' /\
   tls_info_tls_size (tls c') =
     MAX2 (info_tls_size (shader (compute c))) (tls_info_tls_size (tls c))).
Proof.
  unfold cmd_dispatch, cmd_dispatch_exit.
  destruct (cmd_dispatch_cases info c)
    as [(Hne & Hcs & Hu & Hd & Hs & Hk & Ht)
       |(He & Hspd & tsd & c2 & Htsd & Hcs & Hu & Hd & Hs & Hk & Hcl & Ht & Hf)].
  - cbv zeta. rewrite Hcs. repeat split; auto; try tauto.
  - cbv zeta. rewrite Hf, He.
    destruct (cmd_dispatch_finish_spec info (shader (compute c))
                (kmod_props (device c)) tsd (is_indirect info)
                (wg_per_task_of info c) c2)
      as (Fb & Fr & Fv & Ff & Fc & Ft & Fu & Fd & Fs & _).
    rewrite Fv, Ff, Fu, Fd, Fs, Fr, Ft, Hcs, Hu, Hd, Hs, Ht.
    repeat split; auto; try congruence.
    apply MAX2_ge_r.
Qed.

End Finish.

(** ** Streams, observed *)

Ltac stream_cases :=
  unfold tls_copy_stream, state_pointer_stream, fixed_ctx_stream,
    job_size_stream, sysval_store_stream, run_compute_instr, sync_epilogue;
  repeat match goal with
         | |- context [if ?b then _ else _] => destruct b
         end;
  reflexivity.

Section StreamFacts.

Context {E : Collaborators}.

Lemma all_instrs_app l1 l2 :
  all_instrs (l1 ++ l2) = all_instrs l1 ++ all_instrs l2.
Proof. apply flat_map_app. Qed.

Lemma executed_app iter l1 l2 :
  executed iter (l1 ++ l2) = executed iter l1 ++ executed iter l2.
Proof. apply flat_map_app. Qed.

Lemma count_app p l1 l2 : count p (l1 ++ l2) = (count p l1 + count p l2)%nat.
Proof. unfold count. now rewrite filter_app, length_app. Qed.

Lemma count_state_pointer_moves l :
  count (is_move_to is_state_pointer) l =
  (count (is_move_to (sr_is SRT_0)) l + count (is_move_to (sr_is FAU_0)) l +
   count (is_move_to (sr_is SPD_0)) l)%nat.
Proof.
  unfold count. induction l as [|i l IH]; [reflexivity|].
  cbn [filter].
  destruct i as [d ?|d ?| | | | | | | | | |]; try exact IH;
    (destruct d as [r|r|r ?| | | |]; try exact IH;
     destruct r; cbn; try exact IH; rewrite IH; lia).
Qed.

(** Whatever iteration the scoreboard is on, the epilogue adds to the sync
    object once. *)
Lemma sync_epilogue_signals_once x :
  In x [0; 1; 2; 3; 4] ->
  count is_sync_add (executed (SB_ITER x) sync_epilogue) = 1%nat.
Proof.
  intros Hx. unfold sync_epilogue, sync_add_case.
  destruct (11 <=? PAN_ARCH); [reflexivity|].
  cbn in Hx.
  repeat (destruct Hx as [<-|Hx]; [|]); try contradiction;
    cbn; rewrite ?Z.eqb_refl;
    repeat match goal with
           | |- context [if ?b then _ else _] => destruct b
           end; reflexivity.
Qed.

Lemma dispatch_stream_counts info s props tsd ind w c :
  let l := dispatch_stream info s props tsd ind w c in
  count is_run_compute (all_instrs l) = 1%nat /\
  count (is_move_to (sr_is SRT_0)) (all_instrs l) =
    (if compute_state_dirty c CS || compute_state_dirty c DESC_STATE
     then 1 else 0)%nat /\
  count (is_move_to (sr_is FAU_0)) (all_instrs l) =
    (if compute_state_dirty c PUSH_UNIFORMS then 1 else 0)%nat /\
  count (is_move_to (sr_is SPD_0)) (all_instrs l) =
    (if compute_state_dirty c CS then 1 else 0)%nat /\
  count (is_load_to is_state_pointer) (all_instrs l) = 0%nat /\
  count (is_move_to is_job_size) (all_instrs l) = (if ind then 0 else 3)%nat /\
  count (is_load_to is_job_size) (all_instrs l) = (if ind then 1 else 0)%nat.
Proof.
  cbv zeta. unfold dispatch_stream.
  destruct (compute_state_dirty c CS) eqn:Hcs,
           (compute_state_dirty c DESC_STATE) eqn:Hds,
           (compute_state_dirty c PUSH_UNIFORMS) eqn:Hpu.
  all: unfold state_pointer_stream; rewrite Hcs, Hds, Hpu; cbn [orb].
  all: repeat split; stream_cases.
Qed.

Lemma dispatch_stream_signals_once info s props tsd ind w c x :
  In x [0; 1; 2; 3; 4] ->
  count is_sync_add
    (executed (SB_ITER x) (dispatch_stream info s props tsd ind w c)) = 1%nat.
Proof.
  intros Hx. unfold dispatch_stream.
  rewrite !executed_app, !count_app, (sync_epilogue_signals_once x Hx).
  assert (H0 : forall l, l = tls_copy_stream s tsd c \/
                         l = state_pointer_stream s c \/
                         l = fixed_ctx_stream s tsd \/
                         l = job_size_stream info s ind c \/
                         l = [cs_next_iter_sb PANVK_SUBQUEUE_COMPUTE
                                (cs_scratch_reg_tuple 0 2);
                              run_compute_instr s props ind w] ->
                         count is_sync_add (executed (SB_ITER x) l) = 0%nat).
  { intros l [-> | [-> | [-> | [-> | ->]]]]; stream_cases. }
  rewrite !H0 by tauto. reflexivity.
Qed.

(** An indirect dispatch loads the three workgroup counts from the
    indirect buffer, before the run-compute instruction. *)
Lemma dispatch_stream_indirect info s props tsd w c :
  exists l1 l2,
    dispatch_stream info s props tsd true w c =
      l1 ++
      [cs_move64_to (cs_scratch_reg64 0) (indirect_buffer_dev_addr info);
       cs_load_to (cs_sr_reg_tuple JOB_SIZE_X 3) (cs_scratch_reg64 0)
         (BITFIELD_MASK 3) 0] ++ l2 /\
    count is_run_compute (all_instrs l1) = 0%nat.
Proof.
  exists (tls_copy_stream s tsd c ++ state_pointer_stream s c ++
          fixed_ctx_stream s tsd).
  eexists. split.
  - unfold dispatch_stream, job_size_stream.
    rewrite <- !app_assoc. cbn [app]. reflexivity.
  - rewrite !all_instrs_app, !count_app.
    replace (count is_run_compute (all_instrs (tls_copy_stream s tsd c)))
      with 0%nat by stream_cases.
    replace (count is_run_compute (all_instrs (state_pointer_stream s c)))
      with 0%nat by stream_cases.
    reflexivity.
Qed.

(** A direct dispatch moves the three workgroup counts as immediates,
    before the run-compute instruction. *)
Lemma dispatch_stream_direct info s props tsd w c :
  exists l1 l2,
    dispatch_stream info s props tsd false w c =
      l1 ++
      [cs_move32_to (cs_sr_reg32 JOB_SIZE_X) (dim_x (direct_wg_count info));
       cs_move32_to (cs_sr_reg32 JOB_SIZE_Y) (dim_y (direct_wg_count info));
       cs_move32_to (cs_sr_reg32 JOB_SIZE_Z) (dim_z (direct_wg_count info))]
      ++ l2 /\
    count is_run_compute (all_instrs l1) = 0%nat.
Proof.
  exists (tls_copy_stream s tsd c ++ state_pointer_stream s c ++
          fixed_ctx_stream s tsd).
  eexists. split.
  - unfold dispatch_stream, job_size_stream.
    rewrite <- !app_assoc. cbn [app]. reflexivity.
  - rewrite !all_instrs_app, !count_app.
    replace (count is_run_compute (all_instrs (tls_copy_stream s tsd c)))
      with 0%nat by stream_cases.
    replace (count is_run_compute (all_instrs (state_pointer_stream s c)))
      with 0%nat by stream_cases.
    reflexivity.
Qed.

(** What a dispatch that runs to its end has emitted. *)
Lemma cmd_dispatch_emitted info c :
  cmd_dispatch_exit info c = DISPATCHED ->
  exists tsd c2,
    tsd <> 0 /\ dirty_kept c c2 /\
    (all_clean c -> sysvals_unchanged info c -> all_clean c2) /\
    emitted c (cmd_dispatch info c) =
      dispatch_stream info (shader (compute c)) (kmod_props (device c)) tsd
        (is_indirect info) (wg_per_task_of info c) c2.
Proof.
  unfold cmd_dispatch_exit, cmd_dispatch. intros He.
  destruct (cmd_dispatch_cases info c)
    as [(Hne & _)
       |(_ & Hspd & tsd & c2 & Htsd & Hcs & Hu & Hd & Hs & Hk & Hcl & Ht & Hf)].
  - contradiction.
  - exists tsd, c2. repeat split; auto.
    rewrite Hf. unfold emitted.
    destruct (cmd_dispatch_finish_spec info (shader (compute c))
                (kmod_props (device c)) tsd (is_indirect info)
                (wg_per_task_of info c) c2) as (Fb & _).
    rewrite Fb, Hcs. apply skipn_length_app.
Qed.


End StreamFacts.

(** ** One command at a time *)

Section Commands.

Context {E : Collaborators}.




End Commands.

(** ** Tables and blocks *)

Section Tables.
Context {E : Collaborators}.
Local Open Scope cmd_scope.

Lemma store_array_map_seq base first (f : nat -> host_obj) n : forall k,
  map (fun i => {| st_base := base; st_slot := first + Z.of_nat i;
                   st_obj := f i |}) (seq k n) =
  store_array base (first + Z.of_nat k) (map f (seq k n)).
Proof.
  induction n as [|n IH]; intros k; [reflexivity|].
  cbn [seq map store_array]. f_equal. rewrite IH. f_equal. lia.
Qed.

Lemma u32_small x : 0 <= x < 2 ^ 32 -> u32 x = x.
Proof. intros H. unfold u32. apply Z.mod_small. exact H. Qed.

Lemma prepare_tls_wls_allocation s dim ind c :
  info_wls_size s <> 0 ->
  gpu (fst (ext_alloc (alloc_desc LOCAL_STORAGE) (pools c))) <> 0 ->
  let r := run (cmd_dispatch_prepare_tls s dim ind) c in
  exists tsd wls rest,
    alloc_log (snd r) =
    alloc_log c ++
    (alloc_desc LOCAL_STORAGE, tsd) ::
    (alloc_dev_mem pool_tls
       (u32 (pan_calc_total_wls_size (info_wls_size s)
               (pan_calc_wls_instances (cs_local_size s)
                  (kmod_props (device c)) (if ind then None else Some dim))
               (snd (pan_query_core_count (kmod_props (device c))))))
       4096, wls) :: rest.
Proof.
  intros Hw Ha.
  unfold cmd_dispatch_prepare_tls, run, panvk_cmd_alloc_desc,
    panvk_cmd_alloc_dev_mem, panvk_cmd_alloc.
  exec_unfold.
  apply Z.eqb_neq in Hw. rewrite Hw.
  destruct (ext_alloc (alloc_desc LOCAL_STORAGE) (pools c)) as [tsd p0] eqn:A0.
  cbn [fst] in Ha. apply Z.eqb_neq in Ha. cbv beta iota. cbn [gpu]. rewrite Ha.
  repeat exec_step.
  all: rewrite <- ?app_assoc; cbn [app]; do 3 eexists; reflexivity.
Qed.
End Tables.

(** * Properties of the dispatch path *)

Section Claims.

Context {E : Collaborators}.


(** C7: with no compute shader bound (the device address of the shader
    program is null) a dispatch, direct or indirect, is a no-op:
    [cmd_dispatch] returns the command buffer as it got it, and the entry
    points leave the streams, the pools, the allocations, the host memory,
    the compute state with its dirty aspects, the TLS state and the sync
    points as they were. *)
Theorem C7_no_shader_no_op c :
  panvk_priv_mem_dev_addr (spd (shader (compute c))) = 0 ->
  (forall info,
     cmd_dispatch_exit info c = SKIP_NO_SHADER /\ cmd_dispatch info c = c) /\
  (forall bx by_ bz gx gy gz,
     let c' := CmdDispatchBase c bx by_ bz gx gy gz in
     cs c' = cs c /\ pools c' = pools c /\ alloc_log c' = alloc_log c /\
     host_stores c' = host_stores c /\ compute c' = compute c /\
     tls c' = tls c /\ device c' = device c) /\
  (forall buffer offset,
     let c' := CmdDispatchIndirect c buffer offset in
     cs c' = cs c /\ pools c' = pools c /\ alloc_log c' = alloc_log c /\
     host_stores c' = host_stores c /\ compute c' = compute c /\
     tls c' = tls c /\ device c' = device c).
Proof.
  intros Hspd.
  assert (Hrun : forall info c0,
             panvk_priv_mem_dev_addr (spd (shader (compute c0))) = 0 ->
             run (cmd_dispatch_body info) c0 = (SKIP_NO_SHADER, c0)).
  { intros info c0 H0. unfold run, cmd_dispatch_body, bind, get.
    rewrite H0. reflexivity. }
  split; [|split].
  - intros info. unfold cmd_dispatch_exit, cmd_dispatch.
    rewrite (Hrun info c Hspd). split; reflexivity.
  - intros bx by_ bz gx gy gz c'. subst c'.
    unfold CmdDispatchBase, CmdDispatchBase_exit, cmd_dispatch. cbv zeta.
    rewrite Hrun by exact Hspd. repeat split.
  - intros buffer offset c'. subst c'.
    unfold CmdDispatchIndirect, CmdDispatchIndirect_exit, cmd_dispatch.
    cbv zeta. rewrite Hrun by exact Hspd. repeat split.
Qed.


(** C3: the second of two consecutive dispatches whose shader, descriptor
    and push-uniform state are the same (every aspect is clean when it
    runs, and its system values are those already pushed) emits no move
    into, nor load of, the shader program pointer (SPD), the resource-table
    pointer (SRT) and the push-uniform pointer (FAU); it still emits exactly
    one run-compute instruction, signals the sync object exactly once
    whatever the scoreboard iteration, and advances the relative sync point
    by one. *)
Theorem C3_clean_dispatch_reloads_no_state_pointer info1 info2 c :
  cmd_dispatch_exit info1 c = DISPATCHED ->
  let c1 := cmd_dispatch info1 c in
  sysvals_unchanged info2 c1 ->
  cmd_dispatch_exit info2 c1 = DISPATCHED ->
  let l := emitted c1 (cmd_dispatch info2 c1) in
  all_clean c1 /\
  count (is_move_to is_state_pointer) (all_instrs l) = 0%nat /\
  count (is_load_to is_state_pointer) (all_instrs l) = 0%nat /\
  count is_run_compute (all_instrs l) = 1%nat /\
  (forall x, In x [0; 1; 2; 3; 4] ->
             count is_sync_add (executed (SB_ITER x) l) = 1%nat) /\
  relative_sync_point (at_compute (cs (cmd_dispatch info2 c1))) =
    relative_sync_point (at_compute (cs c1)) + 1.
Proof.
  intros H1 c1 Hsys H2 l.
  destruct (cmd_dispatch_queues info1 c) as (_ & _ & _ & _ & _ & _ & _ & Hd1).
  destruct (Hd1 H1) as (_ & Hclean & _). fold c1 in Hclean.
  destruct (cmd_dispatch_queues info2 c1) as (_ & _ & _ & _ & _ & _ & _ & Hd2).
  destruct (Hd2 H2) as (Hsync & _).
  destruct (cmd_dispatch_emitted info2 c1 H2)
    as (tsd & c2 & _ & _ & Hcl2 & Hl).
  specialize (Hcl2 Hclean Hsys). subst l. rewrite Hl.
  destruct (dispatch_stream_counts info2 (shader (compute c1))
              (kmod_props (device c1)) tsd (is_indirect info2)
              (wg_per_task_of info2 c1) c2)
    as (Hrun & Hsrt & Hfau & Hspd & Hld & _).
  rewrite !Hcl2 in *. cbn [orb] in *.
  repeat split; auto.
  - rewrite count_state_pointer_moves, Hsrt, Hfau, Hspd. reflexivity.
  - intros x Hx. apply dispatch_stream_signals_once. exact Hx.
Qed.

(** C5: an indirect dispatch never moves an immediate into the
    workgroup-count registers JOB_SIZE_X/Y/Z, and when it runs to its end it
    loads the three of them from the address of the indirect buffer; a
    direct dispatch never loads them from memory, and when it runs to its
    end it moves the three counts as immediates.  Either way this comes
    before the run-compute instruction. *)
Theorem C5_workgroup_counts_loaded_or_moved info c :
  let l := emitted c (cmd_dispatch info c) in
  (indirect_buffer_dev_addr info <> 0 ->
   count (is_move_to is_job_size) (all_instrs l) = 0%nat /\
   (cmd_dispatch_exit info c = DISPATCHED ->
    (exists l1 l2,
       l = l1 ++
           [cs_move64_to (cs_scratch_reg64 0) (indirect_buffer_dev_addr info);
            cs_load_to (cs_sr_reg_tuple JOB_SIZE_X 3) (cs_scratch_reg64 0)
              (BITFIELD_MASK 3) 0] ++ l2 /\
       count is_run_compute (all_instrs l1) = 0%nat) /\
    count (is_load_to is_job_size) (all_instrs l) = 1%nat)) /\
  (indirect_buffer_dev_addr info = 0 ->
   count (is_load_to is_job_size) (all_instrs l) = 0%nat /\
   (cmd_dispatch_exit info c = DISPATCHED ->
    (exists l1 l2,
       l = l1 ++
           [cs_move32_to (cs_sr_reg32 JOB_SIZE_X) (dim_x (direct_wg_count info));
            cs_move32_to (cs_sr_reg32 JOB_SIZE_Y) (dim_y (direct_wg_count info));
            cs_move32_to (cs_sr_reg32 JOB_SIZE_Z) (dim_z (direct_wg_count info))]
           ++ l2 /\
       count is_run_compute (all_instrs l1) = 0%nat) /\
    count (is_move_to is_job_size) (all_instrs l) = 3%nat)).
Proof.
  intros l.
  assert (Hcases :
    (cmd_dispatch_exit info c <> DISPATCHED /\ l = []) \/
    (cmd_dispatch_exit info c = DISPATCHED /\
     exists tsd c2,
       l = dispatch_stream info (shader (compute c)) (kmod_props (device c))
             tsd (is_indirect info) (wg_per_task_of info c) c2)).
  { destruct (cmd_dispatch_exit info c) eqn:He;
      try (left; split; [discriminate|];
           destruct (cmd_dispatch_queues info c)
             as (_ & _ & _ & _ & _ & _ & Hab & _);
           rewrite He in Hab; destruct Hab as [Hcs _]; [discriminate|];
           subst l; unfold emitted; rewrite Hcs; apply skipn_length_self).
    right. split; [reflexivity|].
    destruct (cmd_dispatch_emitted info c He) as (tsd & c2 & _ & _ & _ & Hl).
    exists tsd, c2. exact Hl. }
  destruct Hcases as [(Hne & Hnil) | (He & tsd & c2 & Hl)].
  - rewrite Hnil. split; intros _; (split; [reflexivity | contradiction]).
  - rewrite Hl.
    destruct (dispatch_stream_counts info (shader (compute c))
                (kmod_props (device c)) tsd (is_indirect info)
                (wg_per_task_of info c) c2)
      as (_ & _ & _ & _ & _ & Hmv & Hld).
    unfold is_indirect in *.
    split; intros Ha.
    + apply Z.eqb_neq in Ha. rewrite Ha in *. cbn [negb] in *.
      split; [assumption|]. intros _.
      split; [apply dispatch_stream_indirect | assumption].
    + apply Z.eqb_eq in Ha. rewrite Ha in *. cbn [negb] in *.
      split; [assumption|]. intros _.
      split; [apply dispatch_stream_direct | assumption].
Qed.

(** C9: when a precompiled-kernel dispatch completes, the three compute
    aspects (shader, descriptor state, push uniforms) are dirty; the next
    dispatch on the command buffer that runs to its end therefore moves the
    shader program pointer, the resource-table pointer and the push-uniform
    pointer again, although nothing was bound in between. *)
Theorem C9_precomp_marks_every_aspect_dirty
  c grid barrier idx data data_size c1 info :
  dispatch_precomp c grid barrier idx data data_size = Some c1 ->
  cmd_dispatch_exit info c1 = DISPATCHED ->
  let l := emitted c1 (cmd_dispatch info c1) in
  all_dirty c1 /\
  count (is_move_to (sr_is SPD_0)) (all_instrs l) = 1%nat /\
  count (is_move_to (sr_is SRT_0)) (all_instrs l) = 1%nat /\
  count (is_move_to (sr_is FAU_0)) (all_instrs l) = 1%nat.
Proof.
  intros Hp He l.
  destruct (dispatch_precomp_spec _ _ _ _ _ _ _ Hp)
    as (s & _ & _ & _ & _ & Hdirty & _).
  destruct (cmd_dispatch_emitted info c1 He) as (tsd & c2 & _ & Hk & _ & Hl).
  subst l. rewrite Hl.
  destruct (dispatch_stream_counts info (shader (compute c1))
              (kmod_props (device c1)) tsd (is_indirect info)
              (wg_per_task_of info c1) c2)
    as (_ & Hsrt & Hfau & Hspd & _).
  rewrite (Hk CS (Hdirty CS)) in *.
  rewrite (Hk PUSH_UNIFORMS (Hdirty PUSH_UNIFORMS)) in *.
  cbn [orb] in *. repeat split; auto.
Qed.



(** C4: when the driver-owned descriptor table is rebuilt (the shader or
    the descriptor-state aspect is dirty and the allocation succeeds), the
    table holds exactly [dyn_bufs.count + 1] entries, written at consecutive
    slots of the block: the dummy sampler at index 0, then one buffer entry
    per dynamic buffer; the block requested and the size recorded are
    [(dyn_bufs.count + 1) * PANVK_DESCRIPTOR_SIZE], as long as that fits the
    32-bit size. *)
Theorem C4_driver_set_table_layout c :
  compute_state_dirty c CS || compute_state_dirty c DESC_STATE = true ->
  fst (run prepare_driver_set c) = VK_SUCCESS ->
  let s := shader (compute c) in
  let n := desc_info_dyn_bufs_count s in
  0 <= n -> 0 < PANVK_DESCRIPTOR_SIZE ->
  (n + 1) * PANVK_DESCRIPTOR_SIZE < 2 ^ 32 ->
  let c' := snd (run prepare_driver_set c) in
  let table := driver_set_table (desc_state (compute c)) s in
  Z.of_nat (length table) = n + 1 /\
  nth_error table 0 = Some (SAMPLER false) /\
  (forall i, (i < Z.to_nat n)%nat ->
     exists sz addr, nth_error table (S i) = Some (BUFFER sz addr)) /\
  exists blk,
    gpu blk <> 0 /\
    allocated c c' =
      [(alloc_dev_mem pool_desc ((n + 1) * PANVK_DESCRIPTOR_SIZE)
          PANVK_DESCRIPTOR_SIZE, blk)] /\
    host_stores c' = host_stores c ++ store_array (cpu blk) 0 table /\
    driver_set (cs_desc (compute c')) =
      {| dev_addr := gpu blk; size := (n + 1) * PANVK_DESCRIPTOR_SIZE |}.
Proof.
  intros Hdirty Hok s n Hn Hds Hsz c' table.
  assert (Hlen : length table = S (Z.to_nat n)).
  { unfold table, driver_set_table. cbn [length].
    now rewrite length_map, length_seq. }
  split; [rewrite Hlen; lia|].
  split; [reflexivity|].
  split.
  { intros i Hi. unfold table, driver_set_table. cbn [nth_error].
    rewrite nth_error_map, nth_error_seq.
    apply Nat.ltb_lt in Hi. unfold n in Hi. rewrite Hi. cbn. eauto. }
  assert (Hu : u32 (u32 (n + 1) * PANVK_DESCRIPTOR_SIZE) =
               (n + 1) * PANVK_DESCRIPTOR_SIZE).
  { assert (n + 1 < 2 ^ 32) by nia.
    rewrite (u32_small (n + 1)) by lia. apply u32_small. nia. }
  subst c'. revert Hok.
  unfold prepare_driver_set, run, panvk_cmd_alloc_dev_mem, panvk_cmd_alloc,
    cmd_fill_dyn_bufs, compute_state_set_dirty, allocated.
  exec_unfold.
  apply orb_true_iff in Hdirty.
  assert (Hd : negb (compute_state_dirty c CS) &&
               negb (compute_state_dirty c DESC_STATE) = false).
  { destruct Hdirty as [-> | ->]; cbn; auto using andb_false_r. }
  rewrite Hd. fold s. fold n. rewrite Hu.
  repeat exec_step.
  - discriminate.
  - intros _. exists p. apply Z.eqb_neq in B.
    split; [exact B|]. split; [apply skipn_length_app|]. split; [|reflexivity].
    rewrite <- app_assoc. f_equal. cbn [app].
    unfold table, driver_set_table. cbn [store_array]. f_equal.
    apply (store_array_map_seq (cpu p) 1
             (fun i => BUFFER
                (fst (ext_dyn_buf (desc_state (compute c)) s (Z.of_nat i)))
                (snd (ext_dyn_buf (desc_state (compute c)) s (Z.of_nat i))))
             (Z.to_nat n) 0%nat).
Qed.

(** C8: a dispatch whose shader declares a non-zero WLS size requests, right
    after its per-job descriptor, a WLS block of
    [wls_size * instances * core_id_range] bytes (4096-aligned), where
    [instances] is computed from the workgroup counts of the request when
    the dispatch is direct and without them when it is indirect, as long as
    the product fits [unsigned]. *)
Theorem C8_wls_block_size info c :
  let s := shader (compute c) in
  let props := kmod_props (device c) in
  let instances :=
    pan_calc_wls_instances (cs_local_size s) props
      (if is_indirect info then None else Some (direct_wg_count info)) in
  let core_id_range := snd (pan_query_core_count props) in
  panvk_priv_mem_dev_addr (spd s) <> 0 ->
  info_wls_size s <> 0 ->
  gpu (fst (ext_alloc (alloc_desc LOCAL_STORAGE) (pools c))) <> 0 ->
  0 <= info_wls_size s * instances * core_id_range < 2 ^ 32 ->
  exists blk,
    nth_error (allocated c (cmd_dispatch info c)) 1 =
    Some (alloc_dev_mem pool_tls
            (info_wls_size s * instances * core_id_range) 4096, blk).
Proof.
  intros s props instances core_id_range Hspd Hw Ha Hfit.
  destruct (prepare_tls_wls_allocation s (direct_wg_count info)
              (is_indirect info) c Hw Ha) as (tsd & wls & rest & Hlog).
  cbv zeta in Hlog. fold props instances core_id_range in Hlog.
  unfold pan_calc_total_wls_size in Hlog.
  rewrite (u32_small _ Hfit) in Hlog.
  exists wls.
  assert (Hnth : forall c', (exists more, alloc_log c' =
                   alloc_log (snd (run (cmd_dispatch_prepare_tls s
                      (direct_wg_count info) (is_indirect info)) c)) ++ more) ->
             nth_error (allocated c c') 1 =
             Some (alloc_dev_mem pool_tls
                     (info_wls_size s * instances * core_id_range) 4096, wls)).
  { intros c' (more & Hc'). unfold allocated.
    rewrite Hc', Hlog, <- app_assoc, skipn_length_app. reflexivity. }
  unfold cmd_dispatch. rewrite cmd_dispatch_run_staged.
  unfold cmd_dispatch_staged. fold s. fold (is_indirect info).
  apply Z.eqb_neq in Hspd. rewrite Hspd.
  destruct (fst (run (cmd_dispatch_prepare_tls s (direct_wg_count info)
                        (is_indirect info)) c) =? 0).
  - cbn [snd]. apply Hnth. exists []. now rewrite app_nil_r.
  - match goal with
    | |- context [cmd_dispatch_state ?i ?s0 ?c1] =>
        destruct (cmd_dispatch_state_spec i s0 c1)
          as (_ & _ & _ & _ & _ & _ & _ & _ & Hmore);
        cbv zeta in Hmore;
        destruct (cmd_dispatch_state i s0 c1) as [[e|u] c2]
    end; cbn [fst snd] in *; apply Hnth; exact Hmore.
Qed.

End Claims.

(** * Further lemmas

    ** The stages of [dispatch_precomp] and of [cmd_dispatch] *)

Section MoreStages.

Context {E : Collaborators}.
Local Open Scope cmd_scope.

Lemma dispatch_precomp_run_staged c grid barrier idx data data_size :
  dispatch_precomp_body grid barrier idx data data_size c =
  dispatch_precomp_staged c grid barrier idx data data_size.
Proof.
  unfold dispatch_precomp_staged, dispatch_precomp_body, c_assert.
  destruct barrier; [|reflexivity].
  unfold bind at 1. unfold ret at 1. unfold bind at 1. unfold get at 1.
  cbv beta iota zeta.
  destruct (precomp_cache (device c) idx) as [s|] eqn:Hs; [|reflexivity].
  unfold bind at 1.
  unfold panvk_cmd_alloc_dev_mem, panvk_cmd_alloc.
  destruct (ext_alloc _ (pools c)) as [pu p'] eqn:A.
  cbn [fst snd].
  unfold bind at 1.
  destruct (gpu pu =? 0); cbn [negb]; [reflexivity|].
  unfold ret at 1.
  unfold bind at 1. unfold host_write at 1. unfold modify at 1.
  unfold bind at 1. unfold call at 1. unfold run.
  match goal with
  | |- context [cmd_dispatch_prepare_tls ?s ?d ?i ?c0] =>
      pose proof (prepare_tls_spec s d i c0) as T; cbv zeta in T;
      unfold run in T;
      destruct (cmd_dispatch_prepare_tls s d i c0) as [[tsd|tsd] c1]
  end; cbn [fst snd] in *;
  unfold bind at 1;
  (destruct (tsd =? 0) eqn:Htsd; cbn [negb]; [reflexivity|]).
  all: unfold ret at 1.
  all: rewrite dispatch_precomp_tail.
  all: destruct T as (_ & _ & _ & Tdev & _).
  all: cbn [device set_host_stores set_alloc_log set_pools] in Tdev.
  all: reflexivity.
Qed.

(** A precompiled-kernel dispatch that passes its assertions, stage by
    stage. *)
Lemma dispatch_precomp_completed c grid barrier idx data n c' :
  dispatch_precomp c grid barrier idx data n = Some c' ->
  exists s,
    let req := alloc_dev_mem pool_desc
                 (u64 (BIFROST_PRECOMPILED_KERNEL_SYSVALS_SIZE + n)) 16 in
    let pu := fst (ext_alloc req (pools c)) in
    let c0 := set_alloc_log (alloc_log c ++ [(req, pu)])
                (set_pools (snd (ext_alloc req (pools c))) c) in
    let c1 := set_host_stores
                (host_stores c0 ++
                 [{| st_base := cpu pu; st_slot := 0;
                     st_obj := PRECOMP_PUSH_UNIFORMS data n
                       {| pk_num_workgroups :=
                            {| dim_x := count0 grid; dim_y := count1 grid;
                               dim_z := count2 grid |};
                          pk_printf_buffer_address :=
                            printf_bo_addr_dev (device c) |} |}]) c0 in
    let r := run (cmd_dispatch_prepare_tls s
                    {| dim_x := count0 grid; dim_y := count1 grid;
                       dim_z := count2 grid |} false) c1 in
    barrier = PANLIB_BARRIER_NONE /\
    precomp_cache (device c) idx = Some s /\
    gpu pu <> 0 /\ fst r <> 0 /\
    c' = dispatch_precomp_finish
           (precomp_stream grid s (kmod_props (device c)) pu n (fst r) (snd r))
           (snd r).
Proof.
  unfold dispatch_precomp. rewrite dispatch_precomp_run_staged.
  unfold dispatch_precomp_staged.
  destruct barrier; [|discriminate].
  destruct (precomp_cache (device c) idx) as [s|]; [|discriminate].
  cbv zeta.
  destruct (gpu _ =? 0) eqn:Hpu; [discriminate|].
  destruct (fst _ =? 0) eqn:Htsd; [discriminate|].
  apply Z.eqb_neq in Hpu, Htsd.
  intros H; injection H as <-.
  exists s. repeat split; auto.
Qed.

Lemma prepare_tls_effects s dim ind c :
  let r := run (cmd_dispatch_prepare_tls s dim ind) c in
  (fst r = 0 -> host_stores (snd r) = host_stores c) /\
  (fst r <> 0 ->
   exists tsd wls,
     fst r = gpu tsd /\
     host_stores (snd r) =
       host_stores c ++
       [{| st_base := cpu tsd; st_slot := 0;
           st_obj := LOCAL_STORAGE_DESC
                       (tls_descriptor s (kmod_props (device c)) dim ind wls) |}] /\
     (info_wls_size s <> 0 -> wls <> 0) /\
     map fst (allocated c (snd r)) =
       tls_requests s (kmod_props (device c)) dim ind c) /\
  (gpu (tls_desc (tls c)) <> 0 -> tls_desc (tls (snd r)) = tls_desc (tls c)) /\
  (fst r <> 0 -> gpu (tls_desc (tls (snd r))) <> 0).
Proof.
  unfold cmd_dispatch_prepare_tls, run, panvk_cmd_alloc_desc,
    panvk_cmd_alloc_dev_mem, panvk_cmd_alloc, tls_descriptor, tls_requests,
    allocated.
  exec_unfold. repeat exec_step.
  all: repeat match goal with
         | H : (_ =? 0) = true |- _ => apply Z.eqb_eq in H
         | H : (_ =? 0) = false |- _ => apply Z.eqb_neq in H
         end.
  all: rewrite <- ?app_assoc, ?skipn_length_app.
  all: repeat split; intros; try congruence; try reflexivity.
  all: try (eexists; exists 0; repeat split; try reflexivity; intros;
            congruence).
  all: do 2 eexists; repeat split; try reflexivity; intros; congruence.
Qed.

(** The aspects that are dirty once the state stage has fallen through:
    those marked, and the descriptor state whenever the driver set was
    rebuilt. *)
Lemma cmd_dispatch_state_dirty info s c :
  let r := cmd_dispatch_state info s c in
  forall u, fst r = inr u ->
  forall a,
    compute_state_dirty (snd r) a =
    marked info c a ||
    (is_desc_state a && (marked info c CS || marked info c DESC_STATE)).
Proof.
  unfold marked.
  unfold cmd_dispatch_state, cmd_prepare_push_descs,
    cmd_prepare_dispatch_sysvals, prepare_driver_set,
    cmd_prepare_push_uniforms, cmd_prepare_shader_res_table,
    cmd_fill_dyn_bufs, compute_state_set_dirty, panvk_cmd_alloc_dev_mem,
    panvk_cmd_alloc, compute_state_dirty.
  exec_unfold. repeat exec_step.
  all: try match goal with H : (_, _) = (_, _) |- _ => inversion H; subst end.
  all: intros u Hu; try discriminate; intros a.
  all: rewrite ?BITSET_TEST_SET, ?BITSET_TEST_lor in *.
  all: cbn [fst snd] in *.
  all: destruct a; cbn [is_desc_state dirty_bit Z.eqb] in *.
  all: repeat match goal with
         | |- context [BITSET_TEST ?d ?k] =>
             let b := fresh "b" in
             set (b := BITSET_TEST d k) in *; clearbody b
         end.
  all: repeat match goal with b : bool |- _ => destruct b end.
  all: cbn [orb andb negb] in *; try congruence; reflexivity.
Qed.

(** A dispatch that runs to its end, stage by stage. *)
Lemma cmd_dispatch_dispatched info c :
  cmd_dispatch_exit info c = DISPATCHED ->
  let s := shader (compute c) in
  let r := run (cmd_dispatch_prepare_tls s (direct_wg_count info)
                  (is_indirect info)) c in
  let r2 := cmd_dispatch_state info s (snd r) in
  panvk_priv_mem_dev_addr (spd s) <> 0 /\ fst r <> 0 /\ fst r2 = inr tt /\
  cmd_dispatch info c =
    cmd_dispatch_finish info s (kmod_props (device c)) (fst r)
      (is_indirect info) (wg_per_task_of info c) (snd r2).
Proof.
  unfold cmd_dispatch_exit, cmd_dispatch. rewrite cmd_dispatch_run_staged.
  unfold cmd_dispatch_staged. fold (is_indirect info).
  fold (wg_per_task_of info c).
  destruct (panvk_priv_mem_dev_addr (spd (shader (compute c))) =? 0) eqn:Hspd;
    [discriminate|].
  apply Z.eqb_neq in Hspd.
  destruct (fst (run (cmd_dispatch_prepare_tls (shader (compute c))
                        (direct_wg_count info) (is_indirect info)) c) =? 0)
    eqn:Htsd; [discriminate|].
  apply Z.eqb_neq in Htsd.
  pose proof (cmd_dispatch_state_spec info (shader (compute c))
     (snd (run (cmd_dispatch_prepare_tls (shader (compute c))
                  (direct_wg_count info) (is_indirect info)) c))) as S.
  cbv zeta in S.
  destruct (cmd_dispatch_state info (shader (compute c)) _) as [[e|[]] c2];
    cbn [fst snd] in *.
  - destruct S as (_ & _ & _ & _ & _ & _ & _ & He & _).
    intros ->. exfalso. exact (He _ eq_refl eq_refl).
  - intros _. repeat split; auto.
Qed.

(** The stream a dispatch that runs to its end has appended, and the
    aspects that were dirty when it was emitted. *)
Lemma cmd_dispatch_stream info c :
  cmd_dispatch_exit info c = DISPATCHED ->
  exists tsd c2,
    tsd <> 0 /\
    tsd = fst (run (cmd_dispatch_prepare_tls (shader (compute c))
                      (direct_wg_count info) (is_indirect info)) c) /\
    (forall a,
       compute_state_dirty c2 a =
       marked info c a ||
       (is_desc_state a && (marked info c CS || marked info c DESC_STATE))) /\
    push_uniforms (compute c2) = push_uniforms (compute (cmd_dispatch info c)) /\
    cs_desc (compute c2) = cs_desc (compute (cmd_dispatch info c)) /\
    emitted c (cmd_dispatch info c) =
      dispatch_stream info (shader (compute c)) (kmod_props (device c)) tsd
        (is_indirect info) (wg_per_task_of info c) c2.
Proof.
  intros He.
  destruct (cmd_dispatch_dispatched info c He) as (Hspd & Htsd & Hr2 & Hf).
  pose proof (prepare_tls_spec (shader (compute c)) (direct_wg_count info)
                (is_indirect info) c) as T. cbv zeta in T.
  destruct T as (Tcs & Tcomp & _).
  set (r := run (cmd_dispatch_prepare_tls (shader (compute c))
                   (direct_wg_count info) (is_indirect info)) c) in *.
  pose proof (cmd_dispatch_state_spec info (shader (compute c)) (snd r)) as S.
  cbv zeta in S. destruct S as (Scs & _).
  pose proof (cmd_dispatch_state_dirty info (shader (compute c)) (snd r) tt Hr2)
    as D.
  exists (fst r), (snd (cmd_dispatch_state info (shader (compute c)) (snd r))).
  split; [exact Htsd|]. split; [reflexivity|]. split; [|split; [|split]].
  - intros a. rewrite D. unfold marked, compute_state_dirty.
    rewrite Tcomp. reflexivity.
  - rewrite Hf. reflexivity.
  - rewrite Hf. reflexivity.
  - rewrite Hf. unfold emitted.
    destruct (cmd_dispatch_finish_spec info (shader (compute c))
                (kmod_props (device c)) (fst r) (is_indirect info)
                (wg_per_task_of info c)
                (snd (cmd_dispatch_state info (shader (compute c)) (snd r))))
      as (Fb & _).
    rewrite Fb, Scs, Tcs. apply skipn_length_app.
Qed.

(** The first block a dispatch that runs to its end has asked for is its
    per-job local-storage descriptor. *)
Lemma cmd_dispatch_tsd_block info c :
  cmd_dispatch_exit info c = DISPATCHED ->
  exists blk rest,
    allocated c (cmd_dispatch info c) =
      (alloc_desc LOCAL_STORAGE, blk) :: rest /\
    gpu blk = fst (run (cmd_dispatch_prepare_tls (shader (compute c))
                          (direct_wg_count info) (is_indirect info)) c).
Proof.
  intros He.
  destruct (cmd_dispatch_dispatched info c He) as (Hspd & Htsd & Hr2 & Hf).
  destruct (prepare_tls_allocations (shader (compute c)) (direct_wg_count info)
              (is_indirect info) c) as (new & Hlog & _ & Hblk).
  destruct (Hblk Htsd) as (blk & rest & -> & Hgpu).
  destruct (cmd_dispatch_state_allocations info (shader (compute c))
              (snd (run (cmd_dispatch_prepare_tls (shader (compute c))
                           (direct_wg_count info) (is_indirect info)) c)))
    as (more & Hmore & _).
  exists blk, (rest ++ more). split; [|symmetry; exact Hgpu].
  rewrite Hf. unfold allocated.
  change (alloc_log (cmd_dispatch_finish ?i ?s ?p ?t ?n ?w ?x))
    with (alloc_log x).
  rewrite Hmore, Hlog, <- app_assoc, skipn_length_app. reflexivity.
Qed.

End MoreStages.

(** ** Streams and runs *)

Section MoreStreams.

Context {E : Collaborators}.
Local Open Scope cmd_scope.

Lemma dispatch_stream_moves info s props tsd ind w c r v :
  In (cs_move64_to (cs_sr_reg64 r) v)
     (dispatch_stream info s props tsd ind w c) ->
  match r with
  | SRT_0 => v = res_table (cs_desc (compute c))
  | FAU_0 => v = Z.lor (push_uniforms (compute c))
                   (u64 (Z.shiftl (fau_total_count s) 56))
  | SPD_0 => v = panvk_priv_mem_dev_addr (spd s)
  | TSD_0 => v = tsd
  | _ => False
  end.
Proof.
  unfold dispatch_stream. intros H.
  repeat (apply in_app_or in H; destruct H as [H|H]).
  all: unfold tls_copy_stream, state_pointer_stream, fixed_ctx_stream,
         job_size_stream, sysval_store_stream, run_compute_instr,
         sync_epilogue in H.
  all: repeat match type of H with
         | context [if ?b then _ else _] => destruct b
         end.
  all: cbn [app In] in H.
  all: repeat (destruct H as [H|H];
               [try discriminate; try (injection H as <- <-; reflexivity)|]).
  all: contradiction.
Qed.

Lemma dispatch_stream_tsd_move info s props tsd ind w c :
  In (cs_move64_to (cs_sr_reg64 TSD_0) tsd)
     (dispatch_stream info s props tsd ind w c) /\
  count (is_move_to (sr_is TSD_0))
    (all_instrs (dispatch_stream info s props tsd ind w c)) = 1%nat.
Proof.
  split.
  - unfold dispatch_stream, fixed_ctx_stream.
    apply in_or_app. right. apply in_or_app. right. left. reflexivity.
  - unfold dispatch_stream. stream_cases.
Qed.

Lemma fau_pointer_decode (p n : Z) :
  0 <= p < 2 ^ 56 -> 0 <= n ->
  let v := Z.lor p (u64 (Z.shiftl n 56)) in
  Z.land v (Z.ones 56) = p /\ Z.shiftr v 56 = n mod 2 ^ 8.
Proof.
  intros Hp Hn v. subst v. unfold u64.
  rewrite Z.shiftl_mul_pow2 by lia.
  assert (Hq : (n * 2 ^ 56) mod 2 ^ 64 = (n mod 2 ^ 8) * 2 ^ 56).
  { change (2 ^ 64) with (2 ^ 8 * 2 ^ 56).
    rewrite Z.mul_mod_distr_r by lia. reflexivity. }
  rewrite Hq. split.
  - rewrite Z.land_lor_distr_l, !Z.land_ones by lia.
    rewrite Z.mod_mul by lia. rewrite Z.lor_0_r. apply Z.mod_small. exact Hp.
  - rewrite Z.shiftr_lor, !Z.shiftr_div_pow2 by lia.
    rewrite Z.div_small by exact Hp. rewrite Z.div_mul by lia.
    apply Z.lor_0_l.
Qed.



Lemma precomp_stream_counts grid s props pu n tsd c :
  let l := precomp_stream grid s props pu n tsd c in
  count is_run_compute (all_instrs l) = 1%nat /\
  count (is_move_to (sr_is SRT_0)) (all_instrs l) = 1%nat /\
  count (is_move_to (sr_is FAU_0)) (all_instrs l) = 1%nat /\
  count (is_move_to (sr_is SPD_0)) (all_instrs l) = 1%nat /\
  count (is_load_to is_state_pointer) (all_instrs l) = 0%nat /\
  count (is_move_to is_job_size) (all_instrs l) = 3%nat /\
  count (is_load_to is_job_size) (all_instrs l) = 0%nat.
Proof.
  cbv zeta. unfold precomp_stream. repeat split; stream_cases.
Qed.


(** What [cmd_dispatch] does to the TLS state is what its call of
    [cmd_dispatch_prepare_tls] did, if it got that far. *)
Lemma cmd_dispatch_tls info c :
  tls (cmd_dispatch info c) = tls c \/
  tls (cmd_dispatch info c) =
    tls (snd (run (cmd_dispatch_prepare_tls (shader (compute c))
                     (direct_wg_count info) (is_indirect info)) c)).
Proof.
  unfold cmd_dispatch. rewrite cmd_dispatch_run_staged.
  unfold cmd_dispatch_staged. fold (is_indirect info).
  destruct (panvk_priv_mem_dev_addr (spd (shader (compute c))) =? 0);
    [left; reflexivity|].
  right.
  destruct (fst (run (cmd_dispatch_prepare_tls (shader (compute c))
                        (direct_wg_count info) (is_indirect info)) c) =? 0);
    [reflexivity|].
  match goal with
  | |- context [cmd_dispatch_state ?i ?s0 ?c1] =>
      destruct (cmd_dispatch_state_spec i s0 c1) as (_ & Stls & _);
      destruct (cmd_dispatch_state i s0 c1) as [[e|u] c2]
  end; cbn [fst snd] in *; exact Stls.
Qed.

Lemma cmd_dispatch_logs info c :
  (exists more, alloc_log (cmd_dispatch info c) = alloc_log c ++ more).
Proof.
  unfold cmd_dispatch. rewrite cmd_dispatch_run_staged.
  unfold cmd_dispatch_staged. fold (is_indirect info).
  destruct (panvk_priv_mem_dev_addr (spd (shader (compute c))) =? 0).
  { exists []. cbn [snd]. now rewrite app_nil_r. }
  destruct (prepare_tls_allocations (shader (compute c))
              (direct_wg_count info) (is_indirect info) c) as (new & Hlog & _).
  destruct (fst (run (cmd_dispatch_prepare_tls (shader (compute c))
                        (direct_wg_count info) (is_indirect info)) c) =? 0).
  { exists new. exact Hlog. }
  match goal with
  | |- context [cmd_dispatch_state ?i ?s0 ?c1] =>
      destruct (cmd_dispatch_state_allocations i s0 c1) as (more & Hmore & _);
      destruct (cmd_dispatch_state i s0 c1) as [[e|u] c2]
  end; cbn [fst snd] in *; exists (new ++ more);
  rewrite app_assoc, <- Hlog; exact Hmore.
Qed.

(** The part of the compute stream a dispatch appends. *)
Lemma cmd_dispatch_appends info c :
  exists l,
    builder (at_compute (cs (cmd_dispatch info c))) =
      builder (at_compute (cs c)) ++ l /\
    count is_run_compute (all_instrs l) =
      match cmd_dispatch_exit info c with DISPATCHED => 1%nat | _ => 0%nat end.
Proof.
  destruct (cmd_dispatch_exit info c) eqn:He.
  7: { destruct (cmd_dispatch_dispatched info c He) as (_ & _ & _ & Hf).
       destruct (cmd_dispatch_stream info c He)
         as (tsd & c2 & _ & _ & _ & _ & _ & Hl).
       destruct (cmd_dispatch_cases info c)
         as [(Hne & _)
            |(_ & _ & tsd' & c2' & _ & Hcs & _ & _ & _ & _ & _ & _ & Hf')].
       { exfalso. apply Hne. exact He. }
       unfold cmd_dispatch in *. rewrite Hf' in *.
       destruct (cmd_dispatch_finish_spec info (shader (compute c))
                   (kmod_props (device c)) tsd' (is_indirect info)
                   (wg_per_task_of info c) c2') as (Fb & _).
       eexists. split; [rewrite Fb, Hcs; reflexivity|].
       apply dispatch_stream_counts. }
  all: destruct (cmd_dispatch_queues info c)
         as (_ & _ & _ & _ & _ & _ & Hab & _);
       rewrite He in Hab; destruct Hab as [Hcs _]; [discriminate|];
       exists []; rewrite Hcs, app_nil_r; split; reflexivity.
Qed.

Lemma cmd_dispatch_frame info c :
  step_frame (match cmd_dispatch_exit info c with
              | DISPATCHED => true | _ => false end)
             c (cmd_dispatch info c).
Proof.
  destruct (cmd_dispatch_queues info c) as (Hv & Hf & Hu & _).
  destruct (cmd_dispatch_appends info c) as (l & Hl & Hn).
  pose proof (prepare_tls_effects (shader (compute c)) (direct_wg_count info)
                (is_indirect info) c) as T1.
  cbv zeta in T1. destruct T1 as (_ & _ & Hkeep & Hset).
  unfold step_frame. rewrite Hv, Hf, Hu.
  repeat split; auto.
  - exists l. split; [exact Hl|]. rewrite Hn.
    destruct (cmd_dispatch_exit info c); reflexivity.
  - intros Hg. destruct (cmd_dispatch_tls info c) as [-> | ->]; auto.
  - intros Hok.
    destruct (cmd_dispatch_exit info c) eqn:He; try discriminate.
    destruct (cmd_dispatch_dispatched info c He) as (_ & Htsd & _ & Hfin).
    destruct (cmd_dispatch_tls info c) as [Ht | Ht]; rewrite Ht.
    + rewrite Hfin in Ht.
      change (tls (cmd_dispatch_finish ?i ?s ?p ?t ?n ?w ?x)) with (tls x) in Ht.
      destruct (cmd_dispatch_state_spec info (shader (compute c))
                  (snd (run (cmd_dispatch_prepare_tls (shader (compute c))
                               (direct_wg_count info) (is_indirect info)) c)))
        as (_ & Stls & _).
      rewrite <- Ht, Stls. apply Hset. exact Htsd.
    + apply Hset. exact Htsd.
Qed.

Lemma dispatch_precomp_frame c grid barrier idx data n c' :
  dispatch_precomp c grid barrier idx data n = Some c' ->
  step_frame true c c'.
Proof.
  intros H.
  destruct (dispatch_precomp_spec _ _ _ _ _ _ _ H)
    as (s0 & _ & _ & Hv & Hf & _ & _ & _ & Hu & _).
  destruct (dispatch_precomp_completed _ _ _ _ _ _ _ H)
    as (s & _ & _ & _ & Htsd & Hc').
  cbv zeta in Htsd, Hc'.
  match type of Hc' with
  | context [run (cmd_dispatch_prepare_tls ?s0 ?d ?i) ?c1] =>
      pose proof (prepare_tls_effects s0 d i c1) as T1; cbv zeta in T1;
      destruct T1 as (_ & _ & Hkeep & Hset);
      pose proof (prepare_tls_spec s0 d i c1) as T2; cbv zeta in T2;
      destruct T2 as (Tcs & _);
      set (r := run (cmd_dispatch_prepare_tls s0 d i) c1) in *
  end.
  unfold step_frame. rewrite Hu, Hv, Hf.
  repeat split; auto.
  - eexists. split.
    + rewrite Hc'. unfold dispatch_precomp_finish.
      cbn [cs set_compute set_cs append_builder sq_get sq_set at_compute
           builder].
      rewrite Tcs. reflexivity.
    + apply precomp_stream_counts.
  - rewrite Hc'. exact Hkeep.
  - intros _. rewrite Hc'. apply Hset. exact Htsd.
Qed.

Lemma exec_frame cmd c c' :
  exec cmd c = Some c' -> step_frame (successful cmd c) c c'.
Proof.
  destruct cmd as [f|bx by_ bz gx gy gz|buffer offset|grid barrier idx data n];
    cbn [exec successful].
  - intros H; injection H as <-. unfold step_frame.
    cbn [cs utrace_uts tls set_compute]. repeat split; auto; try discriminate.
    exists []. now rewrite app_nil_r.
  - intros H; injection H as <-.
    unfold CmdDispatchBase, CmdDispatchBase_exit. cbv zeta. cbn [fst snd].
    match goal with
    | |- context [cmd_dispatch ?i ?c1] =>
        pose proof (cmd_dispatch_frame i c1) as F
    end.
    unfold step_frame in *.
    cbn [cs utrace_uts tls set_utrace sq_set sq_get at_vertex_tiler
         at_fragment] in *.
    exact F.
  - intros H; injection H as <-.
    unfold CmdDispatchIndirect, CmdDispatchIndirect_exit. cbv zeta.
    cbn [fst snd].
    match goal with
    | |- context [cmd_dispatch ?i ?c1] =>
        pose proof (cmd_dispatch_frame i c1) as F
    end.
    unfold step_frame in *.
    cbn [cs utrace_uts tls set_utrace sq_set sq_get at_vertex_tiler
         at_fragment] in *.
    exact F.
  - intros H. rewrite H. eapply dispatch_precomp_frame. exact H.
Qed.

Lemma emitted_app c c' l :
  builder (at_compute (cs c')) = builder (at_compute (cs c)) ++ l ->
  emitted c c' = l.
Proof. intros H. unfold emitted. rewrite H. apply skipn_length_app. Qed.

(** The stages of a precompiled-kernel dispatch that passes its
    assertions. *)
Lemma dispatch_precomp_stream c grid barrier idx data n c' :
  dispatch_precomp c grid barrier idx data n = Some c' ->
  exists s pu tsd c1,
    precomp_cache (device c) idx = Some s /\
    gpu pu <> 0 /\
    nth_error (allocated c c') 0 =
      Some (alloc_dev_mem pool_desc
              (u64 (BIFROST_PRECOMPILED_KERNEL_SYSVALS_SIZE + n)) 16, pu) /\
    nth_error (skipn (length (host_stores c)) (host_stores c')) 0 =
      Some {| st_base := cpu pu; st_slot := 0;
              st_obj := PRECOMP_PUSH_UNIFORMS data n
                {| pk_num_workgroups :=
                     {| dim_x := count0 grid; dim_y := count1 grid;
                        dim_z := count2 grid |};
                   pk_printf_buffer_address := printf_bo_addr_dev (device c) |}
           |} /\
    emitted c c' = precomp_stream grid s (kmod_props (device c)) pu n tsd c1.
Proof.
  intros H.
  destruct (dispatch_precomp_completed _ _ _ _ _ _ _ H)
    as (s & _ & Hs & Hpu & Htsd & Hc').
  cbv zeta in Hpu, Htsd, Hc'.
  match type of Hc' with
  | context [run (cmd_dispatch_prepare_tls ?s0 ?d ?i) ?c1] =>
      pose proof (prepare_tls_spec s0 d i c1) as T2; cbv zeta in T2;
      destruct T2 as (Tcs & _);
      pose proof (prepare_tls_allocations s0 d i c1) as T3; cbv zeta in T3;
      destruct T3 as (new & Hlog & _);
      pose proof (prepare_tls_effects s0 d i c1) as T4; cbv zeta in T4;
      destruct T4 as (_ & Hst & _);
      set (r := run (cmd_dispatch_prepare_tls s0 d i) c1) in *
  end.
  destruct (Hst Htsd) as (tsd & wls & _ & Hhost & _).
  eexists s, _, (fst r), (snd r).
  split; [exact Hs|]. split; [exact Hpu|].
  cbn [cs alloc_log host_stores set_host_stores set_alloc_log set_pools]
    in Tcs, Hlog, Hhost.
  rewrite Hc'.
  split; [|split].
  - unfold allocated, dispatch_precomp_finish.
    cbn [alloc_log set_compute set_cs append_builder].
    rewrite Hlog, <- app_assoc, skipn_length_app. reflexivity.
  - unfold dispatch_precomp_finish.
    cbn [host_stores set_compute set_cs append_builder].
    rewrite Hhost, <- app_assoc, skipn_length_app. reflexivity.
  - apply emitted_app. unfold dispatch_precomp_finish.
    cbn [cs set_compute set_cs append_builder sq_get sq_set at_compute builder].
    rewrite Tcs. reflexivity.
Qed.

End MoreStreams.

(** ** Resource names *)

Lemma strrchr_none s ch :
  strrchr s ch = None <-> forall i, String.get i s <> Some ch.
Proof.
  induction s as [|a t IH]; cbn [strrchr].
  - split; [intros _ i; destruct i; discriminate | reflexivity].
  - destruct (strrchr t ch) as [j|] eqn:Ht.
    + split; [discriminate|]. intros H. exfalso.
      destruct IH as [_ IH].
      assert (Hn : Some j = None).
      { apply IH. intros i Hi. apply (H (S i)). exact Hi. }
      discriminate.
    + destruct (Ascii.eqb_spec a ch) as [->|Hne].
      * split; [discriminate|]. intros H. exfalso. apply (H 0%nat). reflexivity.
      * split; [|reflexivity]. intros _ [|i]; cbn [String.get].
        -- congruence.
        -- apply IH. reflexivity.
Qed.

Lemma strrchr_some s ch i :
  strrchr s ch = Some i ->
  String.get i s = Some ch /\
  (i < String.length s)%nat /\
  (forall j, (i < j)%nat -> String.get j s <> Some ch).
Proof.
  revert i. induction s as [|a t IH]; intros i; cbn [strrchr]; [discriminate|].
  destruct (strrchr t ch) as [k|] eqn:Ht.
  - intros H; injection H as <-. destruct (IH k eq_refl) as (Hg & Hl & Hlast).
    cbn [String.get String.length]. repeat split; [exact Hg | lia |].
    intros [|j] Hj; [lia|]. cbn [String.get]. apply Hlast. lia.
  - destruct (Ascii.eqb_spec a ch) as [->|Hne]; [|discriminate].
    intros H; injection H as <-. cbn [String.get String.length].
    repeat split; [lia|].
    intros [|j] Hj; [lia|]. cbn [String.get].
    apply (proj1 (strrchr_none t ch) Ht).
Qed.

Lemma string_at_length s i :
  (i <= String.length s)%nat ->
  String.length (string_at s i) = (String.length s - i)%nat.
Proof.
  revert i. induction s as [|a t IH]; intros [|i] H; cbn in *; try lia.
  apply IH. lia.
Qed.

Lemma string_at_split s i :
  (i <= String.length s)%nat ->
  exists p, s = String.append p (string_at s i) /\ String.length p = i.
Proof.
  revert i. induction s as [|a t IH]; intros [|i] H; cbn in *.
  - exists String.EmptyString. split; reflexivity.
  - lia.
  - exists String.EmptyString. split; reflexivity.
  - destruct (IH i) as (p & Hp & Hl); [lia|].
    exists (String.String a p). cbn. split; [f_equal; exact Hp | lia].
Qed.

Lemma strrchr_append_bracket p :
  strrchr (String.append p "[0]"%string) "["%char = Some (String.length p).
Proof.
  induction p as [|a t IH]; [reflexivity|].
  cbn [String.append strrchr String.length]. rewrite IH. reflexivity.
Qed.

Lemma string_at_append p q : string_at (String.append p q) (String.length p) = q.
Proof. induction p as [|a t IH]; [destruct q; reflexivity | exact IH]. Qed.

Lemma length_append p q :
  String.length (String.append p q) = (String.length p + String.length q)%nat.
Proof. induction p as [|a t IH]; cbn; [reflexivity | now rewrite IH]. Qed.

(** ** Image planes and flags *)

Lemma total_size_loop_spec image n : forall plane size,
  let r := total_size_loop image n plane size in
  size <= r /\
  (forall p, plane <= p < plane + Z.of_nat n -> plane_end image p <= r) /\
  (r = size \/
   exists p, plane <= p < plane + Z.of_nat n /\ r = plane_end image p).
Proof.
  induction n as [|n IH]; intros plane size; cbn [total_size_loop].
  - cbv zeta. split; [lia|]. split; [intros p Hp; lia | left; reflexivity].
  - cbv zeta. fold (plane_end image plane).
    specialize (IH (plane + 1) (MAX2 size (plane_end image plane))).
    cbv zeta in IH. destruct IH as (Hle & Hall & Hex).
    pose proof (MAX2_max size (plane_end image plane)) as Hm.
    split; [lia|]. split.
    + intros p Hp. destruct (Z.eq_dec p plane) as [->|Hne]; [lia|].
      apply Hall. lia.
    + destruct Hex as [Heq | (p & Hp & Heq)].
      * rewrite Heq.
        destruct (Z.max_spec size (plane_end image plane)) as [[_ Hx]|[_ Hx]].
        -- right. exists plane. split; [lia|]. rewrite Hm, Hx. reflexivity.
        -- left. rewrite Hm, Hx. reflexivity.
      * right. exists p. split; [lia | exact Heq].
Qed.

Lemma flags_subset_refl a : flags_subset a a.
Proof. apply Z.land_diag. Qed.

Lemma flags_subset_trans a b c :
  flags_subset a b -> flags_subset b c -> flags_subset a c.
Proof.
  unfold flags_subset. intros H1 H2.
  rewrite <- H1 at 1. rewrite <- Z.land_assoc, H2. exact H1.
Qed.

Lemma flags_subset_lor_l a b : flags_subset a (Z.lor a b).
Proof.
  unfold flags_subset. apply Z.bits_inj'. intros n _.
  rewrite Z.land_spec, Z.lor_spec. destruct (Z.testbit a n); reflexivity.
Qed.

Lemma flags_subset_lor_r a b : flags_subset b (Z.lor a b).
Proof. rewrite Z.lor_comm. apply flags_subset_lor_l. Qed.

Lemma flags_subset_lor a b c :
  flags_subset a c -> flags_subset b c -> flags_subset (Z.lor a b) c.
Proof.
  unfold flags_subset. intros H1 H2.
  rewrite Z.land_comm, Z.land_lor_distr_r, (Z.land_comm c a), (Z.land_comm c b).
  now rewrite H1, H2.
Qed.

Section MetaFacts.
Context {F : ImageFlags}.

Lemma widened_refl i : widened i i.
Proof. repeat split; apply flags_subset_refl. Qed.

Lemma widened_trans i j k : widened i j -> widened j k -> widened i k.
Proof.
  intros (H1 & H2 & H3 & H4 & H5) (G1 & G2 & G3 & G4 & G5).
  repeat split; try congruence; eapply flags_subset_trans; eassumption.
Qed.

Lemma widened_cond cond f i :
  (forall j, widened j (f j)) -> widened i (cond_update cond f i).
Proof.
  intros H. unfold cond_update. destruct (cond i); [apply H|apply widened_refl].
Qed.

Lemma widened_or_usage b i : widened i (or_usage b i).
Proof.
  repeat split; try apply flags_subset_refl. apply flags_subset_lor_l.
Qed.

Lemma widened_or_stencil_usage b i : widened i (or_stencil_usage b i).
Proof.
  repeat split; try apply flags_subset_refl. apply flags_subset_lor_l.
Qed.

Lemma widened_or_create_flags b i : widened i (or_create_flags b i).
Proof.
  repeat split; try apply flags_subset_refl. apply flags_subset_lor_l.
Qed.

Lemma flag_test_widened a b bits :
  flags_subset a b -> flag_test a bits = true -> flag_test b bits = true.
Proof.
  unfold flags_subset, flag_test. intros H Ht.
  apply negb_true_iff, Z.eqb_neq in Ht. apply negb_true_iff, Z.eqb_neq.
  intros H0. apply Ht. rewrite <- H, <- Z.land_assoc, H0. apply Z.land_0_r.
Qed.

End MetaFacts.

(** ** Buffers *)

Section BufferFacts.
Context {B : BufferEnv}.

(** One element of the loop: what it appends, returns and writes. *)
Lemma bind_buffer_memory_spec i info r0 st r st' :
  bind_buffer_memory i info (r0, st) = Some (r, st') ->
  exists mem,
    bind_memory info = Some mem /\
    vk_device_address (buffers st (bind_buffer info)) = 0 /\
    (forall h, h <> bind_buffer info -> buffers st' h = buffers st h) /\
    vk_device_address (buffers st' (bind_buffer info)) =
      u64 (addr_dev mem + bind_memoryOffset info) /\
    vk_buffer_usage (buffers st' (bind_buffer info)) =
      vk_buffer_usage (buffers st (bind_buffer info)) /\
    vk_buffer_size (buffers st' (bind_buffer info)) =
      vk_buffer_size (buffers st (bind_buffer info)) /\
    ((mmap_calls st' = mmap_calls st /\ r = r0 /\
      status_stores st' = store_status info i VK_SUCCESS (status_stores st) /\
      host_ptr (buffers st' (bind_buffer info)) =
        host_ptr (buffers st (bind_buffer info)) /\
      (gpu_arch <? 9) &&
      flag_test (vk_buffer_usage (buffers st (bind_buffer info)))
        VK_BUFFER_USAGE_INDEX_BUFFER_BIT = false) \/
     (mmap_calls st' = mmap_calls st ++ [(i, None)] /\
      r = VK_ERROR_OUT_OF_HOST_MEMORY /\
      status_stores st' =
        store_status info i VK_ERROR_OUT_OF_HOST_MEMORY
          (store_status info i VK_SUCCESS (status_stores st)) /\
      host_ptr (buffers st' (bind_buffer info)) =
        host_ptr (buffers st (bind_buffer info)) /\
      gpu_arch < 9) \/
     (exists addr,
        mmap_calls st' = mmap_calls st ++ [(i, Some addr)] /\ r = r0 /\
        status_stores st' = store_status info i VK_SUCCESS (status_stores st) /\
        host_ptr (buffers st' (bind_buffer info)) =
          u64 (addr + Z.land (bind_memoryOffset info) (u64 getpagesize)) /\
        gpu_arch < 9)).
Proof.
  unfold bind_buffer_memory.
  destruct (bind_memory info) as [mem|]; [|discriminate].
  destruct (vk_device_address (buffers st (bind_buffer info)) =? 0) eqn:H0;
    cbn [negb]; [|discriminate].
  apply Z.eqb_eq in H0.
  destruct ((gpu_arch <? 9) && flag_test _ _) eqn:Hmap.
  - apply andb_true_iff in Hmap. destruct Hmap as [Harch _].
    apply Z.ltb_lt in Harch.
    destruct (pan_kmod_bo_mmap _ _ _) as [addr|] eqn:Hm;
      intros H; injection H as <- <-; exists mem;
      cbn [buffers status_stores mmap_calls]; unfold update_buffer;
      rewrite Z.eqb_refl;
      cbn [vk_device_address vk_buffer_usage vk_buffer_size host_ptr].
    + repeat split; auto.
      * intros h Hh. apply Z.eqb_neq in Hh. rewrite Hh. reflexivity.
      * right. right. exists addr. repeat split; auto.
    + repeat split; auto.
      * intros h Hh. apply Z.eqb_neq in Hh. rewrite Hh. reflexivity.
      * right. left. repeat split; auto.
  - intros H; injection H as <- <-; exists mem.
    cbn [buffers status_stores mmap_calls]; unfold update_buffer.
    rewrite Z.eqb_refl.
    cbn [vk_device_address vk_buffer_usage vk_buffer_size host_ptr].
    repeat split; auto.
    + intros h Hh. apply Z.eqb_neq in Hh. rewrite Hh. reflexivity.
    + left. repeat split; auto.
Qed.

(** The result of the loop: the result it started with unless a mapping
    failed. *)
Lemma bind_buffer_loop_result infos : forall i r0 st r st',
  bind_buffer_loop i infos (r0, st) = Some (r, st') ->
  exists calls,
    mmap_calls st' = mmap_calls st ++ calls /\
    r = (if forallb map_succeeded calls then r0
         else VK_ERROR_OUT_OF_HOST_MEMORY) /\
    (9 <= gpu_arch -> calls = [] /\
       forall h, host_ptr (buffers st' h) = host_ptr (buffers st h)).
Proof.
  induction infos as [|info rest IH]; intros i r0 st r st'; cbn [bind_buffer_loop].
  - intros H; injection H as <- <-. exists []. rewrite app_nil_r.
    repeat split; auto.
  - destruct (bind_buffer_memory i info (r0, st)) as [[r1 st1]|] eqn:H1;
      [|discriminate].
    intros H. destruct (IH _ _ _ _ _ H) as (calls & Hc & Hr & Harch).
    destruct (bind_buffer_memory_spec _ _ _ _ _ _ H1)
      as (mem & _ & _ & Hother & _ & _ & _ & Hcase).
    assert (Hptr : forall h, 9 <= gpu_arch ->
                     host_ptr (buffers st1 h) = host_ptr (buffers st h)).
    { intros h Ha. destruct (Z.eq_dec h (bind_buffer info)) as [->|Hne].
      - destruct Hcase as [(_ & _ & _ & Hp & _)
                          |[(_ & _ & _ & _ & Hlt)|(a & _ & _ & _ & _ & Hlt)]];
          [exact Hp | lia | lia].
      - rewrite (Hother h Hne). reflexivity. }
    destruct Hcase as [(Hm & -> & _)
                      |[(Hm & -> & _ & _ & Hlt)|(a & Hm & -> & _ & _ & Hlt)]].
    + exists calls. rewrite Hc, Hm. repeat split; auto.
      * apply Harch; assumption.
      * intros h. destruct (Harch H0) as [_ Hh]. rewrite Hh. apply Hptr.
        assumption.
    + exists ((i, None) :: calls). rewrite Hc, Hm, <- app_assoc.
      split; [reflexivity|]. split.
      * cbn [forallb map_succeeded snd andb]. rewrite Hr.
        destruct (forallb map_succeeded calls); reflexivity.
      * intros Ha. lia.
    + exists ((i, Some a) :: calls). rewrite Hc, Hm, <- app_assoc.
      split; [reflexivity|]. split.
      * cbn [forallb map_succeeded snd andb]. exact Hr.
      * intros Ha. lia.
Qed.

(** The buffers after the loop. *)
Lemma bind_buffer_loop_buffers infos : forall i r0 st r st',
  bind_buffer_loop i infos (r0, st) = Some (r, st') ->
  NoDup (map bind_buffer infos) ->
  (forall h, ~ In h (map bind_buffer infos) -> buffers st' h = buffers st h) /\
  (forall h, vk_buffer_usage (buffers st' h) = vk_buffer_usage (buffers st h) /\
             vk_buffer_size (buffers st' h) = vk_buffer_size (buffers st h)) /\
  (forall info, In info infos ->
     exists mem,
       bind_memory info = Some mem /\
       vk_device_address (buffers st (bind_buffer info)) = 0 /\
       vk_device_address (buffers st' (bind_buffer info)) =
         u64 (addr_dev mem + bind_memoryOffset info) /\
       (host_ptr (buffers st' (bind_buffer info)) =
          host_ptr (buffers st (bind_buffer info)) \/
        exists j addr,
          In (j, Some addr) (mapped_since st st') /\
          host_ptr (buffers st' (bind_buffer info)) =
            u64 (addr + Z.land (bind_memoryOffset info) (u64 getpagesize)))).
Proof.
  induction infos as [|info rest IH]; intros i r0 st r st';
    cbn [bind_buffer_loop map].
  - intros H _; injection H as <- <-. repeat split; auto. intros ? [].
  - destruct (bind_buffer_memory i info (r0, st)) as [[r1 st1]|] eqn:H1;
      [|discriminate].
    intros H Hnd. inversion Hnd as [|? ? Hnotin Hnd']; subst.
    destruct (IH _ _ _ _ _ H Hnd') as (Hout & Hsame & Hin).
    destruct (bind_buffer_loop_result _ _ _ _ _ _ H) as (calls & Hcalls & _).
    destruct (bind_buffer_memory_spec _ _ _ _ _ _ H1)
      as (mem & Hmem & Hzero & Hother & Haddr & Hus & Hsz & Hcase).
    assert (Hm1 : exists c1, mmap_calls st1 = mmap_calls st ++ c1).
    { destruct Hcase as [(Hm & _)|[(Hm & _)|(a & Hm & _)]]; rewrite Hm;
        [exists []; now rewrite app_nil_r | eauto | eauto]. }
    destruct Hm1 as (c1 & Hc1).
    split; [|split].
    + intros h Hh. rewrite Hout by (intros Hx; apply Hh; right; exact Hx).
      apply Hother. intros ->. apply Hh. left. reflexivity.
    + intros h. destruct (Hsame h) as [Hu Hs]. rewrite Hu, Hs.
      destruct (Z.eq_dec h (bind_buffer info)) as [->|Hne];
        [split; assumption | rewrite (Hother h Hne); split; reflexivity].
    + intros info' [<-|Hin'].
      * exists mem. rewrite (Hout _ Hnotin).
        repeat split; auto.
        destruct Hcase as [(_ & _ & _ & Hp & _)
                          |[(_ & _ & _ & Hp & _)|(a & Hm & _ & _ & Hp & _)]];
          [left; exact Hp | left; exact Hp |].
        right. exists i, a. split; [|exact Hp].
        unfold mapped_since. rewrite Hcalls, Hm, <- app_assoc, skipn_length_app.
        left. reflexivity.
      * destruct (Hin info' Hin') as (mem' & Hmem' & Hz' & Ha' & Hp').
        assert (Hne : bind_buffer info' <> bind_buffer info).
        { intros Heq. apply Hnotin. rewrite <- Heq. apply in_map. exact Hin'. }
        exists mem'. rewrite <- (Hother _ Hne).
        repeat split; auto.
        destruct Hp' as [Hp'|(j & a & Hj & Hp')]; [left; exact Hp'|].
        right. exists j, a. split; [|exact Hp'].
        unfold mapped_since in *. rewrite Hcalls in *. rewrite Hc1.
        rewrite skipn_length_app in Hj.
        rewrite <- app_assoc, skipn_length_app. apply in_or_app. right.
        exact Hj.
Qed.

End BufferFacts.

(** * Further properties of the dispatch path *)

Section Further.

Context {E : Collaborators}.
Local Open Scope cmd_scope.

(** X1: a dispatch that runs to its end moves each state pointer exactly
    when its aspect is stale, that is dirty on entry or marked while the
    system values of the request are prepared: the shader program pointer
    (SPD) once if the shader is stale and not at all otherwise, the
    push-uniform pointer (FAU) once if the push uniforms are, the
    resource-table pointer (SRT) once if the shader or the descriptor state
    is; none of them is ever loaded from memory. *)
Theorem X1_state_pointers_reloaded_iff_dirty info c :
  cmd_dispatch_exit info c = DISPATCHED ->
  let l := all_instrs (emitted c (cmd_dispatch info c)) in
  count (is_move_to (sr_is SPD_0)) l =
    (if marked info c CS then 1 else 0)%nat /\
  count (is_move_to (sr_is FAU_0)) l =
    (if marked info c PUSH_UNIFORMS then 1 else 0)%nat /\
  count (is_move_to (sr_is SRT_0)) l =
    (if marked info c CS || marked info c DESC_STATE then 1 else 0)%nat /\
  count (is_load_to is_state_pointer) l = 0%nat.
Proof.
  intros He l.
  destruct (cmd_dispatch_stream info c He) as (tsd & c2 & _ & _ & D & _ & _ & Hl).
  subst l. rewrite Hl.
  destruct (dispatch_stream_counts info (shader (compute c))
              (kmod_props (device c)) tsd (is_indirect info)
              (wg_per_task_of info c) c2)
    as (_ & Hsrt & Hfau & Hspd & Hld & _).
  rewrite !D in *. cbn [is_desc_state andb] in *.
  rewrite ?orb_false_r in *.
  repeat split; auto.
  rewrite Hsrt.
  destruct (marked info c CS), (marked info c DESC_STATE); reflexivity.
Qed.

(** X2: every 64-bit immediate a dispatch moves into a staging register
    is the state the command buffer is left with: SRT gets the resource
    table of the compute descriptor state, SPD the address of the bound
    shader program, FAU the push-uniform pointer with the FAU count shifted
    to bit 56; the only other staging register written this way is TSD. *)
Theorem X2_state_registers_hold_current_state info c r v :
  In (cs_move64_to (cs_sr_reg64 r) v) (emitted c (cmd_dispatch info c)) ->
  let c' := cmd_dispatch info c in
  match r with
  | SRT_0 => v = res_table (cs_desc (compute c'))
  | SPD_0 => v = panvk_priv_mem_dev_addr (spd (shader (compute c')))
  | FAU_0 => v = Z.lor (push_uniforms (compute c'))
                   (u64 (Z.shiftl (fau_total_count (shader (compute c'))) 56))
  | _ => r = TSD_0
  end.
Proof.
  intros Hin c'.
  destruct (cmd_dispatch_exit info c) eqn:He.
  7: { destruct (cmd_dispatch_stream info c He)
         as (tsd & c2 & _ & _ & _ & Hpu & Hcd & Hl).
       destruct (cmd_dispatch_queues info c) as (_ & _ & _ & _ & Hsh & _).
       rewrite Hl in Hin. apply dispatch_stream_moves in Hin.
       subst c'. rewrite Hsh, <- Hpu, <- Hcd.
       destruct r; try exact Hin; try contradiction. reflexivity. }
  all: destruct (cmd_dispatch_queues info c)
         as (_ & _ & _ & _ & _ & _ & Hab & _);
       rewrite He in Hab; destruct Hab as [Hcs _]; [discriminate|];
       unfold emitted in Hin; rewrite Hcs, skipn_length_self in Hin;
       contradiction.
Qed.

(** X3: the value a dispatch moves into FAU packs two fields that can be
    read back: as long as the push-uniform pointer fits 56 bits, its low 56
    bits are that pointer and its top byte is the FAU count of the shader
    modulo 256 (the 64-bit shift drops anything above). *)
Theorem X3_fau_pointer_packs_count info c v :
  In (cs_move64_to (cs_sr_reg64 FAU_0) v) (emitted c (cmd_dispatch info c)) ->
  let c' := cmd_dispatch info c in
  let s := shader (compute c) in
  0 <= push_uniforms (compute c') < 2 ^ 56 ->
  0 <= fau_total_count s ->
  Z.land v (Z.ones 56) = push_uniforms (compute c') /\
  Z.shiftr v 56 = fau_total_count s mod 2 ^ 8.
Proof.
  intros Hin c' s Hp Hn.
  destruct (cmd_dispatch_exit info c) eqn:He.
  7: { destruct (cmd_dispatch_stream info c He)
         as (tsd & c2 & _ & _ & _ & Hpu & _ & Hl).
       rewrite Hl in Hin. apply dispatch_stream_moves in Hin.
       rewrite Hpu in Hin. subst v. apply fau_pointer_decode; assumption. }
  all: destruct (cmd_dispatch_queues info c)
         as (_ & _ & _ & _ & _ & _ & Hab & _);
       rewrite He in Hab; destruct Hab as [Hcs _]; [discriminate|];
       unfold emitted in Hin; rewrite Hcs, skipn_length_self in Hin;
       contradiction.
Qed.

(** X4: a dispatch that runs to its end first allocates a local-storage
    descriptor of its own, gets a non-null block, and moves the GPU address
    of that block into TSD, once. *)
Theorem X4_dispatch_uses_fresh_tsd info c :
  cmd_dispatch_exit info c = DISPATCHED ->
  let c' := cmd_dispatch info c in
  exists blk rest,
    allocated c c' = (alloc_desc LOCAL_STORAGE, blk) :: rest /\
    gpu blk <> 0 /\
    In (cs_move64_to (cs_sr_reg64 TSD_0) (gpu blk)) (emitted c c') /\
    count (is_move_to (sr_is TSD_0)) (all_instrs (emitted c c')) = 1%nat.
Proof.
  intros He c'.
  destruct (cmd_dispatch_tsd_block info c He) as (blk & rest & Ha & Hg).
  destruct (cmd_dispatch_stream info c He)
    as (tsd & c2 & Htsd & Heq & _ & _ & _ & Hl).
  exists blk, rest. fold c' in Hl. rewrite Hl, Hg, <- Heq.
  split; [exact Ha|]. split; [exact Htsd|]. apply dispatch_stream_tsd_move.
Qed.


(** X6: [prepare_driver_set] does nothing and succeeds when neither the
    shader nor the descriptor state is dirty; otherwise it makes one
    request of [(dyn_bufs.count + 1) * PANVK_DESCRIPTOR_SIZE] bytes (in
    32-bit arithmetic) to the descriptor pool: refused, it returns
    [VK_ERROR_OUT_OF_DEVICE_MEMORY] with the compute state and the host
    memory untouched; granted, it succeeds, records the address of the
    block, keeps the resource table and leaves the descriptor state dirty,
    the other aspects as they were.  It never touches the queues or the TLS
    state. *)
Theorem X6_prepare_driver_set_outcome c :
  let r := run prepare_driver_set c in
  let stale := compute_state_dirty c CS || compute_state_dirty c DESC_STATE in
  let n := desc_info_dyn_bufs_count (shader (compute c)) in
  let req := alloc_dev_mem pool_desc
               (u32 (u32 (n + 1) * PANVK_DESCRIPTOR_SIZE))
               PANVK_DESCRIPTOR_SIZE in
  let blk := fst (ext_alloc req (pools c)) in
  (stale = false -> fst r = VK_SUCCESS /\ snd r = c) /\
  (stale = true ->
   allocated c (snd r) = [(req, blk)] /\
   (gpu blk = 0 ->
    fst r = VK_ERROR_OUT_OF_DEVICE_MEMORY /\
    compute (snd r) = compute c /\ host_stores (snd r) = host_stores c) /\
   (gpu blk <> 0 ->
    fst r = VK_SUCCESS /\
    compute_state_dirty (snd r) DESC_STATE = true /\
    compute_state_dirty (snd r) CS = compute_state_dirty c CS /\
    compute_state_dirty (snd r) PUSH_UNIFORMS =
      compute_state_dirty c PUSH_UNIFORMS /\
    dev_addr (driver_set (cs_desc (compute (snd r)))) = gpu blk /\
    res_table (cs_desc (compute (snd r))) = res_table (cs_desc (compute c)))) /\
  cs (snd r) = cs c /\ tls (snd r) = tls c.
Proof.
  unfold prepare_driver_set, run, panvk_cmd_alloc_dev_mem, panvk_cmd_alloc,
    cmd_fill_dyn_bufs, compute_state_set_dirty, allocated, compute_state_dirty.
  exec_unfold.
  destruct (BITSET_TEST (dirty (compute c)) (dirty_bit CS)) eqn:Hcs,
           (BITSET_TEST (dirty (compute c)) (dirty_bit DESC_STATE)) eqn:Hds;
    cbn [negb andb orb]; cbv beta iota.
  4: { repeat split; intros; try discriminate; reflexivity. }
  all: destruct (ext_alloc _ (pools c)) as [blk p'] eqn:A; cbn [fst snd gpu cpu].
  all: destruct (gpu blk =? 0) eqn:B; cbv beta iota;
       cbn [fst snd compute host_stores cs tls alloc_log set_compute
            set_host_stores set_alloc_log set_pools with_cs_desc with_dirty
            dirty cs_desc driver_set dev_addr res_table].
  all: first [apply Z.eqb_eq in B | apply Z.eqb_neq in B].
  all: rewrite ?skipn_length_app, ?BITSET_TEST_SET, ?Hcs, ?Hds.
  all: repeat split; intros; try discriminate; try congruence; try reflexivity.
  all: cbn [dirty_bit Z.eqb Pos.eqb]; apply orb_false_r.
Qed.


(** X8: the TLS descriptor of the command buffer is allocated at most
    once: along any run of commands, once it is non-null it is never
    replaced, and after a run with at least one successful dispatch it is
    non-null. *)
Theorem X8_tls_descriptor_allocated_once cmds c c' :
  exec_all cmds c = Some c' ->
  (gpu (tls_desc (tls c)) <> 0 -> tls_desc (tls c') = tls_desc (tls c)) /\
  (0 < successes cmds c -> gpu (tls_desc (tls c')) <> 0).
Proof.
  revert c. induction cmds as [|cmd rest IH]; intros c H.
  - injection H as <-. cbn [successes]. split; [reflexivity|lia].
  - cbn [exec_all] in H. destruct (exec cmd c) as [c1|] eqn:Hc; [|discriminate].
    destruct (IH c1 H) as (Hk & Hs).
    destruct (exec_frame cmd c c1 Hc) as (_ & _ & _ & _ & _ & Fk & Fs).
    split.
    + intros Hg. rewrite <- (Fk Hg). apply Hk. rewrite (Fk Hg). exact Hg.
    + cbn [successes]. rewrite Hc. intros Hpos.
      destruct (successful cmd c) eqn:Hok.
      * specialize (Fs eq_refl). rewrite (Hk Fs). exact Fs.
      * apply Hs. lia.
Qed.

(** X9: along any run of commands the stream of the compute subqueue
    only grows, and the number of run-compute instructions added to it is
    the number of successful dispatches: one for each dispatch that runs
    to its end, none for a dispatch that is skipped or aborted. *)
Theorem X9_one_run_compute_per_successful_dispatch cmds c c' :
  exec_all cmds c = Some c' ->
  (exists l, builder (at_compute (cs c')) = builder (at_compute (cs c)) ++ l) /\
  Z.of_nat (count is_run_compute (all_instrs (emitted c c'))) =
    successes cmds c.
Proof.
  revert c. induction cmds as [|cmd rest IH]; intros c H.
  - injection H as <-. split.
    + exists []. now rewrite app_nil_r.
    + unfold emitted. rewrite skipn_length_self. reflexivity.
  - cbn [exec_all] in H. destruct (exec cmd c) as [c1|] eqn:Hc; [|discriminate].
    destruct (IH c1 H) as ((l2 & Hl2) & Hn).
    destruct (exec_frame cmd c c1 Hc) as (_ & _ & _ & _ & (l1 & Hl1 & Hn1) & _).
    assert (Hb : builder (at_compute (cs c')) =
                 builder (at_compute (cs c)) ++ (l1 ++ l2)).
    { rewrite Hl2, Hl1, app_assoc. reflexivity. }
    split; [exists (l1 ++ l2); exact Hb|].
    rewrite (emitted_app c c' _ Hb).
    rewrite (emitted_app c1 c' _ Hl2) in Hn.
    cbn [successes]. rewrite Hc, <- Hn, all_instrs_app, count_app, Hn1.
    destruct (successful cmd c); lia.
Qed.

(** X10: no run of compute dispatches and state changes touches the
    vertex-tiler and fragment subqueues: their streams, their relative sync
    points and their tracing contexts stay as they were. *)
Theorem X10_dispatches_leave_other_subqueues_alone cmds c c' :
  exec_all cmds c = Some c' ->
  at_vertex_tiler (cs c') = at_vertex_tiler (cs c) /\
  at_fragment (cs c') = at_fragment (cs c) /\
  at_vertex_tiler (utrace_uts c') = at_vertex_tiler (utrace_uts c) /\
  at_fragment (utrace_uts c') = at_fragment (utrace_uts c).
Proof.
  revert c. induction cmds as [|cmd rest IH]; intros c H.
  - injection H as <-. repeat split.
  - cbn [exec_all] in H. destruct (exec cmd c) as [c1|] eqn:Hc; [|discriminate].
    destruct (IH c1 H) as (H1 & H2 & H3 & H4).
    destruct (exec_frame cmd c c1 Hc) as (F1 & F2 & F3 & F4 & _).
    rewrite H1, H2, H3, H4. auto.
Qed.

(** X11: an indirect dispatch whose buffer address resolves to 0 is
    treated as a direct one: nothing is loaded into the workgroup-count
    registers, and if the dispatch runs to its end the three counts are
    moved as immediates, all zero, before the run-compute instruction. *)
Theorem X11_indirect_dispatch_of_null_buffer_is_direct c buffer offset :
  panvk_buffer_gpu_ptr buffer offset = 0 ->
  let r := CmdDispatchIndirect_exit c buffer offset in
  let l := emitted c (snd r) in
  count (is_load_to is_job_size) (all_instrs l) = 0%nat /\
  (fst r = DISPATCHED ->
   count (is_move_to is_job_size) (all_instrs l) = 3%nat /\
   exists l1 l2,
     l = l1 ++
         [cs_move32_to (cs_sr_reg32 JOB_SIZE_X) 0;
          cs_move32_to (cs_sr_reg32 JOB_SIZE_Y) 0;
          cs_move32_to (cs_sr_reg32 JOB_SIZE_Z) 0] ++ l2 /\
     count is_run_compute (all_instrs l1) = 0%nat).
Proof.
  intros Hnull r l. subst r l.
  unfold CmdDispatchIndirect_exit. cbv zeta. cbn [fst snd].
  rewrite Hnull.
  set (c1 := set_utrace _ _ c).
  set (info := indirect_info 0).
  assert (Hem : forall c2 u, emitted c (set_utrace PANVK_SUBQUEUE_COMPUTE u c2)
                             = emitted c1 c2) by reflexivity.
  rewrite Hem.
  destruct (cmd_dispatch_exit info c1) eqn:He.
  7: { destruct (cmd_dispatch_stream info c1 He)
         as (tsd & c2 & _ & _ & _ & _ & _ & Hl).
       rewrite Hl. change (is_indirect info) with false.
       destruct (dispatch_stream_counts info (shader (compute c1))
                   (kmod_props (device c1)) tsd false
                   (wg_per_task_of info c1) c2)
         as (_ & _ & _ & _ & _ & Hmv & Hld).
       split; [exact Hld|]. intros _. split; [exact Hmv|].
       exact (dispatch_stream_direct info (shader (compute c1))
                (kmod_props (device c1)) tsd (wg_per_task_of info c1) c2). }
  all: destruct (cmd_dispatch_queues info c1)
         as (_ & _ & _ & _ & _ & _ & Hab & _);
       rewrite He in Hab; destruct Hab as [Hcs _]; [discriminate|];
       unfold emitted; rewrite Hcs, skipn_length_self;
       split; [reflexivity | discriminate].
Qed.

(** X12: [dispatch_precomp] passes its assertions exactly when the
    barrier is [PANLIB_BARRIER_NONE], the kernel is in the cache and no
    block it asked for was refused; when an assertion fails, nothing has
    been emitted and the compute state is as it was. *)
Theorem X12_dispatch_precomp_completes_iff c grid barrier idx data n :
  let r := dispatch_precomp_body grid barrier idx data n c in
  (dispatch_precomp c grid barrier idx data n <> None <->
   barrier = PANLIB_BARRIER_NONE /\
   precomp_cache (device c) idx <> None /\
   Forall succeeded (allocated c (snd r))) /\
  (dispatch_precomp c grid barrier idx data n = None ->
   cs (snd r) = cs c /\ compute (snd r) = compute c).
Proof.
  unfold dispatch_precomp. rewrite dispatch_precomp_run_staged.
  unfold dispatch_precomp_staged.
  destruct barrier.
  2: { cbn [fst snd]. split; [|auto]. split; [congruence|].
       intros (H & _). discriminate. }
  destruct (precomp_cache (device c) idx) as [s|] eqn:Hs.
  2: { cbn [fst snd]. split; [|auto]. split; [congruence|].
       intros (_ & H & _). congruence. }
  cbv zeta.
  destruct (ext_alloc _ (pools c)) as [pu p'] eqn:A. cbn [fst snd].
  destruct (gpu pu =? 0) eqn:Hpu.
  { apply Z.eqb_eq in Hpu. cbn [fst snd].
    unfold allocated. cbn [alloc_log set_alloc_log set_pools cs compute].
    rewrite skipn_length_app.
    split; [|auto]. split; [congruence|]. intros (_ & _ & H).
    inversion H as [|? ? H1 _]. exfalso. apply H1. exact Hpu. }
  apply Z.eqb_neq in Hpu.
  match goal with
  | |- context [run (cmd_dispatch_prepare_tls ?s ?d ?i) ?c0] =>
      pose proof (prepare_tls_spec s d i c0) as T; cbv zeta in T;
      pose proof (prepare_tls_allocations s d i c0) as L; cbv zeta in L;
      set (r := run (cmd_dispatch_prepare_tls s d i) c0) in *
  end.
  destruct T as (Tcs & Tcomp & _).
  destruct L as (new & Hlog & Hiff & _).
  cbn [cs compute alloc_log set_host_stores set_alloc_log set_pools]
    in Tcs, Tcomp, Hlog.
  destruct (fst r =? 0) eqn:Htsd; cbn [fst snd].
  all: first [apply Z.eqb_eq in Htsd | apply Z.eqb_neq in Htsd].
  all: unfold allocated.
  all: try change (alloc_log (dispatch_precomp_finish ?l ?x))
         with (alloc_log x).
  all: rewrite Hlog, <- app_assoc, skipn_length_app.
  - split; [split|]; try congruence; auto.
    intros (_ & _ & H). apply Forall_app in H. destruct H as [_ H].
    apply Hiff in H. contradiction.
  - split; [split|]; try congruence.
    intros _. repeat split; try congruence.
    apply Forall_app. split;
      [repeat constructor; exact Hpu | apply Hiff; exact Htsd].
Qed.


(** X14: the first block a precompiled-kernel dispatch asks for is its
    push-uniform block, [BIFROST_PRECOMPILED_KERNEL_SYSVALS_SIZE + data_size]
    bytes of the descriptor pool aligned on 16; the first thing it writes
    there are the arguments with the system values (the grid as workgroup
    counts, the address of the printf buffer), and FAU gets the address of
    the block with the size in 8-byte words, rounded up, at bit 56. *)
Theorem X14_precomp_push_uniform_block c grid barrier idx data n c' :
  dispatch_precomp c grid barrier idx data n = Some c' ->
  let size := u64 (BIFROST_PRECOMPILED_KERNEL_SYSVALS_SIZE + n) in
  exists pu,
    gpu pu <> 0 /\
    nth_error (allocated c c') 0 =
      Some (alloc_dev_mem pool_desc size 16, pu) /\
    nth_error (skipn (length (host_stores c)) (host_stores c')) 0 =
      Some {| st_base := cpu pu; st_slot := 0;
              st_obj := PRECOMP_PUSH_UNIFORMS data n
                {| pk_num_workgroups :=
                     {| dim_x := count0 grid; dim_y := count1 grid;
                        dim_z := count2 grid |};
                   pk_printf_buffer_address := printf_bo_addr_dev (device c) |}
           |} /\
    In (cs_move64_to (cs_sr_reg64 FAU_0)
          (Z.lor (gpu pu) (u64 (Z.shiftl (DIV_ROUND_UP size 8) 56))))
       (emitted c c').
Proof.
  intros H size.
  destruct (dispatch_precomp_stream c grid barrier idx data n c' H)
    as (s & pu & tsd & c1 & _ & Hpu & Ha & Hh & Hl).
  exists pu. rewrite Hl. repeat split; auto.
  unfold precomp_stream. apply in_or_app. right. right. left. reflexivity.
Qed.

End Further.

(** * Properties of the neighbouring files *)

(** X15: after [resource_name_updated], [suffix_is_zero_square_bracketed]
    is set exactly when the name ends with "[0]", and then
    [last_square_bracket] is the offset of that suffix, [length - 3]. *)
Theorem X15_resource_name_suffix_flag name :
  let name' := resource_name_updated name in
  (suffix_is_zero_square_bracketed name' = true <->
   exists p, name_string name = Some (String.append p "[0]"%string)) /\
  (suffix_is_zero_square_bracketed name' = true ->
   last_square_bracket name' = name_length name' - 3).
Proof.
  cbv zeta. unfold resource_name_updated.
  destruct (name_string name) as [s|] eqn:Hs.
  2: { cbn. split; [|discriminate]. split; [discriminate|].
       intros (p & Hp). discriminate. }
  destruct (strrchr s "["%char) as [i|] eqn:Hi; cbn [suffix_is_zero_square_bracketed
    last_square_bracket name_length].
  - destruct (strrchr_some _ _ _ Hi) as (_ & Hlt & _).
    destruct (string_at_split s i) as (p & Hp & Hl); [lia|].
    unfold strcmp_is_zero. split.
    + split.
      * intros H. apply String.eqb_eq in H. exists p. rewrite <- H, <- Hp.
        reflexivity.
      * intros (q & Hq). injection Hq as ->.
        rewrite strrchr_append_bracket in Hi. injection Hi as <-.
        rewrite string_at_append. reflexivity.
    + intros H. apply String.eqb_eq in H.
      pose proof (string_at_length s i) as Hlen. rewrite H in Hlen.
      cbn [String.length] in Hlen. unfold strlen. lia.
  - split; [|discriminate]. split; [discriminate|].
    intros (q & Hq). injection Hq as ->.
    rewrite strrchr_append_bracket in Hi. discriminate.
Qed.

(** X16: after [resource_name_updated], [last_square_bracket] is -1
    exactly when the name is null or holds no '['; otherwise it is the
    offset of a '[' that no other '[' follows, below [length]; [length] is
    the length of the name, 0 for a null name. *)
Theorem X16_resource_name_last_bracket name :
  let name' := resource_name_updated name in
  -1 <= last_square_bracket name' /\
  (last_square_bracket name' = -1 <->
   forall s, name_string name = Some s ->
             forall i, String.get i s <> Some "["%char) /\
  (forall s, name_string name = Some s ->
     name_length name' = Z.of_nat (String.length s) /\
     last_square_bracket name' < name_length name' /\
     forall i, last_square_bracket name' = Z.of_nat i ->
       String.get i s = Some "["%char /\
       forall j, (i < j)%nat -> String.get j s <> Some "["%char) /\
  (name_string name = None -> name_length name' = 0).
Proof.
  cbv zeta. unfold resource_name_updated.
  destruct (name_string name) as [s|] eqn:Hs.
  2: { cbn [last_square_bracket name_length].
       split; [lia|]. split; [|split; [discriminate | reflexivity]].
       split; [discriminate | reflexivity]. }
  destruct (strrchr s "["%char) as [i|] eqn:Hi;
    cbn [last_square_bracket name_length]; unfold strlen.
  - destruct (strrchr_some _ _ _ Hi) as (Hg & Hlt & Hlast).
    split; [lia|]. split; [|split; [|discriminate]].
    + split; [lia|]. intros H. specialize (H s eq_refl i). contradiction.
    + intros s0 H0. injection H0 as <-.
      split; [reflexivity|]. split; [lia|].
      intros k Hk. apply Nat2Z.inj in Hk. subst k. split; assumption.
  - pose proof (proj1 (strrchr_none s "["%char) Hi) as Hn.
    split; [lia|]. split; [|split; [|discriminate]].
    + split; [|reflexivity]. intros _ s0 H0. injection H0 as <-. exact Hn.
    + intros s0 H0. injection H0 as <-.
      split; [reflexivity|]. split; [lia|].
      intros k Hk. lia.
Qed.

(** X17: [panvk_image_get_total_size] is the furthest end of a plane:
    no plane of the image ends (slice 0 offset plus data size, in 64-bit
    arithmetic) beyond it, it is 0 for an image without planes and the end
    of one of the planes otherwise. *)
Theorem X17_image_total_size_is_the_furthest_plane_end image :
  let total := panvk_image_get_total_size image in
  (forall plane, 0 <= plane < plane_count image ->
                 plane_end image plane <= total) /\
  (plane_count image <= 0 -> total = 0) /\
  (0 < plane_count image ->
   exists plane, 0 <= plane < plane_count image /\
                 total = plane_end image plane).
Proof.
  cbv zeta. unfold panvk_image_get_total_size.
  pose proof (total_size_loop_spec image (Z.to_nat (plane_count image)) 0 0)
    as H. cbv zeta in H. destruct H as (Hle & Hall & Hex).
  split; [|split].
  - intros plane Hp. apply Hall. lia.
  - intros Hn. replace (Z.to_nat (plane_count image)) with 0%nat by lia.
    reflexivity.
  - intros Hn. destruct Hex as [Heq | (p & Hp & Heq)].
    + exists 0. split; [lia|].
      assert (H0 : plane_end image 0 <= 0).
      { rewrite <- Heq. apply Hall. lia. }
      assert (H1 : 0 <= plane_end image 0).
      { unfold plane_end, u64. apply Z.mod_pos_bound. lia. }
      lia.
    + exists p. split; [lia | exact Heq].
Qed.

(** X18: as long as three times the RAM fits 64 bits, the heap size
    [get_system_heap_size] reports lies between half of the RAM and the
    RAM, and a machine with more RAM never gets a smaller heap, also across
    the 4 GiB threshold. *)
Theorem X18_system_heap_size_bounds info1 info2 :
  let ram1 := totalram info1 * mem_unit info1 in
  let ram2 := totalram info2 * mem_unit info2 in
  0 <= totalram info1 < 2 ^ 64 -> 0 <= totalram info2 < 2 ^ 64 ->
  0 <= ram1 <= ram2 -> ram2 * 3 < 2 ^ 64 ->
  ram2 / 2 <= get_system_heap_size info2 <= ram2 /\
  get_system_heap_size info1 <= get_system_heap_size info2.
Proof.
  intros ram1 ram2 H1 H2 Hle Hfit.
  assert (Hu : forall i, 0 <= totalram i < 2 ^ 64 ->
                 0 <= totalram i * mem_unit i -> 
                 totalram i * mem_unit i * 3 < 2 ^ 64 ->
                 get_system_heap_size i =
                 if totalram i * mem_unit i <=? 2 ^ 32
                 then totalram i * mem_unit i / 2
                 else totalram i * mem_unit i * 3 / 4).
  { intros i Hi H0 H3. unfold get_system_heap_size, u64.
    rewrite (Z.mod_small (totalram i)) by lia.
    rewrite (Z.mod_small (totalram i * mem_unit i)) by lia.
    rewrite (Z.mod_small (totalram i * mem_unit i * 3)) by lia.
    reflexivity. }
  rewrite (Hu info1), (Hu info2) by (fold ram1 ram2; lia).
  fold ram1 ram2.
  destruct (Z.leb_spec ram1 (2 ^ 32)), (Z.leb_spec ram2 (2 ^ 32)).
  - split; [split|].
    + lia.
    + apply Z.div_le_upper_bound; lia.
    + apply Z.div_le_mono; lia.
  - split; [split|].
    + apply Z.div_le_lower_bound; [lia|].
      pose proof (Z.mul_div_le ram2 2). lia.
    + apply Z.div_le_upper_bound; lia.
    + apply Z.div_le_lower_bound; [lia|].
      pose proof (Z.mul_div_le ram1 2). lia.
  - lia.
  - split; [split|].
    + apply Z.div_le_lower_bound; [lia|].
      pose proof (Z.mul_div_le ram2 2). lia.
    + apply Z.div_le_upper_bound; lia.
    + apply Z.div_le_mono; lia.
Qed.

Section MetaTheorem.

Context {F : ImageFlags}.

Lemma flags_subset_test a bits :
  bits <> 0 -> flags_subset bits a -> flag_test a bits = true.
Proof.
  unfold flags_subset, flag_test. intros Hb H.
  rewrite Z.land_comm, H. apply negb_true_iff, Z.eqb_neq. exact Hb.
Qed.

Lemma widened_transfer_dst_step aspects i :
  widened i
    (cond_update (fun _ => flag_test aspects VK_IMAGE_ASPECT_COLOR_BIT)
       (fun i => or_usage VK_IMAGE_USAGE_STORAGE_BIT
                   (or_usage VK_IMAGE_USAGE_COLOR_ATTACHMENT_BIT i))
       (cond_update (fun _ => flag_test aspects VK_IMAGE_ASPECT_DEPTH_BIT)
          (or_usage VK_IMAGE_USAGE_DEPTH_STENCIL_ATTACHMENT_BIT) i)).
Proof.
  eapply widened_trans; [apply widened_cond; intros; apply widened_or_usage|].
  apply widened_cond. intros j.
  eapply widened_trans; apply widened_or_usage.
Qed.

Ltac name_step i j :=
  match goal with
  | |- context [cond_update ?c ?f i] =>
      assert (widened i (cond_update c f i))
        by (apply widened_cond; intros;
            first [apply widened_or_usage
                  | apply widened_or_stencil_usage
                  | apply widened_or_create_flags
                  | apply widened_transfer_dst_step]);
      set (j := cond_update c f i) in *
  end.

(** X19: [panvk_image_pre_mod_select_meta_adjustments] only adds flags:
    every usage, stencil-usage and create flag of the image is kept, the
    format and the type are untouched.  A transfer-source usage brings the
    sampled usage with it (on the stencil side too); a transfer-destination
    usage of a colour format brings colour-attachment, storage and sampled
    usage; a transfer-destination stencil usage brings depth-stencil
    attachment and sampled stencil usage. *)
Theorem X19_meta_adjustments_only_add_flags image :
  let image' := panvk_image_pre_mod_select_meta_adjustments image in
  let aspects := vk_format_aspects (vk_format image) in
  widened image image' /\
  (flag_test (vk_usage image) VK_IMAGE_USAGE_TRANSFER_SRC_BIT = true ->
   flags_subset VK_IMAGE_USAGE_SAMPLED_BIT (vk_usage image')) /\
  (flag_test (vk_stencil_usage image) VK_IMAGE_USAGE_TRANSFER_SRC_BIT = true ->
   flags_subset VK_IMAGE_USAGE_SAMPLED_BIT (vk_stencil_usage image')) /\
  (flag_test (vk_usage image) VK_IMAGE_USAGE_TRANSFER_DST_BIT = true ->
   flag_test aspects VK_IMAGE_ASPECT_COLOR_BIT = true ->
   VK_IMAGE_USAGE_COLOR_ATTACHMENT_BIT <> 0 ->
   flags_subset
     (Z.lor VK_IMAGE_USAGE_COLOR_ATTACHMENT_BIT
        (Z.lor VK_IMAGE_USAGE_STORAGE_BIT VK_IMAGE_USAGE_SAMPLED_BIT))
     (vk_usage image')) /\
  (flag_test (vk_stencil_usage image) VK_IMAGE_USAGE_TRANSFER_DST_BIT = true ->
   VK_IMAGE_USAGE_DEPTH_STENCIL_ATTACHMENT_BIT <> 0 ->
   flags_subset
     (Z.lor VK_IMAGE_USAGE_DEPTH_STENCIL_ATTACHMENT_BIT
            VK_IMAGE_USAGE_SAMPLED_BIT)
     (vk_stencil_usage image')).
Proof.
  cbv zeta. unfold panvk_image_pre_mod_select_meta_adjustments. cbv zeta.
  name_step image i1. name_step i1 i2. name_step i2 i3. name_step i3 i4.
  name_step i4 i5. name_step i5 i6. name_step i6 i7. name_step i7 i8.
  name_step i8 i9.
  pose proof (widened_trans _ _ _ H0 H1) as W13.
  pose proof (widened_trans _ _ _ H H0) as W02.
  pose proof (widened_trans _ _ _ W02 H1) as W03.
  pose proof (widened_trans _ _ _ H2 H3) as W35.
  pose proof (widened_trans _ _ _ H3 (widened_trans _ _ _ H4 H5)) as W47.
  pose proof (widened_trans _ _ _ H6 H7) as W79.
  pose proof (widened_trans _ _ _ H5 W79) as W69.
  pose proof (widened_trans _ _ _ W47 W79) as W49.
  pose proof (widened_trans _ _ _ H2 W49) as W39.
  pose proof (widened_trans _ _ _ H1 W39) as W29.
  pose proof (widened_trans _ _ _ H0 W29) as W19.
  pose proof H7 as W89.
  split; [exact (widened_trans _ _ _ H W19)|].
  split; [|split; [|split]].
  - intros Hs. eapply flags_subset_trans; [|apply W19].
    subst i1. unfold cond_update. rewrite Hs. apply flags_subset_lor_r.
  - intros Hs. eapply flags_subset_trans; [|apply W29].
    assert (Hs1 : flag_test (vk_stencil_usage i1)
                    VK_IMAGE_USAGE_TRANSFER_SRC_BIT = true).
    { eapply flag_test_widened; [|exact Hs]. apply H. }
    subst i2. unfold cond_update. rewrite Hs1. apply flags_subset_lor_r.
  - intros Hd Hc Hnz.
    assert (Hd2 : flag_test (vk_usage i2) VK_IMAGE_USAGE_TRANSFER_DST_BIT
                  = true).
    { eapply flag_test_widened; [|exact Hd]. apply W02. }
    assert (Hcs : flags_subset
                    (Z.lor VK_IMAGE_USAGE_COLOR_ATTACHMENT_BIT
                           VK_IMAGE_USAGE_STORAGE_BIT) (vk_usage i3)).
    { subst i3. unfold cond_update at 1. rewrite Hd2.
      unfold cond_update at 1. rewrite Hc.
      cbn [vk_usage or_usage]. apply flags_subset_lor.
      - eapply flags_subset_trans; [|apply flags_subset_lor_l].
        apply flags_subset_lor_r.
      - apply flags_subset_lor_r. }
    assert (Hc5 : flag_test (vk_usage i5) VK_IMAGE_USAGE_COLOR_ATTACHMENT_BIT
                  = true).
    { apply flags_subset_test; [exact Hnz|].
      eapply flags_subset_trans; [|apply W35].
      eapply flags_subset_trans; [|exact Hcs]. apply flags_subset_lor_l. }
    rewrite Z.lor_assoc. apply flags_subset_lor.
    + eapply flags_subset_trans; [exact Hcs|]. apply W39.
    + eapply flags_subset_trans; [|apply W69].
      subst i6. unfold cond_update. rewrite Hc5. apply flags_subset_lor_r.
  - intros Hd Hnz.
    assert (Hd3 : flag_test (vk_stencil_usage i3)
                    VK_IMAGE_USAGE_TRANSFER_DST_BIT = true).
    { eapply flag_test_widened; [|exact Hd]. apply W03. }
    assert (Hds : flags_subset VK_IMAGE_USAGE_DEPTH_STENCIL_ATTACHMENT_BIT
                    (vk_stencil_usage i4)).
    { subst i4. unfold cond_update. rewrite Hd3. apply flags_subset_lor_r. }
    assert (Hd7 : flag_test (vk_stencil_usage i7)
                    VK_IMAGE_USAGE_DEPTH_STENCIL_ATTACHMENT_BIT = true).
    { apply flags_subset_test; [exact Hnz|].
      eapply flags_subset_trans; [exact Hds|]. apply W47. }
    apply flags_subset_lor.
    + eapply flags_subset_trans; [exact Hds|]. apply W49.
    + eapply flags_subset_trans; [|apply W89].
      subst i8. unfold cond_update. rewrite Hd7. apply flags_subset_lor_r.
Qed.

End MetaTheorem.

Section BufferTheorems.

Context {B : BufferEnv}.

(** X20: [panvk_BindBufferMemory2] returns [VK_SUCCESS] exactly when
    every host mapping it asked for was made, and
    [VK_ERROR_OUT_OF_HOST_MEMORY] otherwise; from v9 on it maps nothing,
    leaves every host pointer alone and succeeds. *)
Theorem X20_bind_buffer_memory_fails_iff_mapping_fails infos st rs :
  panvk_BindBufferMemory2 infos st = Some rs ->
  let r := fst rs in
  let st' := snd rs in
  (r = VK_SUCCESS <-> forallb map_succeeded (mapped_since st st') = true) /\
  (r <> VK_SUCCESS -> r = VK_ERROR_OUT_OF_HOST_MEMORY) /\
  (9 <= gpu_arch ->
   r = VK_SUCCESS /\ mapped_since st st' = [] /\
   forall h, host_ptr (buffers st' h) = host_ptr (buffers st h)).
Proof.
  unfold panvk_BindBufferMemory2. destruct rs as [r st']. intros H.
  cbn [fst snd].
  destruct (bind_buffer_loop_result _ _ _ _ _ _ H) as (calls & Hc & Hr & Ha).
  unfold mapped_since. rewrite Hc, skipn_length_app.
  destruct (forallb map_succeeded calls) eqn:Hf; subst r.
  - repeat split; auto; try congruence.
    + apply Ha; assumption.
    + apply Ha; assumption.
  - split; [split; discriminate|]. split; [reflexivity|].
    intros H9. destruct (Ha H9) as [-> _]. discriminate Hf.
Qed.

(** X21: when [panvk_BindBufferMemory2] returns, with distinct buffers
    in the array, each of them was unbound and now has the device address
    of its memory plus its offset (in 64-bit arithmetic), also when its
    mapping failed and the call reports an error; its host pointer is
    either untouched or the address of a mapping made by the call plus
    [offset & pgsize]; no other buffer changed. *)
Theorem X21_bind_buffer_memory_sets_every_address infos st rs :
  panvk_BindBufferMemory2 infos st = Some rs ->
  NoDup (map bind_buffer infos) ->
  let st' := snd rs in
  (forall h, ~ In h (map bind_buffer infos) -> buffers st' h = buffers st h) /\
  (forall info, In info infos ->
     exists mem,
       bind_memory info = Some mem /\
       vk_device_address (buffers st (bind_buffer info)) = 0 /\
       vk_device_address (buffers st' (bind_buffer info)) =
         u64 (addr_dev mem + bind_memoryOffset info) /\
       (host_ptr (buffers st' (bind_buffer info)) =
          host_ptr (buffers st (bind_buffer info)) \/
        exists j addr,
          In (j, Some addr) (mapped_since st st') /\
          host_ptr (buffers st' (bind_buffer info)) =
            u64 (addr + Z.land (bind_memoryOffset info) (u64 getpagesize)))).
Proof.
  unfold panvk_BindBufferMemory2. destruct rs as [r st']. intros H Hnd.
  cbn [snd].
  destruct (bind_buffer_loop_buffers _ _ _ _ _ _ H Hnd) as (H1 & _ & H3).
  split; assumption.
Qed.

End BufferTheorems.

(** * Runs on the platform *)

Import Platform.

Lemma is_some_default {A} (o : option A) (d : A) :
  is_some o = true -> o = Some (match o with Some x => x | None => d end).
Proof. destruct o; [reflexivity | discriminate]. Defined.



Lemma C3_witness :
  cmd_dispatch_exit direct_4_1_1 ready_cmdbuf = DISPATCHED /\
  sysvals_unchanged direct_4_1_1 (cmd_dispatch direct_4_1_1 ready_cmdbuf) /\
  cmd_dispatch_exit direct_4_1_1 (cmd_dispatch direct_4_1_1 ready_cmdbuf) =
    DISPATCHED /\
  (let c1 := cmd_dispatch direct_4_1_1 ready_cmdbuf in
   let l := emitted c1 (cmd_dispatch direct_4_1_1 c1) in
   all_clean c1 /\
   count (is_move_to is_state_pointer) (all_instrs l) = 0%nat /\
   count (is_load_to is_state_pointer) (all_instrs l) = 0%nat /\
   count is_run_compute (all_instrs l) = 1%nat /\
   (forall x, In x [0; 1; 2; 3; 4] ->
              count is_sync_add (executed (SB_ITER x) l) = 1%nat) /\
   relative_sync_point (at_compute (cs (cmd_dispatch direct_4_1_1 c1))) =
     relative_sync_point (at_compute (cs c1)) + 1).
Proof.
  assert (H1 : cmd_dispatch_exit direct_4_1_1 ready_cmdbuf = DISPATCHED)
    by (vm_compute; reflexivity).
  assert (H2 : sysvals_unchanged direct_4_1_1
                 (cmd_dispatch direct_4_1_1 ready_cmdbuf))
    by (intros a; destruct a; vm_compute; reflexivity).
  assert (H3 : cmd_dispatch_exit direct_4_1_1
                 (cmd_dispatch direct_4_1_1 ready_cmdbuf) = DISPATCHED)
    by (vm_compute; reflexivity).
  split; [exact H1|]. split; [exact H2|]. split; [exact H3|].
  exact (C3_clean_dispatch_reloads_no_state_pointer
           direct_4_1_1 direct_4_1_1 ready_cmdbuf H1 H2 H3).
Defined.

Lemma C4_witness :
  compute_state_dirty ready_cmdbuf CS ||
  compute_state_dirty ready_cmdbuf DESC_STATE = true /\
  fst (run prepare_driver_set ready_cmdbuf) = VK_SUCCESS /\
  (let c := ready_cmdbuf in
   let s := shader (compute c) in
   let n := desc_info_dyn_bufs_count s in
   let c' := snd (run prepare_driver_set c) in
   let table := driver_set_table (desc_state (compute c)) s in
   Z.of_nat (length table) = n + 1 /\
   nth_error table 0 = Some (SAMPLER false) /\
   (forall i, (i < Z.to_nat n)%nat ->
      exists sz addr, nth_error table (S i) = Some (BUFFER sz addr)) /\
   exists blk,
     gpu blk <> 0 /\
     allocated c c' =
       [(alloc_dev_mem pool_desc ((n + 1) * PANVK_DESCRIPTOR_SIZE)
           PANVK_DESCRIPTOR_SIZE, blk)] /\
     host_stores c' = host_stores c ++ store_array (cpu blk) 0 table /\
     driver_set (cs_desc (compute c')) =
       {| dev_addr := gpu blk; size := (n + 1) * PANVK_DESCRIPTOR_SIZE |}).
Proof.
  split; [vm_compute; reflexivity|]. split; [vm_compute; reflexivity|].
  apply (C4_driver_set_table_layout ready_cmdbuf);
    vm_compute; first [reflexivity | discriminate].
Defined.

Lemma C5_witness :
  cmd_dispatch_exit (indirect_info 1008) ready_cmdbuf = DISPATCHED /\
  indirect_buffer_dev_addr (indirect_info 1008) <> 0 /\
  (let info := indirect_info 1008 in
   let l := emitted ready_cmdbuf (cmd_dispatch info ready_cmdbuf) in
   count (is_move_to is_job_size) (all_instrs l) = 0%nat /\
   (exists l1 l2,
      l = l1 ++
          [cs_move64_to (cs_scratch_reg64 0) (indirect_buffer_dev_addr info);
           cs_load_to (cs_sr_reg_tuple JOB_SIZE_X 3) (cs_scratch_reg64 0)
             (BITFIELD_MASK 3) 0] ++ l2 /\
      count is_run_compute (all_instrs l1) = 0%nat) /\
   count (is_load_to is_job_size) (all_instrs l) = 1%nat).
Proof.
  assert (H1 : cmd_dispatch_exit (indirect_info 1008) ready_cmdbuf = DISPATCHED)
    by (vm_compute; reflexivity).
  assert (H2 : indirect_buffer_dev_addr (indirect_info 1008) <> 0)
    by (vm_compute; discriminate).
  split; [exact H1|]. split; [exact H2|].
  destruct (C5_workgroup_counts_loaded_or_moved (indirect_info 1008)
              ready_cmdbuf) as [Hind _].
  destruct (Hind H2) as [Hmv Hrun].
  destruct (Hrun H1) as [Hshape Hld].
  cbv zeta. repeat split; assumption.
Defined.



Lemma C7_witness :
  panvk_priv_mem_dev_addr (spd (shader (compute unbound_cmdbuf))) = 0 /\
  (forall info,
     cmd_dispatch_exit info unbound_cmdbuf = SKIP_NO_SHADER /\
     cmd_dispatch info unbound_cmdbuf = unbound_cmdbuf) /\
  (forall bx by_ bz gx gy gz,
     let c' := CmdDispatchBase unbound_cmdbuf bx by_ bz gx gy gz in
     cs c' = cs unbound_cmdbuf /\ pools c' = pools unbound_cmdbuf /\
     alloc_log c' = alloc_log unbound_cmdbuf /\
     host_stores c' = host_stores unbound_cmdbuf /\
     compute c' = compute unbound_cmdbuf /\
     tls c' = tls unbound_cmdbuf /\ device c' = device unbound_cmdbuf) /\
  (forall buffer offset,
     let c' := CmdDispatchIndirect unbound_cmdbuf buffer offset in
     cs c' = cs unbound_cmdbuf /\ pools c' = pools unbound_cmdbuf /\
     alloc_log c' = alloc_log unbound_cmdbuf /\
     host_stores c' = host_stores unbound_cmdbuf /\
     compute c' = compute unbound_cmdbuf /\
     tls c' = tls unbound_cmdbuf /\ device c' = device unbound_cmdbuf).
Proof.
  split; [vm_compute; reflexivity|].
  apply (C7_no_shader_no_op unbound_cmdbuf).
  vm_compute; reflexivity.
Defined.

Lemma C8_witness :
  let c := ready_cmdbuf in
  let info := direct_4_1_1 in
  let s := shader (compute c) in
  let props := kmod_props (device c) in
  let instances :=
    pan_calc_wls_instances (cs_local_size s) props
      (if is_indirect info then None else Some (direct_wg_count info)) in
  let core_id_range := snd (pan_query_core_count props) in
  panvk_priv_mem_dev_addr (spd s) <> 0 /\
  info_wls_size s <> 0 /\
  gpu (fst (ext_alloc (alloc_desc LOCAL_STORAGE) (pools c))) <> 0 /\
  0 <= info_wls_size s * instances * core_id_range < 2 ^ 32 /\
  exists blk,
    nth_error (allocated c (cmd_dispatch info c)) 1 =
    Some (alloc_dev_mem pool_tls
            (info_wls_size s * instances * core_id_range) 4096, blk).
Proof.
  cbv zeta.
  assert (H1 : panvk_priv_mem_dev_addr
                 (spd (shader (compute ready_cmdbuf))) <> 0)
    by (vm_compute; discriminate).
  assert (H2 : info_wls_size (shader (compute ready_cmdbuf)) <> 0)
    by (vm_compute; discriminate).
  assert (H3 : gpu (fst (ext_alloc (alloc_desc LOCAL_STORAGE)
                           (pools ready_cmdbuf))) <> 0)
    by (vm_compute; discriminate).
  split; [exact H1|]. split; [exact H2|]. split; [exact H3|].
  assert (H4 : 0 <= 64 * (4 * 1 * 1) * 4 < 2 ^ 32) by lia.
  split; [exact H4|].
  exact (C8_wls_block_size direct_4_1_1 ready_cmdbuf H1 H2 H3 H4).
Defined.

Lemma C9_witness :
  dispatch_precomp ready_cmdbuf a_grid PANLIB_BARRIER_NONE 0 [] 0 =
    Some after_precomp /\
  cmd_dispatch_exit direct_4_1_1 after_precomp = DISPATCHED /\
  (let l := emitted after_precomp (cmd_dispatch direct_4_1_1 after_precomp) in
   all_dirty after_precomp /\
   count (is_move_to (sr_is SPD_0)) (all_instrs l) = 1%nat /\
   count (is_move_to (sr_is SRT_0)) (all_instrs l) = 1%nat /\
   count (is_move_to (sr_is FAU_0)) (all_instrs l) = 1%nat).
Proof.
  assert (H1 : dispatch_precomp ready_cmdbuf a_grid PANLIB_BARRIER_NONE 0 [] 0
               = Some after_precomp)
    by (apply is_some_default; vm_compute; reflexivity).
  assert (H2 : cmd_dispatch_exit direct_4_1_1 after_precomp = DISPATCHED)
    by (vm_compute; reflexivity).
  split; [exact H1|]. split; [exact H2|].
  exact (C9_precomp_marks_every_aspect_dirty ready_cmdbuf a_grid
           PANLIB_BARRIER_NONE 0 [] 0 after_precomp direct_4_1_1 H1 H2).
Defined.

(** A first direct dispatch of 4x1x1 workgroups, every aspect dirty, on
    hardware older than v11: the TLS pointer is copied, the three state
    pointers and the fixed registers are moved, the workgroup counts follow
    as immediates, then one run-compute on axis X and the deferred add to
    the sync object. *)
Example first_direct_dispatch_stream :
  emitted ready_cmdbuf (cmd_dispatch direct_4_1_1 ready_cmdbuf) =
  [cs_move64_to (cs_scratch_reg64 0) 73728;
   cs_load64_to (cs_scratch_reg64 2) (cs_scratch_reg64 0) 8;
   cs_move64_to (cs_scratch_reg64 0) 65536;
   cs_store64 (cs_scratch_reg64 2) (cs_scratch_reg64 0) 8;
   cs_flush_stores;
   cs_move64_to (cs_sr_reg64 SRT_0) 73920;
   cs_move64_to (cs_sr_reg64 FAU_0) (Z.lor 73888 (Z.shiftl 2 56));
   cs_move64_to (cs_sr_reg64 SPD_0) 8192;
   cs_move64_to (cs_sr_reg64 TSD_0) 65536;
   cs_move32_to (cs_sr_reg32 GLOBAL_ATTRIBUTE_OFFSET) 0;
   cs_move32_to (cs_sr_reg32 WG_SIZE) 7175;
   cs_move32_to (cs_sr_reg32 JOB_OFFSET_X) 0;
   cs_move32_to (cs_sr_reg32 JOB_OFFSET_Y) 0;
   cs_move32_to (cs_sr_reg32 JOB_OFFSET_Z) 0;
   cs_move32_to (cs_sr_reg32 JOB_SIZE_X) 4;
   cs_move32_to (cs_sr_reg32 JOB_SIZE_Y) 1;
   cs_move32_to (cs_sr_reg32 JOB_SIZE_Z) 1;
   cs_next_iter_sb PANVK_SUBQUEUE_COMPUTE (cs_scratch_reg_tuple 0 2);
   cs_trace_run_compute (cs_scratch_reg_tuple 0 4) 1 MALI_TASK_AXIS_X
     {| res_sel_srt := 0; res_sel_fau := 0; res_sel_spd := 0;
        res_sel_tsd := 0 |};
   cs_load_to (cs_scratch_reg_tuple 0 3) cs_subqueue_ctx_reg 7 0;
   cs_add64 (cs_scratch_reg64 0) (cs_scratch_reg64 0) 96;
   cs_move64_to (cs_scratch_reg64 4) 1;
   cs_match (cs_scratch_reg32 2) (cs_scratch_reg32 3)
     [(0, [cs_sync64_add true MALI_CS_SYNC_SCOPE_CSG (cs_scratch_reg64 4)
             (cs_scratch_reg64 0) (cs_defer 1 5)]);
      (1, [cs_sync64_add true MALI_CS_SYNC_SCOPE_CSG (cs_scratch_reg64 4)
             (cs_scratch_reg64 0) (cs_defer 2 5)]);
      (2, [cs_sync64_add true MALI_CS_SYNC_SCOPE_CSG (cs_scratch_reg64 4)
             (cs_scratch_reg64 0) (cs_defer 4 5)]);
      (3, [cs_sync64_add true MALI_CS_SYNC_SCOPE_CSG (cs_scratch_reg64 4)
             (cs_scratch_reg64 0) (cs_defer 8 5)]);
      (4, [cs_sync64_add true MALI_CS_SYNC_SCOPE_CSG (cs_scratch_reg64 4)
             (cs_scratch_reg64 0) (cs_defer 16 5)])]].
Proof. vm_compute. reflexivity. Qed.

(** The blocks that dispatch asked for: its descriptor, 64 x 4 x 4 bytes of
    WLS, the TLS descriptor of the command buffer and three descriptor
    slots. *)
Example first_direct_dispatch_allocations :
  map fst (allocated ready_cmdbuf (cmd_dispatch direct_4_1_1 ready_cmdbuf)) =
  [alloc_desc LOCAL_STORAGE;
   alloc_dev_mem pool_tls 1024 4096;
   alloc_desc LOCAL_STORAGE;
   alloc_dev_mem pool_desc 96 32].
Proof. vm_compute. reflexivity. Qed.

(** Three dispatches in a row advance the sync point to 3 and leave the TLS
    size at the 16 bytes their shaders declare. *)
Example three_dispatches_counters :
  sync_point (after three_dispatches ready_cmdbuf) = 3 /\
  tls_size_of (after three_dispatches ready_cmdbuf) = 16.
Proof. vm_compute. split; reflexivity. Qed.

(** ** Runs of the further properties *)

Lemma X1_witness :
  cmd_dispatch_exit direct_4_1_1 ready_cmdbuf = DISPATCHED /\
  (let l := all_instrs (emitted ready_cmdbuf
                          (cmd_dispatch direct_4_1_1 ready_cmdbuf)) in
   count (is_move_to (sr_is SPD_0)) l =
     (if marked direct_4_1_1 ready_cmdbuf CS then 1 else 0)%nat /\
   count (is_move_to (sr_is FAU_0)) l =
     (if marked direct_4_1_1 ready_cmdbuf PUSH_UNIFORMS then 1 else 0)%nat /\
   count (is_move_to (sr_is SRT_0)) l =
     (if marked direct_4_1_1 ready_cmdbuf CS ||
         marked direct_4_1_1 ready_cmdbuf DESC_STATE then 1 else 0)%nat /\
   count (is_load_to is_state_pointer) l = 0%nat).
Proof.
  assert (H : cmd_dispatch_exit direct_4_1_1 ready_cmdbuf = DISPATCHED)
    by (vm_compute; reflexivity).
  split; [exact H|].
  exact (X1_state_pointers_reloaded_iff_dirty direct_4_1_1 ready_cmdbuf H).
Defined.

Lemma X2_witness :
  In (cs_move64_to (cs_sr_reg64 SRT_0) 73920)
     (emitted ready_cmdbuf (cmd_dispatch direct_4_1_1 ready_cmdbuf)) /\
  73920 = res_table (cs_desc (compute (cmd_dispatch direct_4_1_1 ready_cmdbuf))).
Proof.
  assert (H : In (cs_move64_to (cs_sr_reg64 SRT_0) 73920)
                (emitted ready_cmdbuf (cmd_dispatch direct_4_1_1 ready_cmdbuf))).
  { vm_compute. do 5 right. left. reflexivity. }
  split; [exact H|].
  exact (X2_state_registers_hold_current_state direct_4_1_1 ready_cmdbuf SRT_0
           73920 H).
Defined.

Lemma X3_witness :
  let v := Z.lor 73888 (Z.shiftl 2 56) in
  let c' := cmd_dispatch direct_4_1_1 ready_cmdbuf in
  In (cs_move64_to (cs_sr_reg64 FAU_0) v) (emitted ready_cmdbuf c') /\
  0 <= push_uniforms (compute c') < 2 ^ 56 /\
  0 <= fau_total_count (shader (compute ready_cmdbuf)) /\
  Z.land v (Z.ones 56) = push_uniforms (compute c') /\
  Z.shiftr v 56 = fau_total_count (shader (compute ready_cmdbuf)) mod 2 ^ 8.
Proof.
  cbv zeta.
  assert (H : In (cs_move64_to (cs_sr_reg64 FAU_0) (Z.lor 73888 (Z.shiftl 2 56)))
                (emitted ready_cmdbuf (cmd_dispatch direct_4_1_1 ready_cmdbuf))).
  { vm_compute. do 6 right. left. reflexivity. }
  assert (H1 : 0 <= push_uniforms
                      (compute (cmd_dispatch direct_4_1_1 ready_cmdbuf))
               < 2 ^ 56).
  { replace (push_uniforms (compute (cmd_dispatch direct_4_1_1 ready_cmdbuf)))
      with 73888 by (vm_compute; reflexivity).
    lia. }
  assert (H2 : 0 <= fau_total_count (shader (compute ready_cmdbuf)))
    by (vm_compute; discriminate).
  split; [exact H|]. split; [exact H1|]. split; [exact H2|].
  exact (X3_fau_pointer_packs_count direct_4_1_1 ready_cmdbuf _ H H1 H2).
Defined.

Lemma X4_witness :
  cmd_dispatch_exit direct_4_1_1 ready_cmdbuf = DISPATCHED /\
  (let c' := cmd_dispatch direct_4_1_1 ready_cmdbuf in
   exists blk rest,
     allocated ready_cmdbuf c' = (alloc_desc LOCAL_STORAGE, blk) :: rest /\
     gpu blk <> 0 /\
     In (cs_move64_to (cs_sr_reg64 TSD_0) (gpu blk)) (emitted ready_cmdbuf c') /\
     count (is_move_to (sr_is TSD_0)) (all_instrs (emitted ready_cmdbuf c')) =
       1%nat).
Proof.
  assert (H : cmd_dispatch_exit direct_4_1_1 ready_cmdbuf = DISPATCHED)
    by (vm_compute; reflexivity).
  split; [exact H|].
  exact (X4_dispatch_uses_fresh_tsd direct_4_1_1 ready_cmdbuf H).
Defined.


Lemma X9_witness :
  exec_all three_dispatches ready_cmdbuf =
    Some (after three_dispatches ready_cmdbuf) /\
  (exists l, builder (at_compute (cs (after three_dispatches ready_cmdbuf))) =
             builder (at_compute (cs ready_cmdbuf)) ++ l) /\
  Z.of_nat (count is_run_compute
              (all_instrs (emitted ready_cmdbuf
                             (after three_dispatches ready_cmdbuf)))) =
    successes three_dispatches ready_cmdbuf.
Proof.
  assert (H : exec_all three_dispatches ready_cmdbuf =
              Some (after three_dispatches ready_cmdbuf))
    by (apply is_some_default; vm_compute; reflexivity).
  split; [exact H|].
  exact (X9_one_run_compute_per_successful_dispatch three_dispatches ready_cmdbuf
           (after three_dispatches ready_cmdbuf) H).
Defined.

Lemma X10_witness :
  let c := ready_cmdbuf in
  let c' := after three_dispatches ready_cmdbuf in
  exec_all three_dispatches c = Some c' /\
  at_vertex_tiler (cs c') = at_vertex_tiler (cs c) /\
  at_fragment (cs c') = at_fragment (cs c) /\
  at_vertex_tiler (utrace_uts c') = at_vertex_tiler (utrace_uts c) /\
  at_fragment (utrace_uts c') = at_fragment (utrace_uts c).
Proof.
  cbv zeta.
  assert (H : exec_all three_dispatches ready_cmdbuf =
              Some (after three_dispatches ready_cmdbuf))
    by (apply is_some_default; vm_compute; reflexivity).
  split; [exact H|].
  exact (X10_dispatches_leave_other_subqueues_alone three_dispatches ready_cmdbuf
           (after three_dispatches ready_cmdbuf) H).
Defined.

Lemma X8_witness :
  let c := ready_cmdbuf in
  let c' := after three_dispatches ready_cmdbuf in
  exec_all three_dispatches c = Some c' /\
  (gpu (tls_desc (tls c)) <> 0 -> tls_desc (tls c') = tls_desc (tls c)) /\
  (0 < successes three_dispatches c -> gpu (tls_desc (tls c')) <> 0).
Proof.
  cbv zeta.
  assert (H : exec_all three_dispatches ready_cmdbuf =
              Some (after three_dispatches ready_cmdbuf))
    by (apply is_some_default; vm_compute; reflexivity).
  split; [exact H|].
  exact (X8_tls_descriptor_allocated_once three_dispatches ready_cmdbuf
           (after three_dispatches ready_cmdbuf) H).
Defined.

Lemma X11_witness :
  panvk_buffer_gpu_ptr null_buffer 8 = 0 /\
  (let r := CmdDispatchIndirect_exit ready_cmdbuf null_buffer 8 in
   let l := emitted ready_cmdbuf (snd r) in
   count (is_load_to is_job_size) (all_instrs l) = 0%nat /\
   (fst r = DISPATCHED ->
    count (is_move_to is_job_size) (all_instrs l) = 3%nat /\
    exists l1 l2,
      l = l1 ++
          [cs_move32_to (cs_sr_reg32 JOB_SIZE_X) 0;
           cs_move32_to (cs_sr_reg32 JOB_SIZE_Y) 0;
           cs_move32_to (cs_sr_reg32 JOB_SIZE_Z) 0] ++ l2 /\
      count is_run_compute (all_instrs l1) = 0%nat)).
Proof.
  assert (H : panvk_buffer_gpu_ptr null_buffer 8 = 0) by reflexivity.
  split; [exact H|].
  exact (X11_indirect_dispatch_of_null_buffer_is_direct ready_cmdbuf null_buffer 8
           H).
Defined.


Lemma X14_witness :
  dispatch_precomp ready_cmdbuf a_grid PANLIB_BARRIER_NONE 0 [] 0 =
    Some after_precomp /\
  (let size := u64 (BIFROST_PRECOMPILED_KERNEL_SYSVALS_SIZE + 0) in
   exists pu,
     gpu pu <> 0 /\
     nth_error (allocated ready_cmdbuf after_precomp) 0 =
       Some (alloc_dev_mem pool_desc size 16, pu) /\
     nth_error (skipn (length (host_stores ready_cmdbuf))
                  (host_stores after_precomp)) 0 =
       Some {| st_base := cpu pu; st_slot := 0;
               st_obj := PRECOMP_PUSH_UNIFORMS [] 0
                 {| pk_num_workgroups :=
                      {| dim_x := count0 a_grid; dim_y := count1 a_grid;
                         dim_z := count2 a_grid |};
                    pk_printf_buffer_address :=
                      printf_bo_addr_dev (device ready_cmdbuf) |} |} /\
     In (cs_move64_to (cs_sr_reg64 FAU_0)
           (Z.lor (gpu pu) (u64 (Z.shiftl (DIV_ROUND_UP size 8) 56))))
        (emitted ready_cmdbuf after_precomp)).
Proof.
  assert (H : dispatch_precomp ready_cmdbuf a_grid PANLIB_BARRIER_NONE 0 [] 0
              = Some after_precomp)
    by (apply is_some_default; vm_compute; reflexivity).
  split; [exact H|].
  exact (X14_precomp_push_uniform_block ready_cmdbuf a_grid
           PANLIB_BARRIER_NONE 0 [] 0 after_precomp H).
Defined.

Lemma X18_witness :
  let ram1 := totalram ram_4GiB * mem_unit ram_4GiB in
  let ram2 := totalram ram_8GiB * mem_unit ram_8GiB in
  0 <= totalram ram_4GiB < 2 ^ 64 /\ 0 <= totalram ram_8GiB < 2 ^ 64 /\
  0 <= ram1 <= ram2 /\ ram2 * 3 < 2 ^ 64 /\
  ram2 / 2 <= get_system_heap_size ram_8GiB <= ram2 /\
  get_system_heap_size ram_4GiB <= get_system_heap_size ram_8GiB.
Proof.
  cbv zeta.
  assert (H1 : 0 <= totalram ram_4GiB < 2 ^ 64) by (cbn; lia).
  assert (H2 : 0 <= totalram ram_8GiB < 2 ^ 64) by (cbn; lia).
  assert (H3 : 0 <= totalram ram_4GiB * mem_unit ram_4GiB <=
               totalram ram_8GiB * mem_unit ram_8GiB) by (cbn; lia).
  assert (H4 : totalram ram_8GiB * mem_unit ram_8GiB * 3 < 2 ^ 64)
    by (cbn; lia).
  split; [exact H1|]. split; [exact H2|]. split; [exact H3|].
  split; [exact H4|].
  exact (X18_system_heap_size_bounds ram_4GiB ram_8GiB H1 H2 H3 H4).
Defined.

Lemma X20_witness :
  panvk_BindBufferMemory2 three_binds unbound_buffers = Some after_binds /\
  (let r := fst after_binds in
   let st' := snd after_binds in
   (r = VK_SUCCESS <->
    forallb map_succeeded (mapped_since unbound_buffers st') = true) /\
   (r <> VK_SUCCESS -> r = VK_ERROR_OUT_OF_HOST_MEMORY) /\
   (9 <= gpu_arch ->
    r = VK_SUCCESS /\ mapped_since unbound_buffers st' = [] /\
    forall h, host_ptr (buffers st' h) = host_ptr (buffers unbound_buffers h))).
Proof.
  assert (H : panvk_BindBufferMemory2 three_binds unbound_buffers =
              Some after_binds)
    by (apply is_some_default; vm_compute; reflexivity).
  split; [exact H|].
  exact (X20_bind_buffer_memory_fails_iff_mapping_fails three_binds
           unbound_buffers after_binds H).
Defined.

Lemma X21_witness :
  panvk_BindBufferMemory2 three_binds unbound_buffers = Some after_binds /\
  NoDup (map bind_buffer three_binds) /\
  (let st' := snd after_binds in
   (forall h, ~ In h (map bind_buffer three_binds) ->
              buffers st' h = buffers unbound_buffers h) /\
   (forall info, In info three_binds ->
      exists mem,
        bind_memory info = Some mem /\
        vk_device_address (buffers unbound_buffers (bind_buffer info)) = 0 /\
        vk_device_address (buffers st' (bind_buffer info)) =
          u64 (addr_dev mem + bind_memoryOffset info) /\
        (host_ptr (buffers st' (bind_buffer info)) =
           host_ptr (buffers unbound_buffers (bind_buffer info)) \/
         exists j addr,
           In (j, Some addr) (mapped_since unbound_buffers st') /\
           host_ptr (buffers st' (bind_buffer info)) =
             u64 (addr + Z.land (bind_memoryOffset info) (u64 getpagesize))))).
Proof.
  assert (H : panvk_BindBufferMemory2 three_binds unbound_buffers =
              Some after_binds)
    by (apply is_some_default; vm_compute; reflexivity).
  assert (Hnd : NoDup (map bind_buffer three_binds)).
  { cbn. repeat constructor; cbn; intuition discriminate. }
  split; [exact H|]. split; [exact Hnd|].
  exact (X21_bind_buffer_memory_sets_every_address three_binds unbound_buffers
           after_binds H Hnd).
Defined.

(** The three binds: the first index buffer is mapped, the second cannot
    be, the vertex buffer needs no mapping; every buffer is bound all the
    same. *)
Example three_binds_outcome :
  fst after_binds = VK_ERROR_OUT_OF_HOST_MEMORY /\
  mmap_calls (snd after_binds) = [(0, Some 1052672); (1, None)] /\
  status_stores (snd after_binds) =
    [(0, VK_SUCCESS); (1, VK_SUCCESS); (1, VK_ERROR_OUT_OF_HOST_MEMORY)] /\
  map (fun h => vk_device_address (buffers (snd after_binds) h)) [1; 2; 3] =
    [16781328; 33554432; 50332160] /\
  map (fun h => host_ptr (buffers (snd after_binds) h)) [1; 2; 3] =
    [1056768; 0; 0].
Proof. vm_compute. repeat split; reflexivity. Qed.

(** The transfer destination becomes a sampled, storage and colour
    attachment image of which 2D array views can be made. *)
Example transfer_dst_image_adjusted :
  let image' :=
    panvk_image_pre_mod_select_meta_adjustments transfer_dst_image in
  vk_usage image' = 30 /\ vk_stencil_usage image' = 0 /\
  vk_create_flags image' = 32.
Proof. vm_compute. repeat split; reflexivity. Qed.
